(** * Kids-news article generator: the request orchestration of
      [services/geminiService.ts] and the article handler of [App.tsx]

    The service functions are asynchronous TypeScript functions that talk to a
    remote generative service through [ai.models.generateContent].  They are
    embedded here as programs of a small state-and-exception monad: the state
    is the chronological log of observable events (remote requests and console
    output), the exception is the thrown JavaScript [Error].  The remote
    service, the process environment and [JSON.parse] are the host the code
    runs in; they are a parameter of every program. *)

From Stdlib Require Import NArith ZArith Ascii String.
From stdpp Require Import base option list.
From Stdlib Require Import Lia.

Set Default Proof Using "Type".
Set Warnings "-register-all".
Local Open Scope N_scope.
Local Open Scope list_scope.

(** ** JavaScript strings

    A JavaScript string is a finite sequence of UTF-16 code units. *)

Module JS.

Definition jsstring := list N.

(** A source-code string literal made of ASCII characters. *)
Definition lit (s : string) : jsstring :=
  List.map N_of_ascii (list_ascii_of_string s).

Definition DQUOTE : jsstring := [34].
Definition LF : N := 10.

(** [WhiteSpace] and [LineTerminator] of ECMAScript, the code units that
    [String.prototype.trim] removes. *)
Definition isWhiteSpace (c : N) : bool :=
  (c =? 9) || (c =? 10) || (c =? 11) || (c =? 12) || (c =? 13) || (c =? 32)
  || (c =? 160) || (c =? 5760) || ((8192 <=? c) && (c <=? 8202))
  || (c =? 8232) || (c =? 8233) || (c =? 8239) || (c =? 8287)
  || (c =? 12288) || (c =? 65279).

Fixpoint trimStart (s : jsstring) : jsstring :=
  match s with
  | [] => []
  | c :: s' => if isWhiteSpace c then trimStart s' else s
  end.

Definition trimEnd (s : jsstring) : jsstring := rev (trimStart (rev s)).

(** [s.trim()] *)
Definition trim (s : jsstring) : jsstring := trimEnd (trimStart s).

(** [s.split(sep)] for a separator of one code unit: the pieces between the
    occurrences of [sep]; the empty string splits into one empty piece. *)
Fixpoint split (sep : N) (s : jsstring) : list jsstring :=
  match s with
  | [] => [[]]
  | c :: s' =>
      if c =? sep then [] :: split sep s'
      else match split sep s' with
           | piece :: pieces => (c :: piece) :: pieces
           | [] => [[c]]
           end
  end.

(** [pieces.join(sep)], the inverse of [split]. *)
Fixpoint join (sep : N) (pieces : list jsstring) : jsstring :=
  match pieces with
  | [] => []
  | [piece] => piece
  | piece :: rest => piece ++ sep :: join sep rest
  end.

(** [a.slice(b, e)] for non-negative integer bounds (out-of-range bounds are
    clamped to the length, as [slice] does). *)
Definition slice {A} (b e : nat) (a : list A) : list A := drop b (take e a).

Fixpoint startsWith (p s : jsstring) : bool :=
  match p, s with
  | [], _ => true
  | _ :: _, [] => false
  | a :: p', b :: s' => (a =? b) && startsWith p' s'
  end.

(** [s.includes(p)] *)
Fixpoint includes (s p : jsstring) : bool :=
  startsWith p s || match s with [] => false | _ :: s' => includes s' p end.

(** Truthiness of a string ([""] is falsy) and of a possibly [undefined]
    string. *)
Definition truthy (s : jsstring) : bool :=
  match s with [] => false | _ :: _ => true end.

Definition truthy_opt (o : option jsstring) : bool :=
  match o with Some s => truthy s | None => false end.

(** [a || b] on possibly-undefined strings with a string default. *)
Definition or_else (o : option jsstring) (d : jsstring) : jsstring :=
  match o with
  | Some s => if truthy s then s else d
  | None => d
  end.

(** A template-literal hole [${x}] for a possibly [undefined] string. *)
Definition show_opt (o : option jsstring) : jsstring :=
  match o with Some s => s | None => lit "undefined" end.

(** *** Errors

    Thrown values are [Error] objects (the SDK throws subclasses of [Error]);
    what the code reads of them is [message] and, through [${error}], the
    result of [Error.prototype.toString]. *)
Record Error := mkError { name : jsstring; message : jsstring }.

(** [new Error(msg)] *)
Definition new_Error (msg : jsstring) : Error :=
  {| name := lit "Error"; message := msg |}.

(** [Error.prototype.toString] *)
Definition Error_toString (e : Error) : jsstring :=
  match name e, message e with
  | n, [] => n
  | [], m => m
  | n, m => n ++ lit ": " ++ m
  end.

End JS.
Export JS.

(** ** Numbers

    The only thing the code does with a number is to print it.  The model
    keeps a number as its JSON lexeme and prints it exactly as the language
    does. *)

Module JSNumber.

Local Open Scope bool_scope.
Local Open Scope Z_scope.

Definition isDigit (c : N) : bool := (48 <=? c)%N && (c <=? 57)%N.

Fixpoint span_digits (s : jsstring) : jsstring * jsstring :=
  match s with
  | c :: s' =>
      if isDigit c then let (ds, rest) := span_digits s' in (c :: ds, rest)
      else ([], s)
  | [] => ([], [])
  end.

Definition digits_value (ds : jsstring) : Z :=
  fold_left (fun acc c => acc * 10 + Z.of_N (c - 48)) ds 0.

(** The decimal digits of a positive integer, most significant first. *)
Fixpoint digits_of_pos (fuel : nat) (z : Z) (acc : jsstring) : jsstring :=
  match fuel with
  | O => acc
  | S fuel' =>
      if z <? 10 then Z.to_N (48 + z) :: acc
      else digits_of_pos fuel' (z / 10) (Z.to_N (48 + z mod 10) :: acc)
  end.

Definition digits_of (z : Z) : jsstring :=
  digits_of_pos (S (Z.to_nat (Z.log2 z))) z [].

(** [a * 10^t] compared with [b * 2^sh]. *)
Definition scaled (a t b sh : Z) : Z * Z :=
  (a * 10 ^ Z.max t 0 * 2 ^ Z.max (- sh) 0,
   b * 2 ^ Z.max sh 0 * 10 ^ Z.max (- t) 0).

Definition cmp_scaled (a t b sh : Z) : comparison :=
  let (l, r) := scaled a t b sh in l ?= r.

(** The sign, the digits [D] and the exponent [E] of a JSON number lexeme:
    its value is [D * 10^E], negated when the sign is set. *)
Definition decompose (lexeme : jsstring) : bool * Z * Z :=
  let (neg, s1) :=
    match lexeme with
    | c :: r => if (c =? 45)%N then (true, r) else (false, lexeme)
    | [] => (false, lexeme)
    end in
  let (int, s2) := span_digits s1 in
  let (frac, s3) :=
    match s2 with
    | c :: r => if (c =? 46)%N then span_digits r else ([], s2)
    | [] => ([], s2)
    end in
  let expo :=
    match s3 with
    | c :: r =>
        if (c =? 101)%N || (c =? 69)%N then
          match r with
          | g :: r' =>
              if (g =? 45)%N then - digits_value (fst (span_digits r'))
              else if (g =? 43)%N then digits_value (fst (span_digits r'))
              else digits_value (fst (span_digits r))
          | [] => 0
          end
        else 0
    | [] => 0
    end in
  (neg, digits_value (int ++ frac), expo - Z.of_nat (length frac)).

(** The double nearest to [P / Q] (ties to even), as mantissa and binary
    exponent: [m * 2^e] with [m < 2^53] and [e >= -1074]; [None] when the
    value rounds to infinity. *)
Definition nearest_double (P Q : Z) : option (Z * Z) :=
  let a := Z.log2 P - Z.log2 Q in
  let ge := if 0 <=? a then Q * 2 ^ a <=? P else Q <=? P * 2 ^ (- a) in
  let L := if ge then a else a - 1 in
  let e := Z.max (L - 52) (-1074) in
  let num := if 0 <=? e then P else P * 2 ^ (- e) in
  let den := if 0 <=? e then Q * 2 ^ e else Q in
  let q := num / den in
  let r := num mod den in
  let m := match 2 * r ?= den with
           | Gt => q + 1
           | Eq => if Z.odd q then q + 1 else q
           | Lt => q
           end in
  let (m, e) := if m =? 2 ^ 53 then (2 ^ 52, e + 1) else (m, e) in
  if 971 <? e then None else Some (m, e).

(** The shortest decimal that reads back as the double [m * 2^e]: its digits
    as an integer [s] and the exponent [t], the decimal being [s * 10^t].
    [n0] is the decimal position of the double. *)
Fixpoint shortest (fuel : nat) (k : Z) (m e n0 : Z) : Z * Z :=
  let t := n0 - k in
  let sh := e - 2 in
  let X := 4 * m in
  let LO := if (m =? 2 ^ 52) && (-1074 <? e) then X - 1 else X - 2 in
  let HI := X + 2 in
  let (num, den) := scaled X (- t) 1 (- sh) in
  let s1 := num / den in
  let r := num mod den in
  let inside s :=
    match cmp_scaled s t LO sh, cmp_scaled s t HI sh with
    | Gt, Lt => true
    | Eq, Lt | Gt, Eq => Z.even m
    | _, _ => false
    end in
  let pick :=
    match inside s1, inside (s1 + 1) with
    | true, true =>
        match 2 * r ?= den with
        | Lt => Some s1
        | Gt => Some (s1 + 1)
        | Eq => Some (if Z.even s1 then s1 else s1 + 1)
        end
    | true, false => Some s1
    | false, true => Some (s1 + 1)
    | false, false => None
    end in
  match pick, fuel with
  | Some s, _ => (s, t)
  | None, O => (s1, t)
  | None, S fuel' => shortest fuel' (k + 1) m e n0
  end.

Fixpoint strip_zeros (fuel : nat) (s t : Z) : Z * Z :=
  match fuel with
  | O => (s, t)
  | S fuel' => if (s mod 10 =? 0) && (0 <? s) then strip_zeros fuel' (s / 10) (t + 1) else (s, t)
  end.

Definition zeros (n : Z) : jsstring := repeat 48%N (Z.to_nat n).

(** The layout of [Number::toString] for digits [ds] and position [n]
    (the value is [0.ds * 10^n]). *)
Definition layout (ds : jsstring) (n : Z) : jsstring :=
  let k := Z.of_nat (length ds) in
  if (k <=? n) && (n <=? 21) then ds ++ zeros (n - k)
  else if (0 <? n) && (n <=? 21) then
    firstn (Z.to_nat n) ds ++ [46%N] ++ skipn (Z.to_nat n) ds
  else if (-6 <? n) && (n <=? 0) then
    [48%N; 46%N] ++ zeros (- n) ++ ds
  else
    let ex := [101%N] ++ (if 0 <? n - 1 then [43%N] else [45%N])
                      ++ digits_of (Z.abs (n - 1)) in
    match ds with
    | [d] => d :: ex
    | d :: rest => d :: 46%N :: rest ++ ex
    | [] => ex
    end.

(** [String(JSON.parse(lexeme))] for the lexeme of a JSON number: the lexeme
    is read as an exact decimal, rounded to the nearest double, and printed as
    [Number::toString] prints it. *)
Definition toString (lexeme : jsstring) : jsstring :=
  match decompose lexeme with
  | (neg, D, E) =>
      if D <=? 0 then [48%N]
      else
        let sign := if neg then [45%N] else [] in
        let nd := Z.of_nat (length (digits_of D)) in
        let pos := nd + E in
        if 310 <? pos then sign ++ lit "Infinity"
        else if pos <? -330 then [48%N]
        else
          let P := D * 10 ^ Z.max E 0 in
          let Q := 10 ^ Z.max (- E) 0 in
          match nearest_double P Q with
          | None => sign ++ lit "Infinity"
          | Some (m, e) =>
              if m =? 0 then [48%N]
              else
                let ge10 n := match cmp_scaled 1 n m e with Gt => false | _ => true end in
                let n0 := if ge10 pos then pos + 1
                          else if ge10 (pos - 1) then pos else pos - 1 in
                let (s, t) := shortest 17 1 m e n0 in
                let (s, t) := strip_zeros 400 s t in
                let ds := digits_of s in
                sign ++ layout ds (t + Z.of_nat (length ds))
          end
  end.

End JSNumber.

(** ** The values that [JSON.parse] builds *)

Inductive JSON :=
| JNull
| JBool (b : bool)
| JNumber (lexeme : jsstring)
| JString (s : jsstring)
| JArray (elems : list JSON)
| JObject (members : list (jsstring * JSON)).

(** Induction on a value through the elements of its arrays. *)
Section JSON_elements_ind.

Variable P : JSON -> Prop.
Hypothesis Hnull : P JNull.
Hypothesis Hbool : forall b, P (JBool b).
Hypothesis Hnumber : forall lexeme, P (JNumber lexeme).
Hypothesis Hstring : forall s, P (JString s).
Hypothesis Harray : forall elems, Forall P elems -> P (JArray elems).
Hypothesis Hobject : forall members, P (JObject members).

Fixpoint JSON_elements_ind (v : JSON) : P v :=
  match v with
  | JNull => Hnull
  | JBool b => Hbool b
  | JNumber lexeme => Hnumber lexeme
  | JString s => Hstring s
  | JArray elems =>
      Harray elems
        ((fix all (l : list JSON) : Forall P l :=
            match l with
            | [] => @List.Forall_nil JSON P
            | x :: l' => @List.Forall_cons JSON P x l' (JSON_elements_ind x) (all l')
            end) elems)
  | JObject members => Hobject members
  end.

End JSON_elements_ind.

(** A value that may be [undefined] ([None]). *)
Definition JSValue := option JSON.

(** [obj.key] on a parsed object: of duplicate keys the last one wins; a
    missing key gives [undefined]. *)
Definition get (key : jsstring) (members : list (jsstring * JSON)) : JSValue :=
  match List.find (fun m => bool_decide (fst m = key)) (rev members) with
  | Some (_, v) => Some v
  | None => None
  end.

(** ** [types.ts]

    The interfaces say [string] for [text] and [paragraph].  Nothing checks
    the elements of the parsed array against them, so at run time [text]
    holds whatever [pData.paragraph] evaluates to. *)

Record ArticleParagraph := mkArticleParagraph {
  text : JSValue;
  imageUrl : jsstring;
}.

Record ArticleTextResponse := mkArticleTextResponse {
  paragraph : jsstring;
}.

Inductive ImageSize := Size1K | Size2K | Size4K.

Definition ImageSize_value (s : ImageSize) : jsstring :=
  match s with
  | Size1K => lit "1K"
  | Size2K => lit "2K"
  | Size4K => lit "4K"
  end.

(** ** The part of the [@google/genai] SDK that the service code touches *)

Record Blob := mkBlob {
  data : option jsstring;
  mimeType : option jsstring;
}.

Record Part := mkPart {
  part_text : option jsstring;
  inlineData : option Blob;
}.

Record Content := mkContent { parts : option (list Part) }.

Record Candidate := mkCandidate { content : option Content }.

Record GenerateContentResponse := mkResponse {
  candidates : option (list Candidate);
  response_text : option jsstring;      (* the [.text] accessor *)
}.

(** The [contents] of a request: a plain string or a list of parts. *)
Inductive Contents :=
| ContentsText (s : jsstring)
| ContentsParts (ps : list Part).

Record GenerateContentConfig := mkConfig {
  systemInstruction : option jsstring;
  responseMimeType : option jsstring;
  responseSchema : bool;                (* the array-of-{paragraph} schema *)
  aspectRatio : option jsstring;        (* imageConfig.aspectRatio *)
  imageSize : option ImageSize;         (* imageConfig.imageSize *)
  temperature : option jsstring;        (* the decimal literal *)
  maxOutputTokens : option N;
}.

Definition noConfig : GenerateContentConfig :=
  {| systemInstruction := None; responseMimeType := None;
     responseSchema := false; aspectRatio := None; imageSize := None;
     temperature := None; maxOutputTokens := None |}.

Record GenerateContentParameters := mkParameters {
  model : jsstring;
  contents : Contents;
  config : GenerateContentConfig;
}.

(** An SDK value that the service code passes through without looking at. *)
Inductive RequestOptions := opaqueRequestOptions (id : N).

(** ** Completions, events and the monad of service programs *)

Inductive Completion (A : Type) :=
| Normal (a : A)
| Throw (e : Error).
Arguments Normal {A} a.
Arguments Throw {A} e.

Inductive Level := LevelError | LevelWarn.

(** A console event keeps the first argument of the call, its label. *)
Inductive Event :=
| Request (p : GenerateContentParameters) (o : option RequestOptions)
| Console (lvl : Level) (label : jsstring).

Definition Log := list Event.

Definition isRequest (ev : Event) : bool :=
  match ev with Request _ _ => true | Console _ _ => false end.

(** The remote requests of a log, in the order they were issued. *)
Definition requests (log : Log) : Log := List.filter isRequest log.

(** What [JSON.parse] returns: any JSON value.  [Array.isArray] holds of the
    values built with [JArray]. *)
Definition any := JSON.

Definition TypeError (msg : jsstring) : Error :=
  {| name := lit "TypeError"; message := msg |}.

Definition CANNOT_READ_NULL : Error :=
  TypeError (lit "Cannot read properties of null (reading 'paragraph')").

Definition CANNOT_CONVERT : Error :=
  TypeError (lit "Cannot convert object to primitive value").

(** [pData.paragraph]: reading a property of [null] throws; an object gives
    the member or [undefined]; every other value has no such property. *)
Definition read_paragraph (pData : JSON) : Completion JSValue :=
  match pData with
  | JNull => Throw CANNOT_READ_NULL
  | JObject members => Normal (get (lit "paragraph") members)
  | _ => Normal None
  end.

(** [ToString] of a parsed value, as a template literal applies it.  An array
    prints as its elements joined by commas ([null] elements print as
    nothing).  An object prints as [[object Object]], unless it has a member
    named [toString]: that member is not a function and [valueOf] does not
    give a primitive, so the conversion throws. *)
Fixpoint ToString_json (v : JSON) : Completion jsstring :=
  match v with
  | JNull => Normal (lit "null")
  | JBool true => Normal (lit "true")
  | JBool false => Normal (lit "false")
  | JNumber lexeme => Normal (JSNumber.toString lexeme)
  | JString s => Normal s
  | JArray elems =>
      (fix join_from (first : bool) (l : list JSON) : Completion jsstring :=
         match l with
         | [] => Normal []
         | e :: l' =>
             match (match e with JNull => Normal [] | _ => ToString_json e end) with
             | Throw err => Throw err
             | Normal piece =>
                 match join_from false l' with
                 | Throw err => Throw err
                 | Normal rest => Normal ((if first then [] else [44]) ++ piece ++ rest)
                 end
             end
         end) true elems
  | JObject members =>
      if existsb (fun m => bool_decide (fst m = lit "toString")) members
      then Throw CANNOT_CONVERT
      else Normal (lit "[object Object]")
  end.

Definition ToString (v : JSValue) : Completion jsstring :=
  match v with
  | None => Normal (lit "undefined")
  | Some j => ToString_json j
  end.

(** The host of the service code: the process environment, the remote service
    behind [ai.models.generateContent] (its answer may depend on how many
    requests were issued before, since the service is not deterministic) and
    the [JSON.parse] builtin. *)
Record Host := mkHost {
  API_KEY : option jsstring;
  service : nat -> GenerateContentParameters -> Completion GenerateContentResponse;
  JSON_parse : jsstring -> Completion any;
}.

Definition M (A : Type) : Type := Log -> Completion A * Log.

Definition ret {A} (a : A) : M A := fun log => (Normal a, log).

Definition bind {A B} (m : M A) (k : A -> M B) : M B :=
  fun log =>
    match m log with
    | (Normal a, log') => k a log'
    | (Throw e, log') => (Throw e, log')
    end.

Definition throw {A} (e : Error) : M A := fun log => (Throw e, log).

(** [try { m } catch (e) { handler e }] *)
Definition try_catch {A} (m : M A) (handler : Error -> M A) : M A :=
  fun log =>
    match m log with
    | (Normal a, log') => (Normal a, log')
    | (Throw e, log') => handler e log'
    end.

Definition emit (ev : Event) : M unit := fun log => (Normal tt, log ++ [ev]).

Definition console_error (label : jsstring) : M unit := emit (Console LevelError label).
Definition console_warn (label : jsstring) : M unit := emit (Console LevelWarn label).

(** A finished computation as a program. *)
Definition lift {A} (c : Completion A) : M A := fun log => (c, log).

(** Run a program from the empty log. *)
Definition run {A} (m : M A) : Completion A * Log := m [].

Declare Scope js_scope.
Delimit Scope js_scope with js.
Notation "'let*' x ':=' m 'in' k" := (bind m (fun x => k))
  (at level 10, x name, m at level 100, k at level 200) : js_scope.
Local Open Scope js_scope.

(** [await ai.models.generateContent(params, options)]: the request is logged
    and the host decides how it completes. *)
Definition generateContent (h : Host) (p : GenerateContentParameters)
    (o : option RequestOptions) : M GenerateContentResponse :=
  fun log => (service h (length (requests log)) p, log ++ [Request p o]).

(** ** [services/geminiService.ts] *)

Section Service.

Variable h : Host.

Definition API_KEY_not_set : jsstring :=
  lit "API_KEY environment variable is not set. Please configure your API key.".

Definition PLACEHOLDER_GRAYSCALE : jsstring :=
  lit "https://picsum.photos/400/400?grayscale".

Definition PLACEHOLDER_BLUR : jsstring :=
  lit "https://picsum.photos/400/400?blur=2".

(** [response.candidates?.[0]?.content?.parts?.find(part => part.inlineData)] *)
Definition find_imagePart (response : GenerateContentResponse) : option Part :=
  match candidates response with
  | Some (candidate :: _) =>
      match content candidate with
      | Some c =>
          match parts c with
          | Some ps => List.find (fun part => bool_decide (is_Some (inlineData part))) ps
          | None => None
          end
      | None => None
      end
  | _ => None
  end.

(** [`data:${inlineData.mimeType};base64,${inlineData.data}`] *)
Definition data_url (b : Blob) : jsstring :=
  lit "data:" ++ show_opt (mimeType b) ++ lit ";base64," ++ show_opt (data b).

Definition articlePrompt (topic : jsstring) : jsstring :=
  lit "Write a funny, educational news article about " ++ DQUOTE ++ topic ++ DQUOTE
  ++ lit " for children aged 6-10." ++ [LF]
  ++ lit "  The article should be at least 5 paragraphs long. Each paragraph should be distinct, easy to understand, and include a humorous touch." ++ [LF]
  ++ lit "  Format your response as a JSON array of objects, where each object has a 'paragraph' key containing the text for that paragraph.".

Definition articleRequest (topic : jsstring) : GenerateContentParameters :=
  {| model := lit "gemini-3-flash-preview";
     contents := ContentsText (articlePrompt topic);
     config :=
       {| systemInstruction := Some (lit "You are a friendly, funny, and educational AI assistant writing news articles for children aged 6-10. Your articles should be easy to understand, and always include a humorous touch.");
          responseMimeType := Some (lit "application/json");
          responseSchema := true;
          aspectRatio := None; imageSize := None;
          temperature := None; maxOutputTokens := None |} |}.

(** The image prompt, with [pData.paragraph] already converted to the string
    [shown] by the template literal. *)
Definition imagePrompt (shown : jsstring) : jsstring :=
  lit "Generate a 3D, cartoon-style, funny image related to this text for kids: "
  ++ DQUOTE ++ shown ++ DQUOTE
  ++ lit ". Focus on bright colors, engaging characters, and a light-hearted mood.".

Definition paragraphImageRequest (shown : jsstring) : GenerateContentParameters :=
  {| model := lit "gemini-2.5-flash-image";
     contents := ContentsParts [ {| part_text := Some (imagePrompt shown); inlineData := None |} ];
     config :=
       {| systemInstruction := None; responseMimeType := None; responseSchema := false;
          aspectRatio := Some (lit "1:1"); imageSize := None;
          temperature := None; maxOutputTokens := None |} |}.

Definition NOT_ENOUGH_PARAGRAPHS : jsstring :=
  lit "Failed to parse article text or generate enough paragraphs. Raw response: ".

Definition NOT_FIVE_PARAGRAPHS : jsstring :=
  lit "Generated article does not contain at least 5 paragraphs or is not in the expected format.".

(** The fallback of the [catch] block: the lines of the raw response that are
    not empty after trimming, each one made a paragraph object. *)
Definition fallbackParagraphs (jsonString : jsstring) : list JSON :=
  let lines :=
    List.filter (fun line => (0 <? length (trim line))%nat) (split LF jsonString) in
  List.map (fun line => JObject [(lit "paragraph", JString line)])
    (slice 0 (Nat.max 5 (length lines)) lines).

(** Step 1 of [generateKidArticle], "Generate article text in JSON format":
    from the prompt to the validated [paragraphsData]. *)
Definition articleText (topic : jsstring) : M (list JSON) :=
  let* articleTextResponse :=
    try_catch (generateContent h (articleRequest topic) None)
      (fun error =>
         let* _ := console_error (lit "Error generating article text:") in
         throw (new_Error
           (lit "Could not generate article text. Please try a different topic. "
            ++ (if truthy (message error) then message error else Error_toString error))))
  in
  match response_text articleTextResponse with
  | None | Some [] =>
      throw (new_Error (lit "Failed to get article text from Gemini API."))
  | Some jsonString =>
      try_catch
        (let* paragraphsData := lift (JSON_parse h jsonString) in
         match paragraphsData with
         | JArray elems =>
             if (length elems <? 5)%nat
             then throw (new_Error NOT_FIVE_PARAGRAPHS)
             else ret elems
         | _ => throw (new_Error NOT_FIVE_PARAGRAPHS)
         end)
        (fun parseError =>
           let* _ := console_error (lit "Error parsing article JSON:") in
           let paragraphsData := fallbackParagraphs jsonString in
           if (length paragraphsData <? 5)%nat
           then throw (new_Error (NOT_ENOUGH_PARAGRAPHS ++ jsonString))
           else ret paragraphsData)
  end.

(** One iteration of the [for (const pData of paragraphsData)] loop; the
    result is [articleWithImages] after the iteration's [push].  Building the
    image prompt reads [pData.paragraph] and converts it to a string; both
    happen before the [try] block, so an error of either leaves the loop and
    the function. *)
Definition imageStep (articleWithImages : list ArticleParagraph)
    (pData : JSON) : M (list ArticleParagraph) :=
  let* paragraph := lift (read_paragraph pData) in
  let* shown := lift (ToString paragraph) in
  let* attempt :=
    try_catch
      (let* imageResponse := generateContent h (paragraphImageRequest shown) None in
       ret (inr imageResponse))
      (fun imageError =>
         let* _ := console_error
           (lit "Error generating image for paragraph: " ++ DQUOTE ++ shown ++ DQUOTE) in
         ret (inl (articleWithImages ++
                   [ {| text := paragraph; imageUrl := PLACEHOLDER_GRAYSCALE |} ])))
  in
  match attempt with
  | inl pushed => ret pushed                       (* [continue] *)
  | inr imageResponse =>
      let* imageUrl :=
        match find_imagePart imageResponse with
        | Some {| inlineData := Some blob |} => ret (data_url blob)
        | _ =>
            let* _ := console_warn
              (lit "No inline image data found for paragraph: " ++ DQUOTE ++ shown ++ DQUOTE) in
            ret PLACEHOLDER_BLUR
        end in
      ret (articleWithImages ++ [ {| text := paragraph; imageUrl := imageUrl |} ])
  end.

(** Step 2 of [generateKidArticle], "Generate a 3D image for each paragraph":
    the loop over [paragraphsData]. *)
Fixpoint articleImages (paragraphsData : list JSON)
    (articleWithImages : list ArticleParagraph) : M (list ArticleParagraph) :=
  match paragraphsData with
  | [] => ret articleWithImages
  | pData :: rest =>
      let* pushed := imageStep articleWithImages pData in
      articleImages rest pushed
  end.

Definition generateKidArticle (topic : jsstring) : M (list ArticleParagraph) :=
  if negb (truthy_opt (API_KEY h)) then throw (new_Error API_KEY_not_set)
  else
    let* paragraphsData := articleText topic in
    articleImages paragraphsData [].

(** The three single-request functions share the shape
    [try { request; extract } catch (error) { log; rethrow with a prefix }]. *)
Definition rethrow {A} (label prefix : jsstring) (error : Error) : M A :=
  let* _ := console_error label in
  throw (new_Error
    (prefix ++ (if truthy (message error) then message error
                else lit "An unknown error occurred."))).

Definition extract_image (missing : jsstring) (response : GenerateContentResponse)
    : M jsstring :=
  match find_imagePart response with
  | Some {| inlineData := Some blob |} => ret (data_url blob)
  | _ => throw (new_Error missing)
  end.

Definition imageRequest (prompt : jsstring) (size : ImageSize) : GenerateContentParameters :=
  let imageGenerationPrompt :=
    lit "Generate a vibrant, high-quality, cartoon-style image for kids based on: "
    ++ DQUOTE ++ prompt ++ DQUOTE
    ++ lit ". Ensure it is visually appealing and child-friendly." in
  {| model := lit "gemini-3-pro-image-preview";
     contents := ContentsParts
       [ {| part_text := Some imageGenerationPrompt; inlineData := None |} ];
     config :=
       {| systemInstruction := None; responseMimeType := None; responseSchema := false;
          aspectRatio := Some (lit "1:1"); imageSize := Some size;
          temperature := None; maxOutputTokens := None |} |}.

Definition generateImage (prompt : jsstring) (size : ImageSize)
    (requestOptions : option RequestOptions) : M jsstring :=
  if negb (truthy_opt (API_KEY h)) then throw (new_Error API_KEY_not_set)
  else
    try_catch
      (let* response := generateContent h (imageRequest prompt size) requestOptions in
       extract_image (lit "No image data found in the response.") response)
      (rethrow (lit "Error generating image:") (lit "Failed to generate image: ")).

Definition editRequest (originalImageBase64Data originalImageMimeType editPrompt : jsstring)
    : GenerateContentParameters :=
  {| model := lit "gemini-2.5-flash-image";
     contents := ContentsParts
       [ {| part_text := None;
            inlineData := Some {| data := Some originalImageBase64Data;
                                  mimeType := Some originalImageMimeType |} |};
         {| part_text := Some (lit "Edit this image for kids in a funny, cartoon style: "
                               ++ editPrompt);
            inlineData := None |} ];
     config := noConfig |}.

Definition editImage (originalImageBase64Data originalImageMimeType editPrompt : jsstring)
    : M jsstring :=
  if negb (truthy_opt (API_KEY h)) then throw (new_Error API_KEY_not_set)
  else
    try_catch
      (let* response :=
         generateContent h
           (editRequest originalImageBase64Data originalImageMimeType editPrompt) None in
       extract_image (lit "No edited image data found in the response.") response)
      (rethrow (lit "Error editing image:") (lit "Failed to edit image: ")).

Definition QUICK_FALLBACK : jsstring :=
  lit "Oops! I tried to think of a fun fact, but my wires got a bit tangled!".

Definition quickRequest (prompt : jsstring) : GenerateContentParameters :=
  {| model := lit "gemini-2.5-flash-lite";
     contents := ContentsText prompt;
     config :=
       {| systemInstruction := Some (lit "You are a friendly, enthusiastic AI assistant that provides short, fun, and easy-to-understand facts or answers for children.");
          responseMimeType := None; responseSchema := false;
          aspectRatio := None; imageSize := None;
          temperature := Some (lit "0.7"); maxOutputTokens := Some 100 |} |}.

Definition getQuickResponse (prompt : jsstring) : M jsstring :=
  if negb (truthy_opt (API_KEY h)) then throw (new_Error API_KEY_not_set)
  else
    try_catch
      (let* response := generateContent h (quickRequest prompt) None in
       ret (or_else (response_text response) QUICK_FALLBACK))
      (rethrow (lit "Error getting quick response:") (lit "Failed to get quick response: ")).

End Service.

(** ** [App.tsx]: the state of [App] and [handleGenerateArticle] *)

Inductive AppView := ARTICLES | IMAGE_STUDIO | QUICK_CHAT.

Record AppState := mkAppState {
  topic : jsstring;
  article : option (list ArticleParagraph);
  loading : bool;
  error : option jsstring;
  currentView : AppView;
  apiKeySelected : bool;
}.

Definition setArticle (v : option (list ArticleParagraph)) (st : AppState) : AppState :=
  {| topic := topic st; article := v; loading := loading st; error := error st;
     currentView := currentView st; apiKeySelected := apiKeySelected st |}.

Definition setLoading (v : bool) (st : AppState) : AppState :=
  {| topic := topic st; article := article st; loading := v; error := error st;
     currentView := currentView st; apiKeySelected := apiKeySelected st |}.

Definition setError (v : option jsstring) (st : AppState) : AppState :=
  {| topic := topic st; article := article st; loading := loading st; error := v;
     currentView := currentView st; apiKeySelected := apiKeySelected st |}.

Definition setApiKeySelected (v : bool) (st : AppState) : AppState :=
  {| topic := topic st; article := article st; loading := loading st; error := error st;
     currentView := currentView st; apiKeySelected := v |}.

Definition PLEASE_ENTER_TOPIC : jsstring :=
  lit "Please enter a current event topic to generate an article.".

(** The state of [App] once [handleGenerateArticle] has settled. *)
Definition handleGenerateArticle (h : Host) (st : AppState) : M AppState :=
  if negb (truthy (trim (topic st)))
  then ret (setError (Some PLEASE_ENTER_TOPIC) st)
  else
    let st := setArticle None (setError None (setLoading true st)) in
    let* st :=
      try_catch
        (let* generatedArticle := generateKidArticle h (topic st) in
         ret (setArticle (Some generatedArticle) st))
        (fun err =>
           let* _ := console_error (lit "Error generating article:") in
           let st := setError
             (Some (lit "Failed to generate article: "
                    ++ (if truthy (message err) then message err
                        else lit "An unknown error occurred."))) st in
           if truthy (message err)
              && includes (message err) (lit "Requested entity was not found.")
           then ret (setApiKeySelected false st)
           else ret st)
    in
    ret (setLoading false st).                     (* [finally] *)

(** Names for two messages of [generateKidArticle]. *)
Definition COULD_NOT_GENERATE : jsstring :=
  lit "Could not generate article text. Please try a different topic. ".

Definition NO_ARTICLE_TEXT : jsstring :=
  lit "Failed to get article text from Gemini API.".

(** [checkApiKeyStatus], the effect that [App] runs once after mounting.
    [window.aistudio] is either undefined or an object whose
    [hasSelectedApiKey] may or may not be a function; calling the function
    resolves to a flag or rejects. *)
Record AIStudio := mkAIStudio {
  hasSelectedApiKey : option (Completion bool);
}.

Definition checkApiKeyStatus (aistudio : option AIStudio) (h : Host) (st : AppState)
    : M AppState :=
  match aistudio with
  | Some {| hasSelectedApiKey := Some call |} =>
      try_catch
        (let* hasKey := lift call in
         ret (setApiKeySelected hasKey st))
        (fun e =>
           let* _ := console_error (lit "Error checking API key status:") in
           ret (setApiKeySelected false st))
  | _ =>
      let* _ := console_warn
        (lit "window.aistudio or hasSelectedApiKey not available. API key selection will not function.") in
      ret (setApiKeySelected (truthy_opt (API_KEY h)) st)
  end.

(** ** [services/geminiService.ts]: [blobToBase64] *)

Definition COMMA : N := 44.

(** The code units that [.] of a regular expression does not match. *)
Definition isLineTerminator (c : N) : bool :=
  (c =? 10) || (c =? 13) || (c =? 8232) || (c =? 8233).

(** The lazy group of the regular expression, from the start of [s]: the
    shortest run of code units other than line terminators after which [stop]
    follows; [acc] is the run so far, in reverse. *)
Fixpoint lazy_dots_until (stop s acc : jsstring) {struct s} : option jsstring :=
  if startsWith stop s then Some (rev acc)
  else match s with
       | [] => None
       | c :: s' =>
           if isLineTerminator c then None else lazy_dots_until stop s' (c :: acc)
       end.

(** [header.match(/data:(.*?);base64/)?.[1]]: the group of the leftmost
    match, [None] when nothing matches. *)
Fixpoint match_data_base64 (header : jsstring) : option jsstring :=
  let here :=
    if startsWith (lit "data:") header
    then lazy_dots_until (lit ";base64") (drop 5 header) []
    else None in
  match here with
  | Some group => Some group
  | None =>
      match header with
      | [] => None
      | _ :: rest => match_data_base64 rest
      end
  end.

(** What a [FileReader] makes of a blob on [readAsDataURL]: the string in
    [reader.result] when the read ends, or a failed read. *)
Inductive ReadOutcome :=
| Loaded (result : jsstring)
| ReadError.

Record File := mkFile { readAsDataURL : ReadOutcome }.

Record EncodedBlob := mkEncodedBlob {
  encoded_data : jsstring;
  encoded_mimeType : jsstring;
}.

(** The event that [reader.onerror] passes to [reject]; it is not an [Error]
    and has no [message]. *)
Definition ProgressEvent : Error := {| name := lit "ProgressEvent"; message := [] |}.

Definition EXTRACT_FAILED : jsstring :=
  lit "Failed to extract base64 data or mime type from Blob.".

(** How the promise of [blobToBase64] settles.  [split] never returns the
    empty array, so [header] is always a string. *)
Definition blobToBase64 (blob : File) : Completion EncodedBlob :=
  match readAsDataURL blob with
  | ReadError => Throw ProgressEvent
  | Loaded result =>
      match split COMMA result with
      | header :: rest =>
          let base64Data := head rest in
          let mimeType := or_else (match_data_base64 header) [] in
          if truthy_opt base64Data && truthy mimeType
          then Normal {| encoded_data := default [] base64Data;
                         encoded_mimeType := mimeType |}
          else Throw (new_Error EXTRACT_FAILED)
      | [] => Throw {| name := lit "TypeError"; message := lit "header is undefined" |}
      end
  end.

(** ** [components/QuickChat.tsx] *)

Module QuickChat.

Record State := mkState {
  question : jsstring;
  response : option jsstring;
  loading : bool;
  error : option jsstring;
}.

(** The part of a DOM event that [preventDefault] acts on. *)
Record FormEvent := mkFormEvent {
  cancelable : bool;
  defaultPrevented : bool;
}.

Definition preventDefault (e : FormEvent) : FormEvent :=
  {| cancelable := cancelable e;
     defaultPrevented := defaultPrevented e || cancelable e |}.

Definition setResponse (v : option jsstring) (st : State) : State :=
  {| question := question st; response := v; loading := loading st; error := error st |}.

Definition setLoading (v : bool) (st : State) : State :=
  {| question := question st; response := response st; loading := v; error := error st |}.

Definition setError (v : option jsstring) (st : State) : State :=
  {| question := question st; response := response st; loading := loading st; error := v |}.

Definition PLEASE_ASK : jsstring := lit "Please ask a question to get a fun fact!".

Definition COULD_NOT_GET : jsstring := lit "Oops! Couldn't get a fun fact right now: ".

(** The event and the state once [handleSubmit] has settled. *)
Definition handleSubmit (h : Host) (e : FormEvent) (st : State) : M (FormEvent * State) :=
  let e := preventDefault e in
  if negb (truthy (trim (question st)))
  then ret (e, setError (Some PLEASE_ASK) st)
  else
    let st := setResponse None (setError None (setLoading true st)) in
    let* st :=
      try_catch
        (let* aiResponse := getQuickResponse h (question st) in
         ret (setResponse (Some aiResponse) st))
        (fun err =>
           let* _ := console_error (lit "Error getting quick response:") in
           ret (setError
                  (Some (COULD_NOT_GET
                         ++ (if truthy (message err) then message err
                             else lit "An unknown error occurred."))) st))
    in
    ret (e, setLoading false st).                  (* [finally] *)

End QuickChat.

(** ** [components/ImageStudio.tsx]: the image-editing half *)

Module ImageStudio.

(** [ImageResult] of [types.ts]. *)
Record ImageResult := mkImageResult {
  url : jsstring;
  prompt : jsstring;
  size : option ImageSize;
}.

(** The state that [handleImageFileChange] and [handleEditImage] read and
    write.  [editError] may hold a string or a React node; these two handlers
    only ever store strings. *)
Record State := mkState {
  originalImageFile : option File;
  originalImagePreview : option jsstring;
  editPrompt : jsstring;
  editedImage : option ImageResult;
  editLoading : bool;
  editError : option jsstring;
}.

Definition setOriginalImageFile (v : option File) (st : State) : State :=
  {| originalImageFile := v; originalImagePreview := originalImagePreview st;
     editPrompt := editPrompt st; editedImage := editedImage st;
     editLoading := editLoading st; editError := editError st |}.

Definition setOriginalImagePreview (v : option jsstring) (st : State) : State :=
  {| originalImageFile := originalImageFile st; originalImagePreview := v;
     editPrompt := editPrompt st; editedImage := editedImage st;
     editLoading := editLoading st; editError := editError st |}.

Definition setEditedImage (v : option ImageResult) (st : State) : State :=
  {| originalImageFile := originalImageFile st;
     originalImagePreview := originalImagePreview st;
     editPrompt := editPrompt st; editedImage := v;
     editLoading := editLoading st; editError := editError st |}.

Definition setEditLoading (v : bool) (st : State) : State :=
  {| originalImageFile := originalImageFile st;
     originalImagePreview := originalImagePreview st;
     editPrompt := editPrompt st; editedImage := editedImage st;
     editLoading := v; editError := editError st |}.

Definition setEditError (v : option jsstring) (st : State) : State :=
  {| originalImageFile := originalImageFile st;
     originalImagePreview := originalImagePreview st;
     editPrompt := editPrompt st; editedImage := editedImage st;
     editLoading := editLoading st; editError := v |}.

(** [handleImageFileChange] with [e.target.files] as its argument; the state
    once the reader created for the preview has ended. *)
Definition handleImageFileChange (files : option (list File)) (st : State) : State :=
  match files with
  | Some (file :: _) =>
      let st := setOriginalImageFile (Some file) st in
      let st := setEditError None st in
      let st := setEditedImage None st in
      setOriginalImagePreview
        (match readAsDataURL file with
         | Loaded result => Some result
         | ReadError => None
         end) st
  | _ => setOriginalImagePreview None (setOriginalImageFile None st)
  end.

Definition PLEASE_UPLOAD : jsstring := lit "Please upload an image to edit.".

Definition PLEASE_ENTER_EDIT_PROMPT : jsstring := lit "Please enter an edit prompt.".

Definition FAILED_TO_EDIT : jsstring := lit "Failed to edit image: ".

(** The state once [handleEditImage] has settled. *)
Definition handleEditImage (h : Host) (st : State) : M State :=
  match originalImageFile st with
  | None => ret (setEditError (Some PLEASE_UPLOAD) st)
  | Some file =>
      if negb (truthy (trim (editPrompt st)))
      then ret (setEditError (Some PLEASE_ENTER_EDIT_PROMPT) st)
      else
        let st := setEditedImage None (setEditError None (setEditLoading true st)) in
        let* st :=
          try_catch
            (let* encoded := lift (blobToBase64 file) in
             let* imageUrl :=
               editImage h (encoded_data encoded) (encoded_mimeType encoded)
                 (editPrompt st) in
             ret (setEditedImage
                    (Some {| url := imageUrl; prompt := editPrompt st; size := None |}) st))
            (fun err =>
               let* _ := console_error (lit "Error editing image:") in
               ret (setEditError
                      (Some (FAILED_TO_EDIT
                             ++ (if truthy (message err) then message err
                                 else lit "An unknown error occurred."))) st))
        in
        ret (setEditLoading false st)              (* [finally] *)
  end.

End ImageStudio.

(** ** A reference [JSON.parse]

    The grammar of ECMA-404 as [JSON.parse] accepts it.  A number keeps its
    lexeme and an object its members as written. *)

Module Json.

Definition isJsonWhiteSpace (c : N) : bool :=
  (c =? 32) || (c =? 9) || (c =? 10) || (c =? 13).

Fixpoint skip_ws (s : jsstring) : jsstring :=
  match s with
  | [] => []
  | c :: s' => if isJsonWhiteSpace c then skip_ws s' else s
  end.

Definition isDigit (c : N) : bool := (48 <=? c) && (c <=? 57).

Definition hexval (c : N) : option N :=
  if isDigit c then Some (c - 48)
  else if (97 <=? c) && (c <=? 102) then Some (c - 87)
  else if (65 <=? c) && (c <=? 70) then Some (c - 55)
  else None.

Definition hex4 (a b c d : N) : option N :=
  match hexval a, hexval b, hexval c, hexval d with
  | Some a, Some b, Some c, Some d => Some (((a * 16 + b) * 16 + c) * 16 + d)
  | _, _, _, _ => None
  end.

(** The characters of a string after its opening quote, up to the closing
    quote; [acc] holds the decoded code units in reverse. *)
Fixpoint parse_chars (s acc : jsstring) : option (jsstring * jsstring) :=
  match s with
  | [] => None
  | c :: rest =>
      if c =? 34 then Some (rev acc, rest)
      else if c =? 92 then
        match rest with
        | [] => None
        | e :: rest1 =>
            if (e =? 34) || (e =? 92) || (e =? 47) then parse_chars rest1 (e :: acc)
            else if e =? 98 then parse_chars rest1 (8 :: acc)
            else if e =? 102 then parse_chars rest1 (12 :: acc)
            else if e =? 110 then parse_chars rest1 (10 :: acc)
            else if e =? 114 then parse_chars rest1 (13 :: acc)
            else if e =? 116 then parse_chars rest1 (9 :: acc)
            else if e =? 117 then
              match rest1 with
              | a :: b :: c' :: d :: rest2 =>
                  match hex4 a b c' d with
                  | Some u => parse_chars rest2 (u :: acc)
                  | None => None
                  end
              | _ => None
              end
            else None
        end
      else if c <? 32 then None
      else parse_chars rest (c :: acc)
  end.

Fixpoint digits (s : jsstring) : jsstring * jsstring :=
  match s with
  | c :: s' =>
      if isDigit c then let (ds, rest) := digits s' in (c :: ds, rest)
      else ([], s)
  | [] => ([], [])
  end.

(** A number: an optional minus sign; then a single zero, or a non-zero
    digit followed by digits; then optionally a dot and at least one digit;
    then optionally [e] or [E], an optional sign and at least one digit. *)
Definition parse_number (s : jsstring) : option (jsstring * jsstring) :=
  let (sign, s1) :=
    match s with
    | c :: r => if c =? 45 then ([c], r) else ([], s)
    | [] => ([], s)
    end in
  match s1 with
  | [] => None
  | c :: r =>
      if negb (isDigit c) then None
      else
        let (int, s2) := if c =? 48 then ([c], r)
                         else let (ds, r') := digits r in (c :: ds, r') in
        let frac :=
          match s2 with
          | d :: r2 =>
              if d =? 46 then
                match digits r2 with
                | ([], _) => None
                | (ds, r3) => Some (d :: ds, r3)
                end
              else Some ([], s2)
          | [] => Some ([], s2)
          end in
        match frac with
        | None => None
        | Some (fr, s3) =>
            let expo :=
              match s3 with
              | e :: r3 =>
                  if (e =? 101) || (e =? 69) then
                    let (sg, r4) :=
                      match r3 with
                      | g :: r' => if (g =? 43) || (g =? 45) then ([g], r') else ([], r3)
                      | [] => ([], r3)
                      end in
                    match digits r4 with
                    | ([], _) => None
                    | (ds, r5) => Some (e :: sg ++ ds, r5)
                    end
                  else Some ([], s3)
              | [] => Some ([], s3)
              end in
            match expo with
            | None => None
            | Some (ex, s4) => Some (sign ++ int ++ fr ++ ex, s4)
            end
        end
  end.

Section Composite.

(** The parser of one value, one nesting level down. *)
Variable parse_value : jsstring -> option (JSON * jsstring).

(** The elements of an array after [[], from the start of an element. *)
Fixpoint parse_elements (fuel : nat) (s : jsstring) (acc : list JSON)
    : option (list JSON * jsstring) :=
  match fuel with
  | O => None
  | S fuel' =>
      match parse_value s with
      | None => None
      | Some (v, rest) =>
          match skip_ws rest with
          | c :: rest' =>
              if c =? 44 then parse_elements fuel' rest' (v :: acc)
              else if c =? 93 then Some (rev (v :: acc), rest')
              else None
          | [] => None
          end
      end
  end.

(** The members of an object after [{], from the start of a member. *)
Fixpoint parse_members (fuel : nat) (s : jsstring) (acc : list (jsstring * JSON))
    : option (list (jsstring * JSON) * jsstring) :=
  match fuel with
  | O => None
  | S fuel' =>
      match skip_ws s with
      | q :: s1 =>
          if negb (q =? 34) then None
          else
            match parse_chars s1 [] with
            | None => None
            | Some (key, s2) =>
                match skip_ws s2 with
                | colon :: s3 =>
                    if negb (colon =? 58) then None
                    else
                      match parse_value s3 with
                      | None => None
                      | Some (v, rest) =>
                          match skip_ws rest with
                          | c :: rest' =>
                              if c =? 44 then parse_members fuel' rest' ((key, v) :: acc)
                              else if c =? 125 then Some (rev ((key, v) :: acc), rest')
                              else None
                          | [] => None
                          end
                      end
                | [] => None
                end
            end
      | [] => None
      end
  end.

End Composite.

Fixpoint parse_value (depth : nat) (s : jsstring) : option (JSON * jsstring) :=
  match depth with
  | O => None
  | S depth' =>
      match skip_ws s with
      | [] => None
      | (c :: rest) as s0 =>
          if c =? 34 then
            match parse_chars rest [] with
            | Some (str, rest') => Some (JString str, rest')
            | None => None
            end
          else if c =? 91 then
            match skip_ws rest with
            | c' :: rest' =>
                if c' =? 93 then Some (JArray [], rest')
                else
                  match parse_elements (parse_value depth') (length rest) rest [] with
                  | Some (vs, rest'') => Some (JArray vs, rest'')
                  | None => None
                  end
            | [] => None
            end
          else if c =? 123 then
            match skip_ws rest with
            | c' :: rest' =>
                if c' =? 125 then Some (JObject [], rest')
                else
                  match parse_members (parse_value depth') (length rest) rest [] with
                  | Some (ms, rest'') => Some (JObject ms, rest'')
                  | None => None
                  end
            | [] => None
            end
          else if startsWith (lit "true") s0 then Some (JBool true, drop 4 s0)
          else if startsWith (lit "false") s0 then Some (JBool false, drop 5 s0)
          else if startsWith (lit "null") s0 then Some (JNull, drop 4 s0)
          else
            match parse_number s0 with
            | Some (lexeme, rest') => Some (JNumber lexeme, rest')
            | None => None
            end
      end
  end.

(** [JSON.parse(text)]; [None] stands for the thrown [SyntaxError]. *)
Definition parse (text : jsstring) : option JSON :=
  match parse_value (S (length text)) text with
  | Some (v, rest) => match skip_ws rest with [] => Some v | _ :: _ => None end
  | None => None
  end.

Definition SyntaxError : Error :=
  {| name := lit "SyntaxError"; message := lit "Unexpected token in JSON" |}.

(** [JSON.parse] for a [Host]. *)
Definition JSON_parse (text : jsstring) : Completion any :=
  match parse text with
  | None => Throw SyntaxError
  | Some v => Normal v
  end.

End Json.

(** ** Notions used to state the properties *)

(** The image reference that the loop attaches for one completed image
    request: the failure placeholder, the inline image, or the missing-payload
    placeholder. *)
Definition imageUrlFor (r : Completion GenerateContentResponse) : jsstring :=
  match r with
  | Throw _ => PLACEHOLDER_GRAYSCALE
  | Normal imageResponse =>
      match find_imagePart imageResponse with
      | Some {| inlineData := Some blob |} => data_url blob
      | _ => PLACEHOLDER_BLUR
      end
  end.

(** What building the image prompt makes of an element of [paragraphsData]:
    the value of [pData.paragraph] together with its string form, or the
    [TypeError] of reading or converting it. *)
Definition shown_paragraph (pData : JSON) : Completion (JSValue * jsstring) :=
  match read_paragraph pData with
  | Throw e => Throw e
  | Normal v =>
      match ToString v with
      | Throw e => Throw e
      | Normal shown => Normal (v, shown)
      end
  end.

(** The elements of [paragraphsData] as the loop reads them, from the first
    one up to the first one whose prompt cannot be built, with the error of
    that one. *)
Fixpoint readings (paragraphsData : list JSON) : list (JSValue * jsstring) * option Error :=
  match paragraphsData with
  | [] => ([], None)
  | pData :: rest =>
      match shown_paragraph pData with
      | Throw e => ([], Some e)
      | Normal r => let (rs, stop) := readings rest in (r :: rs, stop)
      end
  end.

(** The object [{ paragraph: line }]. *)
Definition paragraph_object (line : jsstring) : JSON :=
  JObject [(lit "paragraph", JString line)].

(** An element of the declared type [ArticleTextResponse]: an object whose
    [paragraph] is a string. *)
Definition as_ArticleTextResponse (pData : JSON) : option ArticleTextResponse :=
  match pData with
  | JObject members =>
      match get (lit "paragraph") members with
      | Some (JString s) => Some {| paragraph := s |}
      | _ => None
      end
  | _ => None
  end.

(** The entries for paragraph values [rs] (each with its string form) with
    their image references, when the first image request is the [n]-th
    request to the service. *)
Fixpoint illustrated (h : Host) (n : nat) (rs : list (JSValue * jsstring))
    : list ArticleParagraph :=
  match rs with
  | [] => []
  | (v, shown) :: rest =>
      {| text := v;
         imageUrl := imageUrlFor (service h n (paragraphImageRequest shown)) |}
      :: illustrated h (S n) rest
  end.

(** The image requests of the loop, one per paragraph text. *)
Definition imageRequests (shown : list jsstring) : Log :=
  List.map (fun s => Request (paragraphImageRequest s) None) shown.

(** A line of the raw response as the loop sees it: the string and itself. *)
Definition line_reading (line : jsstring) : JSValue * jsstring :=
  (Some (JString line), line).

(** A response holds an inline image somewhere among its candidates. *)
Definition holds_inline_image (response : GenerateContentResponse) : Prop :=
  exists cs c ct l part blob,
    candidates response = Some cs /\ In c cs /\ content c = Some ct
    /\ parts ct = Some l /\ In part l /\ inlineData part = Some blob.

(** The text response did not parse as the expected structure: [JSON.parse]
    threw, or its value is not an array. *)
Definition not_expected_structure (r : Completion any) : Prop :=
  match r with
  | Normal (JArray _) => False
  | _ => True
  end.

(** A line counts when something is left of it after trimming. *)
Definition nonblank (line : jsstring) : bool := (0 <? length (trim line))%nat.

(** ** Sample hosts *)

Module Samples.

Definition json_paragraph (p : string) : jsstring :=
  lit "{" ++ DQUOTE ++ lit "paragraph" ++ DQUOTE ++ lit ": "
  ++ DQUOTE ++ lit p ++ DQUOTE ++ lit "}".

Definition inline_image : GenerateContentResponse :=
  {| candidates := Some
       [ {| content := Some {| parts := Some
            [ {| part_text := Some (lit "Here is your picture"); inlineData := None |};
              {| part_text := None;
                 inlineData := Some {| data := Some (lit "iVBORw0KGgo=");
                                       mimeType := Some (lit "image/png") |} |} ] |} |} ];
     response_text := Some (lit "Here is your picture") |}.

Definition text_only : GenerateContentResponse :=
  {| candidates := Some
       [ {| content := Some {| parts := Some
            [ {| part_text := Some (lit "I cannot draw this"); inlineData := None |} ] |} |} ];
     response_text := Some (lit "I cannot draw this") |}.

(** A service that answers the first request with the text [reply], fails the
    fourth request, answers the sixth without an image and every other one
    with an inline PNG. *)
Definition host (key : option jsstring) (reply : option jsstring) : Host :=
  {| API_KEY := key;
     service := fun n _ =>
       match n with
       | 0%nat => Normal {| candidates := None; response_text := reply |}
       | 3%nat => Throw (new_Error (lit "503 Service Unavailable"))
       | 5%nat => Normal text_only
       | _ => Normal inline_image
       end;
     JSON_parse := Json.JSON_parse |}.

Definition key : option jsstring := Some (lit "test-key").

(** Six paragraphs on one line. *)
Definition cookie_json : jsstring :=
  lit "[" ++ json_paragraph "A giant cookie was baked." ++ lit ", "
  ++ json_paragraph "It was as wide as a bus." ++ lit ", "
  ++ json_paragraph "The bakers used a crane." ++ lit ", "
  ++ json_paragraph "Birds tried to steal crumbs." ++ lit ", "
  ++ json_paragraph "The mayor took the first bite." ++ lit ", "
  ++ json_paragraph "Everyone got a piece." ++ lit "]".

Definition cookie_lines : list jsstring :=
  [ lit "A giant cookie was baked.";
    lit "It was as wide as a bus.";
    lit "The bakers used a crane.";
    lit "Birds tried to steal crumbs.";
    lit "The mayor took the first bite.";
    lit "Everyone got a piece." ].

Definition cookie_paragraphs : list JSON := List.map paragraph_object cookie_lines.

Definition cookie_readings : list (JSValue * jsstring) := List.map line_reading cookie_lines.

(** Four paragraphs and a [null], on one line. *)
Definition null_json : jsstring :=
  lit "[" ++ json_paragraph "A giant cookie was baked." ++ lit ", "
  ++ json_paragraph "It was as wide as a bus." ++ lit ", "
  ++ json_paragraph "The bakers used a crane." ++ lit ", "
  ++ json_paragraph "Birds tried to steal crumbs." ++ lit ", null]".

Definition null_paragraphs : list JSON :=
  [ paragraph_object (lit "A giant cookie was baked.");
    paragraph_object (lit "It was as wide as a bus.");
    paragraph_object (lit "The bakers used a crane.");
    paragraph_object (lit "Birds tried to steal crumbs.");
    JNull ].

(** Five elements, none of the declared type. *)
Definition mixed_json : jsstring :=
  lit "[1, " ++ DQUOTE ++ lit "two" ++ DQUOTE ++ lit ", {"
  ++ DQUOTE ++ lit "paragraph" ++ DQUOTE ++ lit ": 3.50}, {"
  ++ DQUOTE ++ lit "paragraph" ++ DQUOTE ++ lit ": [null, [1e3, true], {}]}, {"
  ++ DQUOTE ++ lit "text" ++ DQUOTE ++ lit ": " ++ DQUOTE ++ lit "five" ++ DQUOTE ++ lit "}]".

Definition mixed_paragraphs : list JSON :=
  [ JNumber (lit "1");
    JString (lit "two");
    JObject [(lit "paragraph", JNumber (lit "3.50"))];
    JObject [(lit "paragraph",
              JArray [JNull; JArray [JNumber (lit "1e3"); JBool true]; JObject []])];
    JObject [(lit "text", JString (lit "five"))] ].

(** Three paragraphs, pretty-printed over five lines. *)
Definition short_json : jsstring :=
  lit "[" ++ [LF]
  ++ lit "  " ++ json_paragraph "A giant cookie was baked." ++ lit "," ++ [LF]
  ++ lit "  " ++ json_paragraph "It was as wide as a bus." ++ lit "," ++ [LF]
  ++ lit "  " ++ json_paragraph "Everyone got a piece." ++ [LF]
  ++ lit "]".

(** Plain text, not JSON: six lines with blank lines between them. *)
Definition plain_text : jsstring :=
  lit "A giant cookie was baked." ++ [LF] ++ [LF]
  ++ lit "It was as wide as a bus." ++ [LF] ++ lit "   " ++ [LF]
  ++ lit "The bakers used a crane." ++ [LF]
  ++ lit "Birds tried to steal crumbs." ++ [LF]
  ++ lit "The mayor took the first bite." ++ [LF]
  ++ lit "Everyone got a piece." ++ [LF].

(** Plain text of two lines. *)
Definition two_lines : jsstring :=
  lit "Sorry, I cannot write about that." ++ [LF] ++ lit "Try another topic.".

Definition cookie_topic : jsstring := lit "a giant cookie was baked".

Definition cookie_host : Host := host key (Some cookie_json).
Definition short_host : Host := host key (Some short_json).
Definition plain_host : Host := host key (Some plain_text).
Definition two_lines_host : Host := host key (Some two_lines).
Definition empty_host : Host := host key (Some []).
Definition keyless_host : Host := host None (Some cookie_json).
Definition null_host : Host := host key (Some null_json).
Definition mixed_host : Host := host key (Some mixed_json).

Definition crane : jsstring := lit "The bakers used a crane.".
Definition bite : jsstring := lit "The mayor took the first bite.".

(** What [generateKidArticle] returns on [cookie_host]. *)
Definition cookie_article : list ArticleParagraph :=
  [ {| text := Some (JString (lit "A giant cookie was baked."));
       imageUrl := lit "data:image/png;base64,iVBORw0KGgo=" |};
    {| text := Some (JString (lit "It was as wide as a bus."));
       imageUrl := lit "data:image/png;base64,iVBORw0KGgo=" |};
    {| text := Some (JString crane); imageUrl := PLACEHOLDER_GRAYSCALE |};
    {| text := Some (JString (lit "Birds tried to steal crumbs."));
       imageUrl := lit "data:image/png;base64,iVBORw0KGgo=" |};
    {| text := Some (JString bite); imageUrl := PLACEHOLDER_BLUR |};
    {| text := Some (JString (lit "Everyone got a piece."));
       imageUrl := lit "data:image/png;base64,iVBORw0KGgo=" |} ].

Definition cookie_log : Log :=
  [ Request (articleRequest cookie_topic) None;
    Request (paragraphImageRequest (lit "A giant cookie was baked.")) None;
    Request (paragraphImageRequest (lit "It was as wide as a bus.")) None;
    Request (paragraphImageRequest crane) None;
    Console LevelError
      (lit "Error generating image for paragraph: " ++ DQUOTE ++ crane ++ DQUOTE);
    Request (paragraphImageRequest (lit "Birds tried to steal crumbs.")) None;
    Request (paragraphImageRequest bite) None;
    Console LevelWarn
      (lit "No inline image data found for paragraph: " ++ DQUOTE ++ bite ++ DQUOTE);
    Request (paragraphImageRequest (lit "Everyone got a piece.")) None ].

(** What [generateKidArticle] leaves in the log on [null_host], where it
    throws at the fifth element. *)
Definition null_log : Log :=
  [ Request (articleRequest cookie_topic) None;
    Request (paragraphImageRequest (lit "A giant cookie was baked.")) None;
    Request (paragraphImageRequest (lit "It was as wide as a bus.")) None;
    Request (paragraphImageRequest crane) None;
    Console LevelError
      (lit "Error generating image for paragraph: " ++ DQUOTE ++ crane ++ DQUOTE);
    Request (paragraphImageRequest (lit "Birds tried to steal crumbs.")) None ].

Definition NULL_PARAGRAPH : Error :=
  TypeError (lit "Cannot read properties of null (reading 'paragraph')").

(** What [generateKidArticle] leaves in the log on [plain_host]. *)
Definition plain_log : Log :=
  Request (articleRequest cookie_topic) None
  :: Console LevelError (lit "Error parsing article JSON:")
  :: List.tl cookie_log.

Definition blank_topic : jsstring := lit "   ".

Definition idle (t : jsstring) : AppState :=
  {| topic := t; article := None; loading := false; error := None;
     currentView := ARTICLES; apiKeySelected := true |}.

End Samples.

(** Further sample values, for the image studio and the chat. *)

Module MoreSamples.

(** A service that answers every request with an inline PNG and the text
    "Here is your picture". *)
Definition studio_host : Host :=
  {| API_KEY := Samples.key;
     service := fun _ _ => Normal Samples.inline_image;
     JSON_parse := Json.JSON_parse |}.

(** A service that fails every request. *)
Definition failing_host : Host :=
  {| API_KEY := Samples.key;
     service := fun _ _ => Throw (new_Error (lit "Requested entity was not found."));
     JSON_parse := Json.JSON_parse |}.

Definition png_file : File :=
  mkFile (Loaded (lit "data:image/png;base64,iVBORw0KGgo=")).

Definition textual_file : File := mkFile (Loaded (lit "hello, world")).

Definition broken_file : File := mkFile ReadError.

Definition hat : jsstring := lit "add a party hat".

Definition editing (file : option File) (p : jsstring) : ImageStudio.State :=
  {| ImageStudio.originalImageFile := file;
     ImageStudio.originalImagePreview := None;
     ImageStudio.editPrompt := p;
     ImageStudio.editedImage := None;
     ImageStudio.editLoading := false;
     ImageStudio.editError := None |}.

Definition asking (q : jsstring) : QuickChat.State :=
  {| QuickChat.question := q; QuickChat.response := None;
     QuickChat.loading := false; QuickChat.error := None |}.

Definition submit : QuickChat.FormEvent :=
  {| QuickChat.cancelable := true; QuickChat.defaultPrevented := false |}.

Definition cats : jsstring := lit "Why do cats purr?".

(** An image answer whose first part is text and whose second and third parts
    are inline images. *)
Definition first_image : Blob :=
  {| data := Some (lit "Zmlyc3Q="); mimeType := Some (lit "image/png") |}.

Definition second_image : Blob :=
  {| data := Some (lit "c2Vjb25k"); mimeType := Some (lit "image/jpeg") |}.

Definition caption_part : Part :=
  {| part_text := Some (lit "Two pictures"); inlineData := None |}.

Definition first_image_part : Part :=
  {| part_text := None; inlineData := Some first_image |}.

Definition second_image_part : Part :=
  {| part_text := None; inlineData := Some second_image |}.

Definition two_images_content : Content :=
  {| parts := Some [caption_part; first_image_part; second_image_part] |}.

Definition two_images_candidate : Candidate :=
  {| content := Some two_images_content |}.

Definition two_images : GenerateContentResponse :=
  {| candidates := Some [two_images_candidate];
     response_text := Some (lit "Two pictures") |}.

Definition giant_cookie : jsstring := lit "A giant cookie was baked.".

Definition two_images_host : Host :=
  {| API_KEY := Samples.key;
     service := fun n _ =>
       match n with
       | 0%nat => Normal {| candidates := None; response_text := Some Samples.cookie_json |}
       | _ => Normal two_images
       end;
     JSON_parse := Json.JSON_parse |}.

(** What [generateKidArticle] returns and logs on [two_images_host]. *)
Definition two_images_article : list ArticleParagraph :=
  List.map (fun line => {| text := Some (JString line);
                           imageUrl := lit "data:image/png;base64,Zmlyc3Q=" |})
    Samples.cookie_lines.

Definition two_images_log : Log :=
  Request (articleRequest Samples.cookie_topic) None :: imageRequests Samples.cookie_lines.

End MoreSamples.

(** * Properties *)

(** ** The model on concrete inputs *)

Example trim_inner_space : trim (lit "  a b  ") = lit "a b".
Proof. reflexivity. Qed.

Example trim_blank_line : trim ([9; 32; 13; 160; 8232] : jsstring) = [].
Proof. reflexivity. Qed.

Example split_trailing_separator :
  split LF (lit "a" ++ [LF] ++ lit "b" ++ [LF]) = [lit "a"; lit "b"; []].
Proof. reflexivity. Qed.

Example split_empty : split LF [] = [[]].
Proof. reflexivity. Qed.

Example parse_cookie_json :
  Json.JSON_parse Samples.cookie_json = Normal (JArray Samples.cookie_paragraphs).
Proof. vm_compute. reflexivity. Qed.

Example parse_plain_text : Json.parse Samples.plain_text = None.
Proof. vm_compute. reflexivity. Qed.

Example parse_trailing_comma : Json.parse (lit "[1,]") = None.
Proof. vm_compute. reflexivity. Qed.

Example parse_object_is_not_an_array :
  Json.JSON_parse (Samples.json_paragraph "A giant cookie was baked.")
  = Normal (paragraph_object (lit "A giant cookie was baked.")).
Proof. vm_compute. reflexivity. Qed.

Example parse_null_json :
  Json.JSON_parse Samples.null_json = Normal (JArray Samples.null_paragraphs).
Proof. vm_compute. reflexivity. Qed.

Example number_toString_examples :
  List.map JSNumber.toString
    [lit "3.50"; lit "1e3"; lit "-0"; lit "0.1"; lit "1e21"; lit "1e-7";
     lit "9007199254740993"; lit "5e-324"; lit "1e400"; lit "123456789012345678901234567890"]
  = [lit "3.5"; lit "1000"; lit "0"; lit "0.1"; lit "1e+21"; lit "1e-7";
     lit "9007199254740992"; lit "5e-324"; lit "Infinity"; lit "1.2345678901234568e+29"].
Proof. vm_compute. reflexivity. Qed.

Example array_toString :
  ToString_json (JArray [JNull; JArray [JNumber (lit "1e3"); JBool true]; JObject [];
                         JString (lit "x"); JArray []; JNull])
  = Normal (lit ",1000,true,[object Object],x,,").
Proof. vm_compute. reflexivity. Qed.

Example object_with_toString_member :
  ToString_json (JArray [JString (lit "x"); JObject [(lit "toString", JNumber (lit "1"))]])
  = Throw CANNOT_CONVERT.
Proof. vm_compute. reflexivity. Qed.

Example fallback_of_plain_text :
  fallbackParagraphs Samples.plain_text = Samples.cookie_paragraphs.
Proof. vm_compute. reflexivity. Qed.

(** The example of the specification: six paragraphs, the image of the third
    fails, the fifth answer has no image. *)
Example cookie_run :
  run (generateKidArticle Samples.cookie_host Samples.cookie_topic)
  = (Normal Samples.cookie_article, Samples.cookie_log).
Proof. vm_compute. reflexivity. Qed.

Example two_lines_run :
  run (generateKidArticle Samples.two_lines_host Samples.cookie_topic)
  = (Throw (new_Error (NOT_ENOUGH_PARAGRAPHS ++ Samples.two_lines)),
     [Request (articleRequest Samples.cookie_topic) None;
      Console LevelError (lit "Error parsing article JSON:")]).
Proof. vm_compute. reflexivity. Qed.

(** A validated array with a [null] element: the loop throws at it, after the
    image requests of the four elements before it. *)
Example null_run :
  run (generateKidArticle Samples.null_host Samples.cookie_topic)
  = (Throw Samples.NULL_PARAGRAPH, Samples.null_log).
Proof. vm_compute. reflexivity. Qed.

(** A validated array whose elements are not of the declared type: a number,
    a string, an object with a number, an object with an array, an object
    without [paragraph].  Every element gets an entry and an image request;
    [text] is whatever [pData.paragraph] evaluates to. *)
Example mixed_run :
  exists log,
    run (generateKidArticle Samples.mixed_host Samples.cookie_topic)
    = (Normal
         [ {| text := None; imageUrl := lit "data:image/png;base64,iVBORw0KGgo=" |};
           {| text := None; imageUrl := lit "data:image/png;base64,iVBORw0KGgo=" |};
           {| text := Some (JNumber (lit "3.50")); imageUrl := PLACEHOLDER_GRAYSCALE |};
           {| text := Some (JArray [JNull; JArray [JNumber (lit "1e3"); JBool true];
                                    JObject []]);
              imageUrl := lit "data:image/png;base64,iVBORw0KGgo=" |};
           {| text := None; imageUrl := PLACEHOLDER_BLUR |} ],
       log)
    /\ requests log
       = [ Request (articleRequest Samples.cookie_topic) None;
           Request (paragraphImageRequest (lit "undefined")) None;
           Request (paragraphImageRequest (lit "undefined")) None;
           Request (paragraphImageRequest (lit "3.5")) None;
           Request (paragraphImageRequest (lit ",1000,true,[object Object]")) None;
           Request (paragraphImageRequest (lit "undefined")) None ].
Proof. eexists. split; vm_compute; reflexivity. Qed.

(** A topic that is not blank goes through [handleGenerateArticle] to the
    service; a failure of the text call ends in the error state. *)
Example handler_reports_text_failure :
  run (handleGenerateArticle Samples.empty_host (Samples.idle Samples.cookie_topic))
  = (Normal {| topic := Samples.cookie_topic; article := None; loading := false;
               error := Some (lit "Failed to generate article: Failed to get article text from Gemini API.");
               currentView := ARTICLES; apiKeySelected := true |},
     [Request (articleRequest Samples.cookie_topic) None;
      Console LevelError (lit "Error generating article:")]).
Proof. vm_compute. reflexivity. Qed.

(** ** Strings and arrays *)

Lemma trimStart_nil (s : jsstring) :
  trimStart s = [] <-> forallb isWhiteSpace s = true.
Proof.
  induction s as [|c s IH]; simpl; [tauto|].
  destruct (isWhiteSpace c); simpl; [exact IH|].
  split; discriminate.
Qed.

Lemma forallb_trimStart (s : jsstring) :
  forallb isWhiteSpace (trimStart s) = true -> trimStart s = [].
Proof.
  induction s as [|c s IH]; simpl; [reflexivity|].
  destruct (isWhiteSpace c) eqn:Hc; [exact IH|].
  simpl. rewrite Hc. discriminate.
Qed.

Lemma forallb_rev {A} (f : A -> bool) (l : list A) :
  forallb f (rev l) = forallb f l.
Proof.
  induction l as [|a l IH]; simpl; [reflexivity|].
  rewrite forallb_app, IH. simpl. rewrite andb_true_r. apply andb_comm.
Qed.

(** Nothing is left of a string after trimming exactly when every code unit
    of it is white space. *)
Lemma trim_nil (s : jsstring) :
  trim s = [] <-> forallb isWhiteSpace s = true.
Proof.
  unfold trim, trimEnd. rewrite <- trimStart_nil. split.
  - intros H. apply (f_equal (@rev N)) in H. rewrite rev_involutive in H.
    simpl in H. apply trimStart_nil in H. rewrite forallb_rev in H.
    now apply forallb_trimStart.
  - intros ->. reflexivity.
Qed.

Lemma nonblank_true (line : jsstring) :
  nonblank line = true <-> trim line <> [].
Proof.
  unfold nonblank. destruct (trim line); simpl; split; congruence || auto.
Qed.

Lemma nonblank_exists (line : jsstring) :
  nonblank line = true <-> exists c, In c line /\ isWhiteSpace c = false.
Proof.
  rewrite nonblank_true, trim_nil. split.
  - intros H. induction line as [|c l IH]; simpl in *; [congruence|].
    destruct (isWhiteSpace c) eqn:Hc.
    + destruct IH as (d & Hd & Hw); [exact H|]. exists d. auto.
    + exists c. auto.
  - intros (c & Hin & Hc) Hall. rewrite forallb_forall in Hall.
    specialize (Hall c Hin). congruence.
Qed.

Lemma split_not_nil (sep : N) (s : jsstring) : split sep s <> [].
Proof.
  destruct s as [|c s]; simpl; [discriminate|].
  destruct (c =? sep); [discriminate|]. destruct (split sep s); discriminate.
Qed.

(** [split] cuts at every separator and loses nothing. *)
Lemma join_split (sep : N) (s : jsstring) : join sep (split sep s) = s.
Proof.
  induction s as [|c s IH]; simpl; [reflexivity|].
  destruct (N.eqb_spec c sep) as [->|Hne].
  - simpl. pose proof (split_not_nil sep s) as Hn.
    destruct (split sep s) as [|p ps]; [congruence|]. now rewrite IH.
  - destruct (split sep s) as [|p ps] eqn:E; [now destruct (split_not_nil sep s)|].
    simpl in *. destruct ps; simpl in *; now rewrite <- IH.
Qed.

Lemma split_no_sep (sep : N) (s : jsstring) :
  Forall (fun piece => ~ In sep piece) (split sep s).
Proof.
  induction s as [|c s IH]; simpl.
  - constructor; [intros []|constructor].
  - destruct (N.eqb_spec c sep) as [->|Hne].
    + constructor; [intros []|exact IH].
    + destruct (split sep s) as [|p ps]; [repeat constructor; intros [?|[]]; congruence|].
      inversion IH; subst. constructor; [|assumption].
      intros [?|?]; [congruence|contradiction].
Qed.

Lemma slice_all {A} (e : nat) (a : list A) :
  (length a <= e)%nat -> slice 0 e a = a.
Proof. intros H. unfold slice. simpl. now apply take_ge. Qed.

(** [lines.slice(0, Math.max(5, lines.length))] keeps every line: the
    fallback paragraphs are the non-blank lines of the raw response. *)
Lemma fallbackParagraphs_lines (jsonString : jsstring) :
  fallbackParagraphs jsonString
  = List.map paragraph_object (List.filter nonblank (split LF jsonString)).
Proof.
  unfold fallbackParagraphs. rewrite slice_all by lia. reflexivity.
Qed.

Lemma startsWith_refl (s t : jsstring) : startsWith s (s ++ t) = true.
Proof.
  induction s as [|c s IH]; simpl; [reflexivity|].
  now rewrite N.eqb_refl, IH.
Qed.

Lemma includes_startsWith (s p : jsstring) :
  startsWith p s = true -> includes s p = true.
Proof. intros H. destruct s; simpl; now rewrite H. Qed.

Lemma includes_app (p s t : jsstring) : includes (p ++ s ++ t) s = true.
Proof.
  induction p as [|c p IH]; simpl.
  - apply includes_startsWith, startsWith_refl.
  - rewrite IH. apply orb_true_r.
Qed.

Lemma includes_suffix (p s : jsstring) : includes (p ++ s) s = true.
Proof. rewrite <- (app_nil_r s) at 1. apply includes_app. Qed.

(** ** The event log *)

Lemma requests_app (log1 log2 : Log) :
  requests (log1 ++ log2) = requests log1 ++ requests log2.
Proof. apply List.filter_app. Qed.

Lemma requests_request (log : Log) p o :
  requests (log ++ [Request p o]) = requests log ++ [Request p o].
Proof. now rewrite requests_app. Qed.

Lemma requests_console (log : Log) lvl label :
  requests (log ++ [Console lvl label]) = requests log.
Proof. rewrite requests_app. simpl. apply app_nil_r. Qed.

Lemma requests_imageRequests (shown : list jsstring) :
  requests (imageRequests shown) = imageRequests shown.
Proof. induction shown as [|p ps IH]; simpl; [reflexivity|]. now f_equal. Qed.

Lemma length_imageRequests (shown : list jsstring) :
  length (imageRequests shown) = length shown.
Proof. apply length_map. Qed.

Lemma imageRequests_app (a b : list jsstring) :
  imageRequests (a ++ b) = imageRequests a ++ imageRequests b.
Proof. apply List.map_app. Qed.

(** ** Reading the elements of [paragraphsData] *)

Lemma shown_paragraph_Normal (pData : JSON) (v : JSValue) (shown : jsstring) :
  shown_paragraph pData = Normal (v, shown) <->
  read_paragraph pData = Normal v /\ ToString v = Normal shown.
Proof.
  unfold shown_paragraph. split.
  - destruct (read_paragraph pData) as [v'|e]; [|discriminate].
    destruct (ToString v') as [s'|e] eqn:E; [|discriminate].
    intros [= <- <-]. auto.
  - intros [-> ->]. reflexivity.
Qed.

Lemma shown_paragraph_Throw (pData : JSON) (e : Error) :
  shown_paragraph pData = Throw e <->
  read_paragraph pData = Throw e
  \/ exists v, read_paragraph pData = Normal v /\ ToString v = Throw e.
Proof.
  unfold shown_paragraph. split.
  - destruct (read_paragraph pData) as [v'|e']; [|intros [= ->]; now left].
    destruct (ToString v') as [s'|e'] eqn:E; [discriminate|].
    intros [= ->]. right. eauto.
  - intros [-> | (v & -> & ->)]; reflexivity.
Qed.

(** [null] is the only element that cannot be read. *)
Lemma read_paragraph_Throw (pData : JSON) (e : Error) :
  read_paragraph pData = Throw e -> pData = JNull.
Proof. destruct pData; simpl; intros H; congruence. Qed.

Lemma get_singleton (key : jsstring) (v : JSON) : get key [(key, v)] = Some v.
Proof.
  unfold get. cbn [rev app List.find fst]. now rewrite bool_decide_eq_true_2.
Qed.

(** An object made by the fallback is read back as its line. *)
Lemma shown_paragraph_object (line : jsstring) :
  shown_paragraph (paragraph_object line) = Normal (line_reading line).
Proof.
  unfold shown_paragraph, paragraph_object, read_paragraph.
  now rewrite get_singleton.
Qed.

(** An element of the declared type is read as its string. *)
Lemma shown_paragraph_declared (pData : JSON) (r : ArticleTextResponse) :
  as_ArticleTextResponse pData = Some r ->
  shown_paragraph pData = Normal (line_reading (paragraph r)).
Proof.
  unfold as_ArticleTextResponse, shown_paragraph, read_paragraph.
  destruct pData as [| | | | |members]; try discriminate.
  destruct (get (lit "paragraph") members) as [[| | |s| |]|]; try discriminate.
  now intros [= <-].
Qed.

Lemma readings_all (ps : list JSON) (rs : list (JSValue * jsstring)) :
  readings ps = (rs, None) <-> Forall2 (fun p r => shown_paragraph p = Normal r) ps rs.
Proof.
  revert rs. induction ps as [|p ps IH]; intros rs; simpl.
  - split; [intros [= <-]; constructor|intros H; inversion H; reflexivity].
  - destruct (shown_paragraph p) as [r|e] eqn:E.
    + destruct (readings ps) as [rs' stop] eqn:R. split.
      * intros [= <- ->]. constructor; [exact E|]. now apply IH.
      * intros H. inversion H as [|p' r' ps' rs'' Hp Hrest]; subst.
        rewrite E in Hp. injection Hp as <-.
        apply IH in Hrest. now injection Hrest as <- <-.
    + split; [discriminate|].
      intros H. inversion H; subst. congruence.
Qed.

Lemma readings_stop (ps : list JSON) (rs : list (JSValue * jsstring)) (e : Error) :
  readings ps = (rs, Some e) <->
  exists pre bad post,
    ps = pre ++ bad :: post
    /\ Forall2 (fun p r => shown_paragraph p = Normal r) pre rs
    /\ shown_paragraph bad = Throw e.
Proof.
  revert rs. induction ps as [|p ps IH]; intros rs; simpl.
  - split; [discriminate|]. intros (pre & bad & post & H & _). now destruct pre.
  - destruct (shown_paragraph p) as [r|e'] eqn:E.
    + destruct (readings ps) as [rs' stop] eqn:R. split.
      * intros [= <- ->]. destruct (proj1 (IH rs') eq_refl) as (pre & bad & post & -> & F & B).
        exists (p :: pre), bad, post. split; [reflexivity|]. split; [|exact B].
        now constructor.
      * intros (pre & bad & post & H & F & B).
        destruct pre as [|p' pre]; simpl in H; injection H as -> ->.
        { congruence. }
        inversion F as [|? r' ? rs'' Hp Hrest]; subst.
        rewrite E in Hp. injection Hp as <-.
        assert (H : (rs', stop) = (rs'', Some e)) by (apply IH; exists pre, bad, post; auto).
        now injection H as -> ->.
    + split.
      * intros [= <- ->]. exists [], p, ps. repeat split; [constructor|exact E].
      * intros (pre & bad & post & H & F & B).
        destruct pre as [|p' pre]; simpl in H; injection H as -> ->.
        { inversion F; subst. congruence. }
        inversion F; subst. congruence.
Qed.

Lemma readings_length (ps : list JSON) :
  (length (fst (readings ps)) <= length ps)%nat
  /\ (snd (readings ps) = None -> length (fst (readings ps)) = length ps).
Proof.
  induction ps as [|p ps [IH1 IH2]]; simpl; [auto|].
  destruct (shown_paragraph p); simpl; [|split; [lia|discriminate]].
  destruct (readings ps) as [rs stop]; simpl in *. split; [lia|auto].
Qed.

Lemma readings_paragraph_objects (lines : list jsstring) :
  readings (List.map paragraph_object lines) = (List.map line_reading lines, None).
Proof.
  induction lines as [|l lines IH]; [reflexivity|].
  cbn [List.map readings]. now rewrite shown_paragraph_object, IH.
Qed.

(** ** The image loop *)

Section ImageLoop.

Variable h : Host.

Lemma imageUrlFor_cases (r : Completion GenerateContentResponse) :
  imageUrlFor r = PLACEHOLDER_GRAYSCALE \/ imageUrlFor r = PLACEHOLDER_BLUR
  \/ exists blob, imageUrlFor r = data_url blob.
Proof.
  destruct r as [resp|e]; simpl; [|now left].
  destruct (find_imagePart resp) as [[t [b|]]|]; eauto.
Qed.

(** An iteration whose prompt can be built completes normally, issues exactly
    one request and pushes exactly one entry, whose text is the value of
    [pData.paragraph]. *)
Lemma imageStep_spec (acc : list ArticleParagraph) (pData : JSON) (v : JSValue)
    (shown : jsstring) (log : Log) :
  shown_paragraph pData = Normal (v, shown) ->
  exists log',
    imageStep h acc pData log
    = (Normal (acc ++ [ {| text := v;
                           imageUrl := imageUrlFor
                             (service h (length (requests log))
                                (paragraphImageRequest shown)) |} ]),
       log')
    /\ requests log' = requests log ++ [Request (paragraphImageRequest shown) None].
Proof.
  intros Hr. apply shown_paragraph_Normal in Hr as [Hv Hs].
  unfold imageStep, bind, lift, try_catch, generateContent, console_error, console_warn,
    emit, ret.
  rewrite Hv, Hs.
  destruct (service h (length (requests log)) (paragraphImageRequest shown)) as [resp|e];
    simpl.
  - destruct (find_imagePart resp) as [[t [b|]]|]; simpl;
      eexists; (split; [reflexivity|]);
      rewrite ?requests_console; apply requests_request.
  - eexists; split; [reflexivity|].
    rewrite requests_console. apply requests_request.
Qed.

(** An iteration whose prompt cannot be built throws before anything else
    happens. *)
Lemma imageStep_unreadable (acc : list ArticleParagraph) (pData : JSON) (e : Error)
    (log : Log) :
  shown_paragraph pData = Throw e ->
  imageStep h acc pData log = (Throw e, log).
Proof.
  intros Hr. unfold imageStep, bind, lift.
  apply shown_paragraph_Throw in Hr as [-> | (v & -> & ->)]; reflexivity.
Qed.

(** The loop: entries and image requests for the elements up to the first one
    that cannot be read; the loop returns when there is none, and throws the
    error of that element otherwise. *)
Lemma articleImages_spec (ps : list JSON) :
  forall (acc : list ArticleParagraph) (log : Log),
  exists log',
    articleImages h ps acc log
    = (match snd (readings ps) with
       | None => Normal (acc ++ illustrated h (length (requests log)) (fst (readings ps)))
       | Some e => Throw e
       end, log')
    /\ requests log' = requests log ++ imageRequests (List.map snd (fst (readings ps))).
Proof.
  induction ps as [|p ps IH]; intros acc log; simpl.
  - exists log. unfold ret. now rewrite !app_nil_r.
  - unfold bind. destruct (shown_paragraph p) as [[v shown]|e] eqn:Hp.
    + destruct (imageStep_spec acc p v shown log Hp) as (log1 & E1 & R1).
      rewrite E1.
      destruct (IH (acc ++ [ {| text := v;
        imageUrl := imageUrlFor (service h (length (requests log))
                                   (paragraphImageRequest shown)) |} ]) log1)
        as (log' & E' & R').
      exists log'. rewrite E', R', R1. destruct (readings ps) as [rs stop]. simpl.
      rewrite length_app, <- !app_assoc. simpl. rewrite Nat.add_1_r.
      split; [|reflexivity]. now destruct stop.
    + rewrite (imageStep_unreadable acc p e log Hp).
      exists log. simpl. now rewrite app_nil_r.
Qed.

Lemma illustrated_length (n : nat) (rs : list (JSValue * jsstring)) :
  length (illustrated h n rs) = length rs.
Proof. revert n; induction rs as [|[v s] rs IH]; intros n; simpl; auto. Qed.

Lemma illustrated_lookup (rs : list (JSValue * jsstring)) :
  forall (n k : nat) (v : JSValue) (shown : jsstring),
  rs !! k = Some (v, shown) ->
  illustrated h n rs !! k
  = Some {| text := v;
            imageUrl := imageUrlFor (service h (n + k) (paragraphImageRequest shown)) |}.
Proof.
  induction rs as [|[v' s'] rs IH]; intros n k v shown Hk; [discriminate|].
  destruct k as [|k]; simpl in *.
  - injection Hk as -> ->. now rewrite Nat.add_0_r.
  - rewrite (IH (S n) k v shown Hk). now rewrite Nat.add_succ_r.
Qed.

Lemma illustrated_text (n : nat) (rs : list (JSValue * jsstring)) :
  List.map text (illustrated h n rs) = List.map fst rs.
Proof. revert n; induction rs as [|[v s] rs IH]; intros n; simpl; [|rewrite IH]; auto. Qed.

(** Each entry's text is what reading its element gives, and converts to the
    string of its image prompt. *)
Lemma illustrated_read (ps : list JSON) (rs : list (JSValue * jsstring)) :
  Forall2 (fun p r => shown_paragraph p = Normal r) ps rs ->
  forall n, Forall2 (fun p a => read_paragraph p = Normal (text a)) ps (illustrated h n rs).
Proof.
  induction 1 as [|p [v s] ps rs Hp _ IH]; intros n; simpl; constructor; [|apply IH].
  now apply shown_paragraph_Normal in Hp as [Hv _].
Qed.

Lemma illustrated_shown (ps : list JSON) (rs : list (JSValue * jsstring)) :
  Forall2 (fun p r => shown_paragraph p = Normal r) ps rs ->
  forall n, Forall2 (fun a s => ToString (text a) = Normal s)
              (illustrated h n rs) (List.map snd rs).
Proof.
  induction 1 as [|p [v s] ps rs Hp _ IH]; intros n; simpl; constructor; [|apply IH].
  now apply shown_paragraph_Normal in Hp as [_ Hs].
Qed.

End ImageLoop.

(** ** The text phase *)

Section TextPhase.

Variable h : Host.

Lemma truthy_false (s : jsstring) : truthy s = false <-> s = [].
Proof. destruct s; simpl; split; congruence. Qed.

Lemma truthy_opt_false (o : option jsstring) :
  truthy_opt o = false <-> o = None \/ o = Some [].
Proof.
  destruct o as [[|c s]|]; simpl; split; auto; try discriminate.
  intros [?|?]; congruence.
Qed.

(** The call itself fails: one request, then the error is rethrown. *)
Lemma articleText_service_failure (topic : jsstring) (log : Log) (e : Error) :
  service h (length (requests log)) (articleRequest topic) = Throw e ->
  exists msg log',
    articleText h topic log = (Throw (new_Error msg), log')
    /\ requests log' = requests log ++ [Request (articleRequest topic) None].
Proof.
  intros Hs. unfold articleText, bind, try_catch, generateContent, console_error, emit, throw.
  rewrite Hs. simpl. do 2 eexists. split; [reflexivity|].
  rewrite requests_console. apply requests_request.
Qed.

(** An empty response: nothing happens after the request. *)
Lemma articleText_empty (topic : jsstring) (log : Log) (resp : GenerateContentResponse) :
  service h (length (requests log)) (articleRequest topic) = Normal resp ->
  truthy_opt (response_text resp) = false ->
  articleText h topic log
  = (Throw (new_Error (lit "Failed to get article text from Gemini API.")),
     log ++ [Request (articleRequest topic) None]).
Proof.
  intros Hs Ht. unfold articleText, bind, try_catch, generateContent, throw.
  rewrite Hs. apply truthy_opt_false in Ht as [-> | ->]; reflexivity.
Qed.

(** The response parses to an array of at least five paragraphs. *)
Lemma articleText_parsed (topic : jsstring) (log : Log) (resp : GenerateContentResponse)
    (s : jsstring) (elems : list JSON) :
  service h (length (requests log)) (articleRequest topic) = Normal resp ->
  response_text resp = Some s -> s <> [] ->
  JSON_parse h s = Normal (JArray elems) -> (5 <= length elems)%nat ->
  articleText h topic log = (Normal elems, log ++ [Request (articleRequest topic) None]).
Proof.
  intros Hs Ht Hne Hp Hlen.
  unfold articleText, bind, try_catch, generateContent, lift, ret.
  rewrite Hs, Ht. destruct s as [|c s]; [congruence|]. rewrite Hp.
  destruct (Nat.ltb_spec (length elems) 5); [lia|reflexivity].
Qed.

(** Every other response goes through the [catch] block: [JSON.parse] threw,
    its value is not an array, or the array is shorter than five. *)
Lemma articleText_fallback (topic : jsstring) (log : Log) (resp : GenerateContentResponse)
    (s : jsstring) :
  service h (length (requests log)) (articleRequest topic) = Normal resp ->
  response_text resp = Some s -> s <> [] ->
  (forall elems, JSON_parse h s = Normal (JArray elems) -> (length elems < 5)%nat) ->
  articleText h topic log
  = (if (length (fallbackParagraphs s) <? 5)%nat
     then Throw (new_Error (NOT_ENOUGH_PARAGRAPHS ++ s))
     else Normal (fallbackParagraphs s),
     log ++ [Request (articleRequest topic) None]
         ++ [Console LevelError (lit "Error parsing article JSON:")]).
Proof.
  intros Hs Ht Hne Hp.
  unfold articleText, bind, try_catch, generateContent, lift, ret, console_error, emit, throw.
  rewrite Hs, Ht. destruct s as [|c s]; [congruence|].
  destruct (JSON_parse h (c :: s)) as [[| | | |elems|]|e] eqn:E; simpl;
    try (rewrite <- app_assoc; now destruct (_ <? 5)%nat).
  specialize (Hp elems eq_refl).
  destruct (Nat.ltb_spec (length elems) 5); [|lia]. simpl.
  rewrite <- app_assoc. now destruct (_ <? 5)%nat.
Qed.

(** What a successful text phase has done. *)
Lemma articleText_Normal (topic : jsstring) (log log' : Log)
    (ps : list JSON) :
  articleText h topic log = (Normal ps, log') ->
  (5 <= length ps)%nat
  /\ requests log' = requests log ++ [Request (articleRequest topic) None]
  /\ exists resp s,
       service h (length (requests log)) (articleRequest topic) = Normal resp
       /\ response_text resp = Some s /\ s <> []
       /\ (JSON_parse h s = Normal (JArray ps) \/ ps = fallbackParagraphs s).
Proof.
  intros H.
  destruct (service h (length (requests log)) (articleRequest topic)) as [resp|e] eqn:Hs.
  2:{ destruct (articleText_service_failure topic log e Hs) as (m & l & E & _). congruence. }
  destruct (truthy_opt (response_text resp)) eqn:Ht.
  2:{ rewrite (articleText_empty topic log resp Hs Ht) in H. discriminate. }
  destruct (response_text resp) as [s|] eqn:Hr; [|discriminate].
  assert (Hne : s <> []) by (intros ->; discriminate).
  match goal with
  | |- ?G =>
      assert (Hfb : (forall elems, JSON_parse h s = Normal (JArray elems) ->
                                   (length elems < 5)%nat) -> G)
  end.
  { intros Hshort.
    rewrite (articleText_fallback topic log resp s Hs Hr Hne Hshort) in H.
    destruct (Nat.ltb_spec (length (fallbackParagraphs s)) 5) as [Hlt'|Hge'];
      [discriminate|]. injection H as <- <-.
    split; [exact Hge'|]. split; [now rewrite requests_app|].
    exists resp, s. auto. }
  destruct (JSON_parse h s) as [[| | | |elems|]|e] eqn:Hp;
    try (apply Hfb; intros; discriminate).
  destruct (Nat.ltb_spec (length elems) 5) as [Hlt|Hge].
  - apply Hfb. intros ? [= <-]. exact Hlt.
  - rewrite (articleText_parsed topic log resp s elems Hs Hr Hne Hp Hge) in H.
    injection H as <- <-. split; [exact Hge|]. split; [apply requests_request|].
    exists resp, s. auto.
Qed.

End TextPhase.

(** ** [generateKidArticle] as a whole *)

Lemma map_lookup_Some {A B : Type} (f : A -> B) (l : list A) (k : nat) (x : A) :
  l !! k = Some x -> List.map f l !! k = Some (f x).
Proof.
  revert k. induction l as [|y l IH]; intros [|k] H; try discriminate; simpl in *.
  - now injection H as ->.
  - now apply IH.
Qed.

Section WholeArticle.

Variable h : Host.

(** After a successful text phase the outcome is decided by the elements
    alone, whatever the image service answers: the function returns one entry
    per element when every element can be read, and throws the error of the
    first element that cannot be read otherwise, after the image requests of
    the elements before it. *)
Lemma generateKidArticle_after_text (topic : jsstring) (ps : list JSON) (log1 : Log) :
  truthy_opt (API_KEY h) = true ->
  run (articleText h topic) = (Normal ps, log1) ->
  exists log,
    run (generateKidArticle h topic)
    = (match snd (readings ps) with
       | None => Normal (illustrated h 1 (fst (readings ps)))
       | Some e => Throw e
       end, log)
    /\ requests log
       = Request (articleRequest topic) None
         :: imageRequests (List.map snd (fst (readings ps))).
Proof.
  intros Hk Ht. unfold run, generateKidArticle, bind in *. rewrite Hk. simpl. rewrite Ht.
  destruct (articleText_Normal h topic [] log1 ps Ht) as (_ & R1 & _).
  destruct (articleImages_spec h ps [] log1) as (log & E & R).
  exists log. rewrite E, R, R1. simpl. split; reflexivity.
Qed.

Lemma generateKidArticle_readable (topic : jsstring) (ps : list JSON)
    (rs : list (JSValue * jsstring)) (log1 : Log) :
  truthy_opt (API_KEY h) = true ->
  run (articleText h topic) = (Normal ps, log1) ->
  Forall2 (fun p r => shown_paragraph p = Normal r) ps rs ->
  exists log,
    run (generateKidArticle h topic) = (Normal (illustrated h 1 rs), log)
    /\ requests log = Request (articleRequest topic) None :: imageRequests (List.map snd rs).
Proof.
  intros Hk Ht Hrs. apply readings_all in Hrs.
  destruct (generateKidArticle_after_text topic ps log1 Hk Ht) as (log & E & R).
  rewrite Hrs in E, R. eauto.
Qed.

Lemma generateKidArticle_Normal (topic : jsstring) (arts : list ArticleParagraph)
    (log : Log) :
  run (generateKidArticle h topic) = (Normal arts, log) ->
  truthy_opt (API_KEY h) = true
  /\ exists ps log1 rs,
       run (articleText h topic) = (Normal ps, log1)
       /\ Forall2 (fun p r => shown_paragraph p = Normal r) ps rs
       /\ arts = illustrated h 1 rs
       /\ requests log
          = Request (articleRequest topic) None :: imageRequests (List.map snd rs).
Proof.
  intros H. destruct (truthy_opt (API_KEY h)) eqn:Hk.
  2:{ unfold run, generateKidArticle in H. rewrite Hk in H. discriminate. }
  split; [reflexivity|].
  destruct (run (articleText h topic)) as [[ps|e] log1] eqn:Ht.
  - destruct (generateKidArticle_after_text topic ps log1 Hk Ht) as (log' & E & R).
    rewrite E in H. destruct (readings ps) as [rs [e|]] eqn:Hrs; simpl in *;
      [discriminate|].
    injection H as <- <-. exists ps, log1, rs. split; [reflexivity|].
    split; [now apply readings_all|]. auto.
  - unfold run, generateKidArticle, bind in *. rewrite Hk in H. simpl in H.
    rewrite Ht in H. discriminate.
Qed.

(** A failed text phase fails the function with the same error, and no image
    request is issued. *)
Lemma generateKidArticle_text_failure (topic : jsstring) (e : Error) (log1 : Log) :
  truthy_opt (API_KEY h) = true ->
  run (articleText h topic) = (Throw e, log1) ->
  run (generateKidArticle h topic) = (Throw e, log1).
Proof.
  intros Hk Ht. unfold run, generateKidArticle, bind in *. rewrite Hk. simpl.
  now rewrite Ht.
Qed.

(** The run of the text phase is a function of the host and the topic. *)
Lemma articleText_same (topic : jsstring) (ps ps' : list JSON) (log1 log1' : Log) :
  run (articleText h topic) = (Normal ps, log1) ->
  run (articleText h topic) = (Normal ps', log1') ->
  ps' = ps.
Proof. intros H H'. rewrite H in H'. now injection H' as <- _. Qed.

(** A returned list, entry by entry. *)
Lemma generateKidArticle_entry (topic : jsstring) (arts : list ArticleParagraph)
    (log log1 : Log) (ps : list JSON) (k : nat) (p : JSON) (v : JSValue)
    (shown : jsstring) :
  run (generateKidArticle h topic) = (Normal arts, log) ->
  run (articleText h topic) = (Normal ps, log1) ->
  ps !! k = Some p ->
  shown_paragraph p = Normal (v, shown) ->
  arts !! k
  = Some {| text := v;
            imageUrl := imageUrlFor (service h (S k) (paragraphImageRequest shown)) |}
  /\ requests log !! S k = Some (Request (paragraphImageRequest shown) None).
Proof.
  intros H Ht Hk Hp.
  apply generateKidArticle_Normal in H as (_ & ps' & log1' & rs & Ht' & Hrs & -> & R).
  rewrite (articleText_same topic ps ps' log1 log1' Ht Ht') in Hrs.
  destruct (Forall2_lookup_l _ _ _ _ _ Hrs Hk) as (r & Hr & Hpr).
  rewrite Hp in Hpr. injection Hpr as <-.
  split; [exact (illustrated_lookup h rs 1 k v shown Hr)|].
  rewrite R. change ((?x :: ?l) !! S k) with (l !! k). unfold imageRequests.
  exact (map_lookup_Some _ _ k _ (map_lookup_Some snd rs k _ Hr)).
Qed.

End WholeArticle.

(** ** Image references *)

Lemma data_url_not_empty (blob : Blob) : data_url blob <> [].
Proof. discriminate. Qed.

Lemma imageUrlFor_not_empty (r : Completion GenerateContentResponse) :
  imageUrlFor r <> [].
Proof.
  destruct (imageUrlFor_cases r) as [-> | [-> | [blob ->]]]; discriminate.
Qed.

Lemma placeholders_differ : PLACEHOLDER_BLUR <> PLACEHOLDER_GRAYSCALE.
Proof. discriminate. Qed.

(** A response without an inline image anywhere has no image part for the
    loop to find. *)
Lemma find_imagePart_no_inline_image (response : GenerateContentResponse) :
  ~ holds_inline_image response -> find_imagePart response = None.
Proof.
  intros Hno. unfold find_imagePart.
  destruct (candidates response) as [[|c cs]|] eqn:Hc; try reflexivity.
  destruct (content c) as [ct|] eqn:Hct; try reflexivity.
  destruct (parts ct) as [l|] eqn:Hl; try reflexivity.
  destruct (List.find _ l) as [part|] eqn:Hf; [|reflexivity].
  apply List.find_some in Hf as [Hin Hsome].
  apply bool_decide_eq_true in Hsome as [blob Hblob].
  destruct Hno. exists (c :: cs), c, ct, l, part, blob.
  repeat split; auto. now left.
Qed.

(** ** The claims *)

(** C1.  Whenever [generateKidArticle] returns, the text phase has produced a
    list of paragraph elements (the parsed array, or one object per non-blank
    line of the raw response), and the returned list has exactly one entry per
    element, in the same order: the lengths agree, the length is at least 5,
    and the [k]-th entry holds what [pData.paragraph] gives on the [k]-th
    element together with an image reference, which is one of the two
    placeholders or an inline image and is never empty. *)
Theorem generateKidArticle_one_entry_per_paragraph (h : Host) (topic : jsstring)
    (arts : list ArticleParagraph) (log : Log) :
  run (generateKidArticle h topic) = (Normal arts, log) ->
  exists (ps : list JSON) (log1 : Log)
         (resp : GenerateContentResponse) (s : jsstring),
    run (articleText h topic) = (Normal ps, log1)
    /\ service h 0 (articleRequest topic) = Normal resp
    /\ response_text resp = Some s
    /\ (JSON_parse h s = Normal (JArray ps)
        \/ ps = List.map paragraph_object (List.filter nonblank (split LF s)))
    /\ length arts = length ps
    /\ (5 <= length arts)%nat
    /\ Forall2 (fun p a => read_paragraph p = Normal (text a)) ps arts
    /\ forall k p, ps !! k = Some p ->
         exists v url,
           read_paragraph p = Normal v
           /\ arts !! k = Some {| text := v; imageUrl := url |}
           /\ url <> []
           /\ (url = PLACEHOLDER_GRAYSCALE \/ url = PLACEHOLDER_BLUR
               \/ exists blob, url = data_url blob).
Proof.
  intros H.
  apply generateKidArticle_Normal in H as (_ & ps & log1 & rs & Ht & Hrs & -> & _).
  destruct (articleText_Normal h topic [] log1 ps Ht)
    as (Hlen & _ & resp & s & Hs & Hr & _ & Hps).
  exists ps, log1, resp, s. rewrite illustrated_length.
  rewrite <- (Forall2_length _ _ _ Hrs).
  repeat split; try assumption.
  - destruct Hps as [? | ->]; [now left|right; apply fallbackParagraphs_lines].
  - now apply illustrated_read.
  - intros k p Hk.
    destruct (Forall2_lookup_l _ _ _ _ _ Hrs Hk) as ([v shown] & Hr' & Hp).
    exists v. eexists. split; [now apply shown_paragraph_Normal in Hp as [Hv _]|].
    split; [exact (illustrated_lookup h rs 1 k v shown Hr')|].
    split; [apply imageUrlFor_not_empty|apply imageUrlFor_cases].
Qed.

Lemma generateKidArticle_one_entry_per_paragraph_witness :
  run (generateKidArticle Samples.cookie_host Samples.cookie_topic)
  = (Normal Samples.cookie_article, Samples.cookie_log)
  /\ exists (ps : list JSON) (log1 : Log)
           (resp : GenerateContentResponse) (s : jsstring),
       run (articleText Samples.cookie_host Samples.cookie_topic) = (Normal ps, log1)
       /\ service Samples.cookie_host 0 (articleRequest Samples.cookie_topic) = Normal resp
       /\ response_text resp = Some s
       /\ (JSON_parse Samples.cookie_host s = Normal (JArray ps)
           \/ ps = List.map paragraph_object (List.filter nonblank (split LF s)))
       /\ length Samples.cookie_article = length ps
       /\ (5 <= length Samples.cookie_article)%nat
       /\ Forall2 (fun p a => read_paragraph p = Normal (text a)) ps Samples.cookie_article
       /\ forall k p, ps !! k = Some p ->
            exists v url,
              read_paragraph p = Normal v
              /\ Samples.cookie_article !! k = Some {| text := v; imageUrl := url |}
              /\ url <> []
              /\ (url = PLACEHOLDER_GRAYSCALE \/ url = PLACEHOLDER_BLUR
                  \/ exists blob, url = data_url blob).
Proof.
  assert (H : run (generateKidArticle Samples.cookie_host Samples.cookie_topic)
              = (Normal Samples.cookie_article, Samples.cookie_log))
    by (vm_compute; reflexivity).
  split; [exact H|].
  exact (generateKidArticle_one_entry_per_paragraph Samples.cookie_host
           Samples.cookie_topic Samples.cookie_article Samples.cookie_log H).
Defined.

(** C2, at the failing input.  The response is a well-formed JSON array of
    three paragraph objects, printed over five lines.  [JSON.parse] succeeds,
    the length check throws inside the [try] block, and the [catch] block of
    the same statement splits the raw JSON into its five lines: the function
    returns five "paragraphs" (brackets and raw object text) and issues five
    image requests, instead of failing. *)
Theorem short_parsed_array_reaches_the_fallback :
  JSON_parse Samples.short_host Samples.short_json
  = Normal (JArray [ paragraph_object (lit "A giant cookie was baked.");
                     paragraph_object (lit "It was as wide as a bus.");
                     paragraph_object (lit "Everyone got a piece.") ])
  /\ exists arts log,
       run (generateKidArticle Samples.short_host Samples.cookie_topic) = (Normal arts, log)
       /\ List.map text arts
          = List.map (fun line => Some (JString line))
              [ lit "[";
                lit "  " ++ Samples.json_paragraph "A giant cookie was baked." ++ lit ",";
                lit "  " ++ Samples.json_paragraph "It was as wide as a bus." ++ lit ",";
                lit "  " ++ Samples.json_paragraph "Everyone got a piece.";
                lit "]" ]
       /\ length (requests log) = 6%nat.
Proof.
  split; [vm_compute; reflexivity|].
  eexists _, _. split; [vm_compute; reflexivity|].
  split; vm_compute; reflexivity.
Qed.

(** C3, as stated, fails on the code.  The text phase checks that the parsed
    value is an array of at least five elements and nothing more; the loop
    reads [pData.paragraph] to build the image prompt before it enters the
    [try] block.  On the response below (four paragraph objects and a [null])
    the image request for paragraph 2 throws and is recovered with the
    placeholder, the loop goes on to paragraph 3, and then the function aborts
    at the [null] with the [TypeError] of reading it: there is no result, and
    the entry of paragraph 2 is lost with the rest. *)
Lemma image_failure_then_null_element_aborts :
  truthy_opt (API_KEY Samples.null_host) = true
  /\ run (articleText Samples.null_host Samples.cookie_topic)
     = (Normal Samples.null_paragraphs, [Request (articleRequest Samples.cookie_topic) None])
  /\ Samples.null_paragraphs !! 2%nat = Some (paragraph_object Samples.crane)
  /\ service Samples.null_host 3 (paragraphImageRequest Samples.crane)
     = Throw (new_Error (lit "503 Service Unavailable"))
  /\ run (generateKidArticle Samples.null_host Samples.cookie_topic)
     = (Throw Samples.NULL_PARAGRAPH, Samples.null_log)
  /\ ~ exists arts log,
         run (generateKidArticle Samples.null_host Samples.cookie_topic)
         = (Normal arts, log).
Proof.
  assert (H : run (generateKidArticle Samples.null_host Samples.cookie_topic)
              = (Throw Samples.NULL_PARAGRAPH, Samples.null_log))
    by (vm_compute; reflexivity).
  split; [reflexivity|]. split; [vm_compute; reflexivity|].
  split; [reflexivity|]. split; [reflexivity|]. split; [exact H|].
  intros (arts & log & H'). rewrite H in H'. discriminate.
Qed.

(** C3, amended.  When every element of the text phase can be read (it is not
    [null] and its [paragraph] converts to a string; elements of the declared
    type [ArticleTextResponse] and the objects made by the fallback all can),
    an image request that throws does not abort [generateKidArticle].  If the
    image request for paragraph [k] throws, the function still returns: the
    result has one entry per paragraph, entry [k] holds the paragraph with the
    failure placeholder, and an image request was issued for every paragraph,
    the later ones included. *)
Theorem image_failure_is_not_escalated (h : Host) (topic : jsstring)
    (ps : list JSON) (rs : list (JSValue * jsstring)) (log1 : Log) (k : nat) (p : JSON)
    (v : JSValue) (shown : jsstring) (e : Error) :
  truthy_opt (API_KEY h) = true ->
  run (articleText h topic) = (Normal ps, log1) ->
  Forall2 (fun p r => shown_paragraph p = Normal r) ps rs ->
  ps !! k = Some p ->
  shown_paragraph p = Normal (v, shown) ->
  service h (S k) (paragraphImageRequest shown) = Throw e ->
  exists arts log,
    run (generateKidArticle h topic) = (Normal arts, log)
    /\ length arts = length ps
    /\ arts !! k = Some {| text := v; imageUrl := PLACEHOLDER_GRAYSCALE |}
    /\ requests log
       = Request (articleRequest topic) None :: imageRequests (List.map snd rs).
Proof.
  intros Hkey Ht Hrs Hk Hp He.
  destruct (generateKidArticle_readable h topic ps rs log1 Hkey Ht Hrs) as (log & E & R).
  exists (illustrated h 1 rs), log. split; [exact E|].
  split; [rewrite illustrated_length; symmetry; exact (Forall2_length _ _ _ Hrs)|].
  split; [|exact R].
  destruct (generateKidArticle_entry h topic _ log log1 ps k p v shown E Ht Hk Hp)
    as [Hentry _].
  rewrite Hentry. simpl. now rewrite He.
Qed.

Lemma image_failure_is_not_escalated_witness :
  truthy_opt (API_KEY Samples.cookie_host) = true
  /\ run (articleText Samples.cookie_host Samples.cookie_topic)
     = (Normal Samples.cookie_paragraphs, [Request (articleRequest Samples.cookie_topic) None])
  /\ Forall2 (fun p r => shown_paragraph p = Normal r)
       Samples.cookie_paragraphs Samples.cookie_readings
  /\ Samples.cookie_paragraphs !! 2%nat = Some (paragraph_object Samples.crane)
  /\ shown_paragraph (paragraph_object Samples.crane)
     = Normal (Some (JString Samples.crane), Samples.crane)
  /\ service Samples.cookie_host 3 (paragraphImageRequest Samples.crane)
     = Throw (new_Error (lit "503 Service Unavailable"))
  /\ exists arts log,
       run (generateKidArticle Samples.cookie_host Samples.cookie_topic) = (Normal arts, log)
       /\ length arts = length Samples.cookie_paragraphs
       /\ arts !! 2%nat = Some {| text := Some (JString Samples.crane);
                                  imageUrl := PLACEHOLDER_GRAYSCALE |}
       /\ requests log = Request (articleRequest Samples.cookie_topic) None
                         :: imageRequests (List.map snd Samples.cookie_readings).
Proof.
  assert (Hkey : truthy_opt (API_KEY Samples.cookie_host) = true) by reflexivity.
  assert (Ht : run (articleText Samples.cookie_host Samples.cookie_topic)
               = (Normal Samples.cookie_paragraphs,
                  [Request (articleRequest Samples.cookie_topic) None]))
    by (vm_compute; reflexivity).
  assert (Hrs : Forall2 (fun p r => shown_paragraph p = Normal r)
                  Samples.cookie_paragraphs Samples.cookie_readings)
    by (repeat constructor).
  assert (Hk : Samples.cookie_paragraphs !! 2%nat = Some (paragraph_object Samples.crane))
    by reflexivity.
  assert (Hp : shown_paragraph (paragraph_object Samples.crane)
               = Normal (Some (JString Samples.crane), Samples.crane)) by reflexivity.
  assert (He : service Samples.cookie_host 3 (paragraphImageRequest Samples.crane)
               = Throw (new_Error (lit "503 Service Unavailable"))) by reflexivity.
  repeat (split; [assumption|]).
  exact (image_failure_is_not_escalated Samples.cookie_host Samples.cookie_topic
           Samples.cookie_paragraphs Samples.cookie_readings _ 2 _ _ _ _
           Hkey Ht Hrs Hk Hp He).
Defined.

(** C4.  In a run of [generateKidArticle] that returns, if the image request
    for paragraph [k] (request [k + 1] of the run, after the text request) is
    answered, but the loop finds no inline image in the answer (in particular
    when the answer holds none, [find_imagePart_no_inline_image]), entry [k]
    of the result holds the paragraph with the missing-payload placeholder,
    and that placeholder is not the failure placeholder. *)
Theorem missing_payload_has_its_own_placeholder (h : Host) (topic : jsstring)
    (arts : list ArticleParagraph) (log log1 : Log) (ps : list JSON) (k : nat) (p : JSON)
    (v : JSValue) (shown : jsstring) (resp : GenerateContentResponse) :
  run (generateKidArticle h topic) = (Normal arts, log) ->
  run (articleText h topic) = (Normal ps, log1) ->
  ps !! k = Some p ->
  shown_paragraph p = Normal (v, shown) ->
  service h (S k) (paragraphImageRequest shown) = Normal resp ->
  find_imagePart resp = None ->
  requests log !! S k = Some (Request (paragraphImageRequest shown) None)
  /\ arts !! k = Some {| text := v; imageUrl := PLACEHOLDER_BLUR |}
  /\ PLACEHOLDER_BLUR <> PLACEHOLDER_GRAYSCALE.
Proof.
  intros H Ht Hk Hp Hr Hnone.
  destruct (generateKidArticle_entry h topic arts log log1 ps k p v shown H Ht Hk Hp)
    as [Hentry Hreq].
  split; [exact Hreq|]. split; [|exact placeholders_differ].
  rewrite Hentry, Hr. unfold imageUrlFor. now rewrite Hnone.
Qed.

Lemma missing_payload_has_its_own_placeholder_witness :
  run (generateKidArticle Samples.cookie_host Samples.cookie_topic)
  = (Normal Samples.cookie_article, Samples.cookie_log)
  /\ run (articleText Samples.cookie_host Samples.cookie_topic)
     = (Normal Samples.cookie_paragraphs, [Request (articleRequest Samples.cookie_topic) None])
  /\ Samples.cookie_paragraphs !! 4%nat = Some (paragraph_object Samples.bite)
  /\ shown_paragraph (paragraph_object Samples.bite)
     = Normal (Some (JString Samples.bite), Samples.bite)
  /\ service Samples.cookie_host 5 (paragraphImageRequest Samples.bite)
     = Normal Samples.text_only
  /\ find_imagePart Samples.text_only = None
  /\ requests Samples.cookie_log !! 5%nat
     = Some (Request (paragraphImageRequest Samples.bite) None)
  /\ Samples.cookie_article !! 4%nat
     = Some {| text := Some (JString Samples.bite); imageUrl := PLACEHOLDER_BLUR |}
  /\ PLACEHOLDER_BLUR <> PLACEHOLDER_GRAYSCALE.
Proof.
  assert (H : run (generateKidArticle Samples.cookie_host Samples.cookie_topic)
              = (Normal Samples.cookie_article, Samples.cookie_log))
    by (vm_compute; reflexivity).
  assert (Ht : run (articleText Samples.cookie_host Samples.cookie_topic)
               = (Normal Samples.cookie_paragraphs,
                  [Request (articleRequest Samples.cookie_topic) None]))
    by (vm_compute; reflexivity).
  assert (Hk : Samples.cookie_paragraphs !! 4%nat = Some (paragraph_object Samples.bite))
    by reflexivity.
  assert (Hp : shown_paragraph (paragraph_object Samples.bite)
               = Normal (Some (JString Samples.bite), Samples.bite)) by reflexivity.
  assert (Hr : service Samples.cookie_host 5 (paragraphImageRequest Samples.bite)
               = Normal Samples.text_only) by reflexivity.
  assert (Hnone : find_imagePart Samples.text_only = None) by reflexivity.
  repeat (split; [assumption|]).
  exact (missing_payload_has_its_own_placeholder Samples.cookie_host Samples.cookie_topic
           Samples.cookie_article Samples.cookie_log _ Samples.cookie_paragraphs 4 _ _ _
           Samples.text_only H Ht Hk Hp Hr Hnone).
Defined.

(** C5.  When the text response does not parse as the expected structure
    ([JSON.parse] throws, or its value is not an array), the fallback
    paragraphs are exactly the lines of the raw response that are not empty
    after trimming, one paragraph per line and in their order.  With five or
    more of them the text phase succeeds with these paragraphs; with fewer,
    [generateKidArticle] fails with an error whose message ends with the raw
    response, after the text request only. *)
Theorem fallback_is_the_nonblank_lines (h : Host) (topic : jsstring)
    (resp : GenerateContentResponse) (s : jsstring) :
  truthy_opt (API_KEY h) = true ->
  service h 0 (articleRequest topic) = Normal resp ->
  response_text resp = Some s -> s <> [] ->
  not_expected_structure (JSON_parse h s) ->
  fallbackParagraphs s
  = List.map paragraph_object (List.filter nonblank (split LF s))
  /\ ((5 <= length (fallbackParagraphs s))%nat ->
      exists log1, run (articleText h topic) = (Normal (fallbackParagraphs s), log1))
  /\ ((length (fallbackParagraphs s) < 5)%nat ->
      exists e log,
        run (generateKidArticle h topic) = (Throw e, log)
        /\ message e = NOT_ENOUGH_PARAGRAPHS ++ s
        /\ includes (message e) s = true
        /\ requests log = [Request (articleRequest topic) None]).
Proof.
  intros Hkey Hs Hr Hne Hp.
  assert (Hfb := articleText_fallback h topic [] resp s Hs Hr Hne).
  assert (Hshort : forall elems, JSON_parse h s = Normal (JArray elems) ->
                                 (length elems < 5)%nat).
  { intros elems E. rewrite E in Hp. destruct Hp. }
  specialize (Hfb Hshort). split; [apply fallbackParagraphs_lines|]. split.
  - intros Hge. eexists. unfold run. rewrite Hfb.
    destruct (Nat.ltb_spec (length (fallbackParagraphs s)) 5); [lia|reflexivity].
  - intros Hlt.
    exists (new_Error (NOT_ENOUGH_PARAGRAPHS ++ s)),
           [Request (articleRequest topic) None;
            Console LevelError (lit "Error parsing article JSON:")].
    split; [|split; [reflexivity|split; [|reflexivity]]].
    + apply generateKidArticle_text_failure; [exact Hkey|]. unfold run. rewrite Hfb.
      destruct (Nat.ltb_spec (length (fallbackParagraphs s)) 5); [reflexivity|lia].
    + cbn [message new_Error]. apply includes_suffix.
Qed.

Lemma fallback_is_the_nonblank_lines_witness :
  truthy_opt (API_KEY Samples.two_lines_host) = true
  /\ service Samples.two_lines_host 0 (articleRequest Samples.cookie_topic)
     = Normal {| candidates := None; response_text := Some Samples.two_lines |}
  /\ Samples.two_lines <> []
  /\ not_expected_structure (JSON_parse Samples.two_lines_host Samples.two_lines)
  /\ (length (fallbackParagraphs Samples.two_lines) < 5)%nat
  /\ exists e log,
       run (generateKidArticle Samples.two_lines_host Samples.cookie_topic) = (Throw e, log)
       /\ message e = NOT_ENOUGH_PARAGRAPHS ++ Samples.two_lines
       /\ includes (message e) Samples.two_lines = true
       /\ requests log = [Request (articleRequest Samples.cookie_topic) None].
Proof.
  assert (Hkey : truthy_opt (API_KEY Samples.two_lines_host) = true) by reflexivity.
  assert (Hs : service Samples.two_lines_host 0 (articleRequest Samples.cookie_topic)
               = Normal {| candidates := None; response_text := Some Samples.two_lines |})
    by reflexivity.
  assert (Hne : Samples.two_lines <> []) by discriminate.
  assert (Hp : not_expected_structure (JSON_parse Samples.two_lines_host Samples.two_lines))
    by (vm_compute; exact I).
  assert (Hlt : (length (fallbackParagraphs Samples.two_lines) < 5)%nat)
    by (vm_compute; lia).
  repeat (split; [assumption|]).
  exact (proj2 (proj2 (fallback_is_the_nonblank_lines Samples.two_lines_host
                         Samples.cookie_topic _ Samples.two_lines Hkey Hs eq_refl Hne Hp))
           Hlt).
Defined.

(** C6.  With no credential in the environment ([process.env.API_KEY]
    undefined or empty), each of the four generation functions throws the
    configuration error at once: the log is empty, so no request was issued. *)
Theorem missing_credential_fails_before_any_request (h : Host) :
  truthy_opt (API_KEY h) = false ->
  (forall topic,
     run (generateKidArticle h topic) = (Throw (new_Error API_KEY_not_set), []))
  /\ (forall prompt size requestOptions,
        run (generateImage h prompt size requestOptions)
        = (Throw (new_Error API_KEY_not_set), []))
  /\ (forall base64 mime editPrompt,
        run (editImage h base64 mime editPrompt)
        = (Throw (new_Error API_KEY_not_set), []))
  /\ (forall prompt,
        run (getQuickResponse h prompt) = (Throw (new_Error API_KEY_not_set), [])).
Proof.
  intros Hkey.
  unfold run, generateKidArticle, generateImage, editImage, getQuickResponse.
  rewrite Hkey. simpl. repeat split.
Qed.

Lemma missing_credential_fails_before_any_request_witness :
  truthy_opt (API_KEY Samples.keyless_host) = false
  /\ run (generateKidArticle Samples.keyless_host Samples.cookie_topic)
     = (Throw (new_Error API_KEY_not_set), [])
  /\ run (generateImage Samples.keyless_host Samples.cookie_topic Size2K None)
     = (Throw (new_Error API_KEY_not_set), [])
  /\ run (editImage Samples.keyless_host (lit "iVBORw0KGgo=") (lit "image/png")
            (lit "add a hat"))
     = (Throw (new_Error API_KEY_not_set), [])
  /\ run (getQuickResponse Samples.keyless_host (lit "Why do cats purr?"))
     = (Throw (new_Error API_KEY_not_set), []).
Proof.
  assert (Hkey : truthy_opt (API_KEY Samples.keyless_host) = false) by reflexivity.
  split; [exact Hkey|].
  destruct (missing_credential_fails_before_any_request Samples.keyless_host Hkey)
    as (H1 & H2 & H3 & H4).
  split; [apply H1|split; [apply H2|split; [apply H3|apply H4]]].
Defined.

(** C7, as stated, fails on the code: [generateKidArticle] does not look at
    its topic.  With a credential configured, the topic of three spaces is
    sent to the service like any other, and the function returns an article
    after one text request and six image requests. *)
Lemma generateKidArticle_accepts_blank_topic :
  trim Samples.blank_topic = []
  /\ exists log,
       run (generateKidArticle Samples.cookie_host Samples.blank_topic)
       = (Normal Samples.cookie_article, log)
       /\ length (requests log) = 7%nat.
Proof.
  split; [reflexivity|].
  eexists. split; vm_compute; reflexivity.
Qed.

(** C7, amended.  The precondition is enforced by the caller: for every topic
    that is empty after trimming, [handleGenerateArticle] sets the error
    message asking for a topic, leaves the rest of the state as it was, and
    returns without calling [generateKidArticle]: the log is empty, so no
    remote request is issued. *)
Theorem handleGenerateArticle_rejects_blank_topic (h : Host) (st : AppState) :
  trim (topic st) = [] ->
  run (handleGenerateArticle h st)
  = (Normal {| topic := topic st; article := article st; loading := loading st;
               error := Some PLEASE_ENTER_TOPIC;
               currentView := currentView st; apiKeySelected := apiKeySelected st |},
     []).
Proof.
  intros Hblank. unfold run, handleGenerateArticle. rewrite Hblank. reflexivity.
Qed.

Lemma handleGenerateArticle_rejects_blank_topic_witness :
  trim (topic (Samples.idle Samples.blank_topic)) = []
  /\ run (handleGenerateArticle Samples.cookie_host (Samples.idle Samples.blank_topic))
     = (Normal {| topic := Samples.blank_topic; article := None; loading := false;
                  error := Some PLEASE_ENTER_TOPIC;
                  currentView := ARTICLES; apiKeySelected := true |},
        []).
Proof.
  assert (Hblank : trim (topic (Samples.idle Samples.blank_topic)) = []) by reflexivity.
  split; [exact Hblank|].
  exact (handleGenerateArticle_rejects_blank_topic Samples.cookie_host
           (Samples.idle Samples.blank_topic) Hblank).
Defined.

(** C8.  If the text call returns a response whose text is empty or missing,
    [generateKidArticle] throws at once: the log holds the text request and
    nothing else, so neither the [catch] block of the parsing step (which
    logs) nor any image request was reached, and what [JSON.parse] of the host
    would do plays no part in the result. *)
Theorem empty_text_response_fails_at_once (h : Host) (topic : jsstring)
    (resp : GenerateContentResponse) :
  truthy_opt (API_KEY h) = true ->
  service h 0 (articleRequest topic) = Normal resp ->
  truthy_opt (response_text resp) = false ->
  run (generateKidArticle h topic)
  = (Throw (new_Error (lit "Failed to get article text from Gemini API.")),
     [Request (articleRequest topic) None]).
Proof.
  intros Hkey Hs Hempty.
  apply generateKidArticle_text_failure; [exact Hkey|].
  exact (articleText_empty h topic [] resp Hs Hempty).
Qed.

Lemma empty_text_response_fails_at_once_witness :
  truthy_opt (API_KEY Samples.empty_host) = true
  /\ service Samples.empty_host 0 (articleRequest Samples.cookie_topic)
     = Normal {| candidates := None; response_text := Some [] |}
  /\ truthy_opt (Some []) = false
  /\ run (generateKidArticle Samples.empty_host Samples.cookie_topic)
     = (Throw (new_Error (lit "Failed to get article text from Gemini API.")),
        [Request (articleRequest Samples.cookie_topic) None]).
Proof.
  assert (Hkey : truthy_opt (API_KEY Samples.empty_host) = true) by reflexivity.
  assert (Hs : service Samples.empty_host 0 (articleRequest Samples.cookie_topic)
               = Normal {| candidates := None; response_text := Some [] |}) by reflexivity.
  assert (Hempty : truthy_opt (Some []) = false) by reflexivity.
  repeat (split; [assumption|]).
  exact (empty_text_response_fails_at_once Samples.empty_host Samples.cookie_topic
           _ Hkey Hs Hempty).
Defined.

(** C9.  With a credential configured, [getQuickResponse] issues one request
    and then: returns the text of the response when it is not empty; returns
    the fixed fallback string when the text is empty or missing; and when the
    call itself throws, throws an error built from the underlying message,
    not the fallback string. *)
Theorem getQuickResponse_outcomes (h : Host) (prompt : jsstring) :
  truthy_opt (API_KEY h) = true ->
  (forall resp t,
     service h 0 (quickRequest prompt) = Normal resp ->
     response_text resp = Some t -> t <> [] ->
     run (getQuickResponse h prompt)
     = (Normal t, [Request (quickRequest prompt) None]))
  /\ (forall resp,
        service h 0 (quickRequest prompt) = Normal resp ->
        truthy_opt (response_text resp) = false ->
        run (getQuickResponse h prompt)
        = (Normal QUICK_FALLBACK, [Request (quickRequest prompt) None]))
  /\ (forall e,
        service h 0 (quickRequest prompt) = Throw e ->
        run (getQuickResponse h prompt)
        = (Throw (new_Error
             (lit "Failed to get quick response: "
              ++ (if truthy (message e) then message e
                  else lit "An unknown error occurred."))),
           [Request (quickRequest prompt) None;
            Console LevelError (lit "Error getting quick response:")])).
Proof.
  intros Hkey.
  unfold run, getQuickResponse, try_catch, bind, generateContent, rethrow,
    console_error, emit, throw, ret.
  rewrite Hkey. cbn [negb requests List.filter length app].
  repeat split.
  - intros resp t -> Ht Hne. rewrite Ht. destruct t; [congruence|reflexivity].
  - intros resp -> Ht. apply truthy_opt_false in Ht as [-> | ->]; reflexivity.
  - intros e ->. reflexivity.
Qed.

Lemma getQuickResponse_outcomes_witness :
  truthy_opt (API_KEY Samples.empty_host) = true
  /\ run (getQuickResponse Samples.empty_host (lit "Why do cats purr?"))
     = (Normal QUICK_FALLBACK, [Request (quickRequest (lit "Why do cats purr?")) None]).
Proof.
  assert (Hkey : truthy_opt (API_KEY Samples.empty_host) = true) by reflexivity.
  split; [exact Hkey|].
  exact (proj1 (proj2 (getQuickResponse_outcomes Samples.empty_host
                         (lit "Why do cats purr?") Hkey))
           {| candidates := None; response_text := Some [] |} eq_refl eq_refl).
Defined.

(** C10.  The image phase leaves the paragraph text alone: in a run of
    [generateKidArticle] that returns, the result has one entry per element of
    the text phase, and for every index [i] the text of the [i]-th entry is
    what [pData.paragraph] gives on the [i]-th element, whatever the service
    answered to the image requests.  For an element of the declared type it
    is the element's paragraph string. *)
Theorem paragraph_text_is_unchanged (h : Host) (topic : jsstring)
    (arts : list ArticleParagraph) (log log1 : Log) (ps : list JSON) :
  run (generateKidArticle h topic) = (Normal arts, log) ->
  run (articleText h topic) = (Normal ps, log1) ->
  length arts = length ps
  /\ Forall2 (fun p a => read_paragraph p = Normal (text a)) ps arts
  /\ (forall i p, ps !! i = Some p ->
        exists a, arts !! i = Some a /\ read_paragraph p = Normal (text a))
  /\ (forall i p r, ps !! i = Some p -> as_ArticleTextResponse p = Some r ->
        text <$> arts !! i = Some (Some (JString (paragraph r)))).
Proof.
  intros H Ht.
  assert (Hall : Forall2 (fun p a => read_paragraph p = Normal (text a)) ps arts).
  { apply generateKidArticle_Normal in H as (_ & ps' & log1' & rs & Ht' & Hrs & -> & _).
    rewrite (articleText_same h topic ps ps' log1 log1' Ht Ht') in Hrs.
    now apply illustrated_read. }
  split; [symmetry; exact (Forall2_length _ _ _ Hall)|]. split; [exact Hall|]. split.
  - intros i p Hi. exact (Forall2_lookup_l _ _ _ _ _ Hall Hi).
  - intros i p r Hi Hdecl.
    pose proof (shown_paragraph_declared p r Hdecl) as Hp.
    destruct (generateKidArticle_entry h topic arts log log1 ps i p _ _ H Ht Hi Hp)
      as [Hentry _].
    now rewrite Hentry.
Qed.

Lemma paragraph_text_is_unchanged_witness :
  run (generateKidArticle Samples.plain_host Samples.cookie_topic)
  = (Normal Samples.cookie_article,
     Samples.plain_log)
  /\ run (articleText Samples.plain_host Samples.cookie_topic)
     = (Normal Samples.cookie_paragraphs,
        [Request (articleRequest Samples.cookie_topic) None;
         Console LevelError (lit "Error parsing article JSON:")])
  /\ length Samples.cookie_article = length Samples.cookie_paragraphs
  /\ Forall2 (fun p a => read_paragraph p = Normal (text a))
       Samples.cookie_paragraphs Samples.cookie_article
  /\ (forall i p, Samples.cookie_paragraphs !! i = Some p ->
        exists a, Samples.cookie_article !! i = Some a
                  /\ read_paragraph p = Normal (text a))
  /\ (forall i p r, Samples.cookie_paragraphs !! i = Some p ->
        as_ArticleTextResponse p = Some r ->
        text <$> Samples.cookie_article !! i = Some (Some (JString (paragraph r)))).
Proof.
  assert (H : run (generateKidArticle Samples.plain_host Samples.cookie_topic)
              = (Normal Samples.cookie_article,
                 Samples.plain_log))
    by (vm_compute; reflexivity).
  assert (Ht : run (articleText Samples.plain_host Samples.cookie_topic)
               = (Normal Samples.cookie_paragraphs,
                  [Request (articleRequest Samples.cookie_topic) None;
                   Console LevelError (lit "Error parsing article JSON:")]))
    by (vm_compute; reflexivity).
  repeat (split; [assumption|]).
  exact (paragraph_text_is_unchanged Samples.plain_host Samples.cookie_topic
           Samples.cookie_article _ _ Samples.cookie_paragraphs H Ht).
Defined.

(** * Further properties of the code *)

(** ** [generateKidArticle]: failures, requests and image references *)

Section ArticleOutcomes.

Variable h : Host.

(** The text call fails: the error is logged and rethrown with the underlying
    message after the fixed prefix. *)
Lemma articleText_service_failure_message (topic : jsstring) (log : Log) (e : Error) :
  service h (length (requests log)) (articleRequest topic) = Throw e ->
  articleText h topic log
  = (Throw (new_Error (COULD_NOT_GENERATE
                       ++ (if truthy (message e) then message e else Error_toString e))),
     log ++ [Request (articleRequest topic) None]
         ++ [Console LevelError (lit "Error generating article text:")]).
Proof.
  intros Hs. unfold articleText, bind, try_catch, generateContent, console_error, emit, throw.
  rewrite Hs. now rewrite <- app_assoc.
Qed.

(** Every way the text phase can end. *)
Lemma articleText_outcome (topic : jsstring) (log : Log) :
  exists r log',
    articleText h topic log = (r, log')
    /\ requests log' = requests log ++ [Request (articleRequest topic) None]
    /\ match r with
       | Normal ps => (5 <= length ps)%nat
       | Throw e =>
           (exists m, e = new_Error (COULD_NOT_GENERATE ++ m))
           \/ e = new_Error NO_ARTICLE_TEXT
           \/ exists s, e = new_Error (NOT_ENOUGH_PARAGRAPHS ++ s)
       end.
Proof.
  destruct (service h (length (requests log)) (articleRequest topic)) as [resp|e] eqn:Hs.
  2:{ eexists _, _. split; [apply articleText_service_failure_message, Hs|].
      split; [now rewrite requests_app|]. left. eauto. }
  destruct (truthy_opt (response_text resp)) eqn:Ht.
  2:{ eexists _, _. split; [apply (articleText_empty h topic log resp Hs Ht)|].
      split; [apply requests_request|]. right. now left. }
  destruct (response_text resp) as [s|] eqn:Hr; [|discriminate].
  assert (Hne : s <> []) by (intros ->; discriminate).
  assert (Hfb : (forall elems, JSON_parse h s = Normal (JArray elems) ->
                               (length elems < 5)%nat) ->
                exists r log',
                  articleText h topic log = (r, log')
                  /\ requests log' = requests log ++ [Request (articleRequest topic) None]
                  /\ match r with
                     | Normal ps => (5 <= length ps)%nat
                     | Throw e =>
                         (exists m, e = new_Error (COULD_NOT_GENERATE ++ m))
                         \/ e = new_Error NO_ARTICLE_TEXT
                         \/ exists s, e = new_Error (NOT_ENOUGH_PARAGRAPHS ++ s)
                     end).
  { intros Hshort. eexists _, _.
    split; [apply (articleText_fallback h topic log resp s Hs Hr Hne Hshort)|].
    split; [now rewrite requests_app|].
    destruct (Nat.ltb_spec (length (fallbackParagraphs s)) 5); [|assumption].
    right. right. eauto. }
  destruct (JSON_parse h s) as [[| | | |elems|]|e] eqn:Hp;
    try (apply Hfb; intros; discriminate).
  destruct (Nat.ltb_spec (length elems) 5) as [Hlt|Hge].
  - apply Hfb. intros ? [= <-]. exact Hlt.
  - eexists _, _.
    split; [apply (articleText_parsed h topic log resp s elems Hs Hr Hne Hp Hge)|].
    split; [apply requests_request|assumption].
Qed.

(** The two errors of building the image prompt. *)
Lemma ToString_json_Throw (v : JSON) :
  forall e : Error, ToString_json v = Throw e -> e = CANNOT_CONVERT.
Proof.
  induction v as [|b|lexeme|s|elems IH|members] using JSON_elements_ind; intros e; simpl.
  - discriminate.
  - destruct b; discriminate.
  - discriminate.
  - discriminate.
  - generalize true. induction IH as [|x elems Hx _ IHl]; intros first; [discriminate|].
    destruct (match x with JNull => Normal [] | _ => ToString_json x end)
      as [piece|err] eqn:Ex.
    + match goal with
      | |- context [?f false elems] => destruct (f false elems) as [rest|err] eqn:Hrest
      end; [discriminate|].
      intros [= <-]. exact (IHl false Hrest).
    + intros [= <-]. destruct x; try discriminate; exact (Hx _ Ex).
  - destruct (existsb _ members); [|discriminate]. now intros [= <-].
Qed.

Lemma shown_paragraph_Throw_kinds (pData : JSON) (e : Error) :
  shown_paragraph pData = Throw e ->
  (pData = JNull /\ e = CANNOT_READ_NULL) \/ e = CANNOT_CONVERT.
Proof.
  intros H. apply shown_paragraph_Throw in H as [H | (v & _ & H)].
  - left. destruct pData; simpl in H; try discriminate. now injection H as <-.
  - right. destruct v as [j|]; [|discriminate]. exact (ToString_json_Throw j e H).
Qed.

(** Every way [generateKidArticle] can fail. *)
Lemma generateKidArticle_Throw (topic : jsstring) (e : Error) (log : Log) :
  run (generateKidArticle h topic) = (Throw e, log) ->
  (truthy_opt (API_KEY h) = false /\ e = new_Error API_KEY_not_set /\ log = [])
  \/ (truthy_opt (API_KEY h) = true /\ run (articleText h topic) = (Throw e, log))
  \/ (truthy_opt (API_KEY h) = true
      /\ exists ps log1 pre rs bad post,
           run (articleText h topic) = (Normal ps, log1)
           /\ ps = pre ++ bad :: post
           /\ Forall2 (fun p r => shown_paragraph p = Normal r) pre rs
           /\ shown_paragraph bad = Throw e
           /\ requests log
              = Request (articleRequest topic) None :: imageRequests (List.map snd rs)).
Proof.
  intros H. destruct (truthy_opt (API_KEY h)) eqn:Hk.
  - right.
    destruct (run (articleText h topic)) as [[ps|e'] log1] eqn:Ht.
    + right. split; [reflexivity|].
      destruct (generateKidArticle_after_text h topic ps log1 Hk Ht) as (l & E & R).
      rewrite E in H. destruct (readings ps) as [rs [e'|]] eqn:Hrs; simpl in *;
        [|discriminate].
      injection H as <- <-.
      apply readings_stop in Hrs as (pre & bad & post & Hps & Hpre & Hbad).
      exists ps, log1, pre, rs, bad, post. auto.
    + left. split; [reflexivity|].
      rewrite (generateKidArticle_text_failure h topic e' log1 Hk Ht) in H.
      now injection H as <- <-.
  - left. unfold run, generateKidArticle in H. rewrite Hk in H.
    injection H as <- <-. auto.
Qed.

Lemma find_imagePart_inline (response : GenerateContentResponse) (part : Part) :
  find_imagePart response = Some part -> exists blob, inlineData part = Some blob.
Proof.
  unfold find_imagePart.
  destruct (candidates response) as [[|c cs]|]; try discriminate.
  destruct (content c) as [ct|]; try discriminate.
  destruct (parts ct) as [l|]; try discriminate.
  intros Hf. apply List.find_some in Hf as [_ Hs].
  apply bool_decide_eq_true in Hs as [blob Hb]. eauto.
Qed.

(** [find] returns the first part that holds inline data. *)
Lemma find_imagePart_first (response : GenerateContentResponse) (c : Candidate)
    (cs : list Candidate) (ct : Content) (pre post : list Part) (part : Part) (blob : Blob) :
  candidates response = Some (c :: cs) -> content c = Some ct ->
  parts ct = Some (pre ++ part :: post) ->
  Forall (fun q => inlineData q = None) pre ->
  inlineData part = Some blob ->
  find_imagePart response = Some part.
Proof.
  intros Hc Hct Hp Hpre Hb. unfold find_imagePart. rewrite Hc, Hct, Hp. clear Hp.
  induction Hpre as [|q pre Hq _ IH]; simpl.
  - rewrite bool_decide_eq_true_2; [reflexivity|]. rewrite Hb. eauto.
  - rewrite bool_decide_eq_false_2; [exact IH|]. rewrite Hq. intros [? ?]. discriminate.
Qed.

Lemma imageUrlFor_inline (response : GenerateContentResponse) (part : Part) (blob : Blob) :
  find_imagePart response = Some part -> inlineData part = Some blob ->
  imageUrlFor (Normal response) = data_url blob.
Proof.
  intros Hf Hb. unfold imageUrlFor. rewrite Hf. destruct part as [t i].
  simpl in Hb. now rewrite Hb.
Qed.

Lemma data_url_not_placeholder (blob : Blob) :
  data_url blob <> PLACEHOLDER_GRAYSCALE /\ data_url blob <> PLACEHOLDER_BLUR.
Proof. split; discriminate. Qed.

End ArticleOutcomes.

(** X1.  The requests of a failed run of [generateKidArticle].  Whenever the
    function throws, one of three things has happened.  Nothing was logged at
    all (no credential).  Or the text phase failed with the same error, and
    the only request of the run is the text request.  Or the text phase
    succeeded and the loop stopped at the first element whose image prompt
    could not be built ([null], or a [paragraph] that does not convert to a
    string): the error is the [TypeError] of that element, every element
    before it could be read, and the requests of the run are the text request
    followed by the image requests of exactly the elements before it. *)
Theorem failed_article_requests (h : Host) (topic : jsstring) (e : Error) (log : Log) :
  run (generateKidArticle h topic) = (Throw e, log) ->
  (truthy_opt (API_KEY h) = false /\ log = [])
  \/ (truthy_opt (API_KEY h) = true
      /\ run (articleText h topic) = (Throw e, log)
      /\ requests log = [Request (articleRequest topic) None])
  \/ (truthy_opt (API_KEY h) = true
      /\ exists ps log1 pre rs bad post,
           run (articleText h topic) = (Normal ps, log1)
           /\ ps = pre ++ bad :: post
           /\ Forall2 (fun p r => shown_paragraph p = Normal r) pre rs
           /\ shown_paragraph bad = Throw e
           /\ (e = CANNOT_READ_NULL \/ e = CANNOT_CONVERT)
           /\ requests log
              = Request (articleRequest topic) None :: imageRequests (List.map snd rs)
           /\ length (requests log) = S (length pre)).
Proof.
  intros H. apply generateKidArticle_Throw in H as [(Hk & _ & ->) | [(Hk & Ht) | (Hk & H)]].
  - now left.
  - right. left. split; [exact Hk|]. split; [exact Ht|].
    destruct (articleText_outcome h topic []) as (r & log' & E & R & _).
    unfold run in Ht. rewrite E in Ht. injection Ht as _ <-. exact R.
  - right. right. split; [exact Hk|].
    destruct H as (ps & log1 & pre & rs & bad & post & Ht & Hps & Hpre & Hbad & R).
    exists ps, log1, pre, rs, bad, post. repeat (split; [assumption|]).
    split; [destruct (shown_paragraph_Throw_kinds bad e Hbad) as [[_ ?]|?]; auto|].
    split; [exact R|]. rewrite R. simpl.
    now rewrite length_imageRequests, length_map, (Forall2_length _ _ _ Hpre).
Qed.

Lemma failed_article_requests_witness :
  run (generateKidArticle Samples.null_host Samples.cookie_topic)
  = (Throw Samples.NULL_PARAGRAPH, Samples.null_log)
  /\ ((truthy_opt (API_KEY Samples.null_host) = false /\ Samples.null_log = [])
      \/ (truthy_opt (API_KEY Samples.null_host) = true
          /\ run (articleText Samples.null_host Samples.cookie_topic)
             = (Throw Samples.NULL_PARAGRAPH, Samples.null_log)
          /\ requests Samples.null_log = [Request (articleRequest Samples.cookie_topic) None])
      \/ (truthy_opt (API_KEY Samples.null_host) = true
          /\ exists ps log1 pre rs bad post,
               run (articleText Samples.null_host Samples.cookie_topic) = (Normal ps, log1)
               /\ ps = pre ++ bad :: post
               /\ Forall2 (fun p r => shown_paragraph p = Normal r) pre rs
               /\ shown_paragraph bad = Throw Samples.NULL_PARAGRAPH
               /\ (Samples.NULL_PARAGRAPH = CANNOT_READ_NULL
                   \/ Samples.NULL_PARAGRAPH = CANNOT_CONVERT)
               /\ requests Samples.null_log
                  = Request (articleRequest Samples.cookie_topic) None
                    :: imageRequests (List.map snd rs)
               /\ length (requests Samples.null_log) = S (length pre))).
Proof.
  assert (H : run (generateKidArticle Samples.null_host Samples.cookie_topic)
              = (Throw Samples.NULL_PARAGRAPH, Samples.null_log))
    by (vm_compute; reflexivity).
  split; [exact H|].
  exact (failed_article_requests Samples.null_host Samples.cookie_topic _ _ H).
Defined.

(** X2.  The requests of a successful run can be read off its result: one
    text request, then for each returned entry, in order, the image request
    whose prompt is built from the string form of that entry's text.  In
    particular a run that returns [n] entries has issued [n + 1] requests. *)
Theorem article_requests_follow_entries (h : Host) (topic : jsstring)
    (arts : list ArticleParagraph) (log : Log) :
  run (generateKidArticle h topic) = (Normal arts, log) ->
  exists shown : list jsstring,
    Forall2 (fun a s => ToString (text a) = Normal s) arts shown
    /\ requests log = Request (articleRequest topic) None :: imageRequests shown
    /\ length (requests log) = S (length arts).
Proof.
  intros H. apply generateKidArticle_Normal in H as (_ & ps & log1 & rs & _ & Hrs & -> & R).
  exists (List.map snd rs). split; [exact (illustrated_shown h ps rs Hrs 1)|].
  split; [exact R|]. rewrite R. simpl.
  now rewrite length_imageRequests, length_map, illustrated_length.
Qed.

Lemma article_requests_follow_entries_witness :
  run (generateKidArticle Samples.cookie_host Samples.cookie_topic)
  = (Normal Samples.cookie_article, Samples.cookie_log)
  /\ exists shown : list jsstring,
       Forall2 (fun a s => ToString (text a) = Normal s) Samples.cookie_article shown
       /\ requests Samples.cookie_log
          = Request (articleRequest Samples.cookie_topic) None :: imageRequests shown
       /\ length (requests Samples.cookie_log) = S (length Samples.cookie_article).
Proof.
  assert (H : run (generateKidArticle Samples.cookie_host Samples.cookie_topic)
              = (Normal Samples.cookie_article, Samples.cookie_log))
    by (vm_compute; reflexivity).
  split; [exact H|].
  exact (article_requests_follow_entries Samples.cookie_host Samples.cookie_topic
           Samples.cookie_article Samples.cookie_log H).
Defined.

(** X3.  A failure of the text call is fatal and is not retried: the function
    logs it and throws an error whose message is the fixed prefix followed by
    the message of the underlying error (or, when that is empty, by the
    error's string form); the text request is the only request. *)
Theorem text_call_failure_is_rethrown (h : Host) (topic : jsstring) (e : Error) :
  truthy_opt (API_KEY h) = true ->
  service h 0 (articleRequest topic) = Throw e ->
  run (generateKidArticle h topic)
  = (Throw (new_Error (COULD_NOT_GENERATE
                       ++ (if truthy (message e) then message e else Error_toString e))),
     [Request (articleRequest topic) None;
      Console LevelError (lit "Error generating article text:")]).
Proof.
  intros Hk Hs. apply generateKidArticle_text_failure; [exact Hk|].
  exact (articleText_service_failure_message h topic [] e Hs).
Qed.

Lemma text_call_failure_is_rethrown_witness :
  truthy_opt (API_KEY MoreSamples.failing_host) = true
  /\ service MoreSamples.failing_host 0 (articleRequest Samples.cookie_topic)
     = Throw (new_Error (lit "Requested entity was not found."))
  /\ run (generateKidArticle MoreSamples.failing_host Samples.cookie_topic)
     = (Throw (new_Error (COULD_NOT_GENERATE ++ lit "Requested entity was not found.")),
        [Request (articleRequest Samples.cookie_topic) None;
         Console LevelError (lit "Error generating article text:")]).
Proof.
  assert (Hk : truthy_opt (API_KEY MoreSamples.failing_host) = true) by reflexivity.
  assert (Hs : service MoreSamples.failing_host 0 (articleRequest Samples.cookie_topic)
               = Throw (new_Error (lit "Requested entity was not found."))) by reflexivity.
  repeat (split; [assumption|]).
  exact (text_call_failure_is_rethrown MoreSamples.failing_host Samples.cookie_topic
           _ Hk Hs).
Defined.

(** X4.  In a run that returns, when the answer to the image request of
    paragraph [k] holds inline data, the entry gets the data URL of the first
    part of the first candidate that holds inline data; parts before it
    without inline data are skipped and later parts are ignored. *)
Theorem first_inline_image_is_attached (h : Host) (topic : jsstring)
    (arts : list ArticleParagraph) (log log1 : Log) (ps : list JSON) (k : nat) (p : JSON)
    (v : JSValue) (shown : jsstring)
    (resp : GenerateContentResponse) (c : Candidate) (cs : list Candidate) (ct : Content)
    (pre post : list Part) (part : Part) (blob : Blob) :
  run (generateKidArticle h topic) = (Normal arts, log) ->
  run (articleText h topic) = (Normal ps, log1) ->
  ps !! k = Some p ->
  shown_paragraph p = Normal (v, shown) ->
  service h (S k) (paragraphImageRequest shown) = Normal resp ->
  candidates resp = Some (c :: cs) -> content c = Some ct ->
  parts ct = Some (pre ++ part :: post) ->
  Forall (fun q => inlineData q = None) pre ->
  inlineData part = Some blob ->
  arts !! k
  = Some {| text := v;
            imageUrl := lit "data:" ++ show_opt (mimeType blob)
                        ++ lit ";base64," ++ show_opt (data blob) |}.
Proof.
  intros H Ht Hp Hv Hs Hc Hct Hparts Hpre Hb.
  destruct (generateKidArticle_entry h topic arts log log1 ps k p v shown H Ht Hp Hv)
    as [Hentry _].
  rewrite Hentry, Hs.
  now rewrite (imageUrlFor_inline resp part blob
                 (find_imagePart_first resp c cs ct pre post part blob Hc Hct Hparts Hpre Hb)
                 Hb).
Qed.

Lemma first_inline_image_is_attached_witness :
  run (generateKidArticle MoreSamples.two_images_host Samples.cookie_topic)
  = (Normal MoreSamples.two_images_article, MoreSamples.two_images_log)
  /\ run (articleText MoreSamples.two_images_host Samples.cookie_topic)
     = (Normal Samples.cookie_paragraphs, [Request (articleRequest Samples.cookie_topic) None])
  /\ Samples.cookie_paragraphs !! 0%nat = Some (paragraph_object MoreSamples.giant_cookie)
  /\ shown_paragraph (paragraph_object MoreSamples.giant_cookie)
     = Normal (Some (JString MoreSamples.giant_cookie), MoreSamples.giant_cookie)
  /\ service MoreSamples.two_images_host 1 (paragraphImageRequest MoreSamples.giant_cookie)
     = Normal MoreSamples.two_images
  /\ Forall (fun q => inlineData q = None) [MoreSamples.caption_part]
  /\ MoreSamples.two_images_article !! 0%nat
     = Some {| text := Some (JString MoreSamples.giant_cookie);
               imageUrl := lit "data:" ++ show_opt (mimeType MoreSamples.first_image)
                           ++ lit ";base64," ++ show_opt (data MoreSamples.first_image) |}.
Proof.
  assert (H : run (generateKidArticle MoreSamples.two_images_host Samples.cookie_topic)
              = (Normal MoreSamples.two_images_article, MoreSamples.two_images_log))
    by (vm_compute; reflexivity).
  assert (Ht : run (articleText MoreSamples.two_images_host Samples.cookie_topic)
               = (Normal Samples.cookie_paragraphs,
                  [Request (articleRequest Samples.cookie_topic) None]))
    by (vm_compute; reflexivity).
  assert (Hp : Samples.cookie_paragraphs !! 0%nat
               = Some (paragraph_object MoreSamples.giant_cookie)) by reflexivity.
  assert (Hv : shown_paragraph (paragraph_object MoreSamples.giant_cookie)
               = Normal (Some (JString MoreSamples.giant_cookie), MoreSamples.giant_cookie))
    by reflexivity.
  assert (Hs : service MoreSamples.two_images_host 1
                 (paragraphImageRequest MoreSamples.giant_cookie)
               = Normal MoreSamples.two_images) by reflexivity.
  assert (Hpre : Forall (fun q => inlineData q = None) [MoreSamples.caption_part])
    by (repeat constructor).
  repeat (split; [assumption|]).
  exact (first_inline_image_is_attached MoreSamples.two_images_host Samples.cookie_topic
           MoreSamples.two_images_article MoreSamples.two_images_log _
           Samples.cookie_paragraphs 0 _ _ _ MoreSamples.two_images
           MoreSamples.two_images_candidate [] MoreSamples.two_images_content
           [MoreSamples.caption_part] [MoreSamples.second_image_part]
           MoreSamples.first_image_part MoreSamples.first_image
           H Ht Hp Hv Hs eq_refl eq_refl eq_refl Hpre eq_refl).
Defined.

(** X5.  In a run that returns, the image reference of an entry tells how
    its image request ended: it is the failure placeholder exactly when the
    request threw, the missing-payload placeholder exactly when the request
    was answered without an image part, and a data URL exactly when an image
    part was found. *)
Theorem image_reference_tells_the_outcome (h : Host) (topic : jsstring)
    (arts : list ArticleParagraph) (log log1 : Log) (ps : list JSON) (k : nat) (p : JSON)
    (v : JSValue) (shown : jsstring) :
  run (generateKidArticle h topic) = (Normal arts, log) ->
  run (articleText h topic) = (Normal ps, log1) ->
  ps !! k = Some p ->
  shown_paragraph p = Normal (v, shown) ->
  exists url,
    arts !! k = Some {| text := v; imageUrl := url |}
    /\ (url = PLACEHOLDER_GRAYSCALE
        <-> exists e, service h (S k) (paragraphImageRequest shown) = Throw e)
    /\ (url = PLACEHOLDER_BLUR
        <-> exists resp, service h (S k) (paragraphImageRequest shown) = Normal resp
                         /\ find_imagePart resp = None)
    /\ ((exists blob, url = data_url blob)
        <-> exists resp part, service h (S k) (paragraphImageRequest shown) = Normal resp
                              /\ find_imagePart resp = Some part).
Proof.
  intros H Ht Hp Hv.
  destruct (generateKidArticle_entry h topic arts log log1 ps k p v shown H Ht Hp Hv)
    as [Hentry _].
  eexists. split; [exact Hentry|].
  destruct (service h (S k) (paragraphImageRequest shown)) as [resp|e].
  - destruct (find_imagePart resp) as [part|] eqn:Hf.
    + destruct (find_imagePart_inline resp part Hf) as [blob Hb].
      rewrite (imageUrlFor_inline resp part blob Hf Hb).
      destruct (data_url_not_placeholder blob) as [Hg Hbl].
      repeat split; try (intros ?; contradiction); eauto.
      * intros (e & He). discriminate.
      * intros (r & [= <-] & Hn). congruence.
    + unfold imageUrlFor. rewrite Hf. repeat split; eauto.
      * intros Hu. now destruct placeholders_differ.
      * intros (e & He). discriminate.
      * intros (blob & Hu). now destruct (data_url_not_placeholder blob).
      * intros (r & part & [= <-] & Hn). congruence.
  - simpl. repeat split; eauto.
    + intros Hu. symmetry in Hu. now destruct placeholders_differ.
    + intros (r & Hr & _). discriminate.
    + intros (blob & Hu). now destruct (data_url_not_placeholder blob).
    + intros (r & part & Hr & _). discriminate.
Qed.

Lemma image_reference_tells_the_outcome_witness :
  run (generateKidArticle Samples.cookie_host Samples.cookie_topic)
  = (Normal Samples.cookie_article, Samples.cookie_log)
  /\ run (articleText Samples.cookie_host Samples.cookie_topic)
     = (Normal Samples.cookie_paragraphs, [Request (articleRequest Samples.cookie_topic) None])
  /\ Samples.cookie_paragraphs !! 2%nat = Some (paragraph_object Samples.crane)
  /\ shown_paragraph (paragraph_object Samples.crane)
     = Normal (Some (JString Samples.crane), Samples.crane)
  /\ exists url,
       Samples.cookie_article !! 2%nat
       = Some {| text := Some (JString Samples.crane); imageUrl := url |}
       /\ (url = PLACEHOLDER_GRAYSCALE
           <-> exists e, service Samples.cookie_host 3 (paragraphImageRequest Samples.crane)
                         = Throw e)
       /\ (url = PLACEHOLDER_BLUR
           <-> exists resp, service Samples.cookie_host 3 (paragraphImageRequest Samples.crane)
                            = Normal resp
                            /\ find_imagePart resp = None)
       /\ ((exists blob, url = data_url blob)
           <-> exists resp part,
                 service Samples.cookie_host 3 (paragraphImageRequest Samples.crane)
                 = Normal resp
                 /\ find_imagePart resp = Some part).
Proof.
  assert (H : run (generateKidArticle Samples.cookie_host Samples.cookie_topic)
              = (Normal Samples.cookie_article, Samples.cookie_log))
    by (vm_compute; reflexivity).
  assert (Ht : run (articleText Samples.cookie_host Samples.cookie_topic)
               = (Normal Samples.cookie_paragraphs,
                  [Request (articleRequest Samples.cookie_topic) None]))
    by (vm_compute; reflexivity).
  assert (Hp : Samples.cookie_paragraphs !! 2%nat = Some (paragraph_object Samples.crane))
    by reflexivity.
  assert (Hv : shown_paragraph (paragraph_object Samples.crane)
               = Normal (Some (JString Samples.crane), Samples.crane)) by reflexivity.
  repeat (split; [assumption|]).
  exact (image_reference_tells_the_outcome Samples.cookie_host Samples.cookie_topic
           Samples.cookie_article Samples.cookie_log _ Samples.cookie_paragraphs 2 _ _ _
           H Ht Hp Hv).
Defined.

(** X6.  The errors of [generateKidArticle] are of five kinds, told apart by
    their name and message: the missing credential, the rethrown failure of
    the text call, the empty response, the too-short fallback with the raw
    response, and the [TypeError] of an element of the validated array whose
    image prompt cannot be built (reading [paragraph] of [null], or
    converting an object that has a [toString] member).  The error of the
    length check on the parsed array, "Generated article does not contain at
    least 5 paragraphs ...", never reaches the caller. *)
Theorem article_errors_are_of_five_kinds (h : Host) (topic : jsstring) (e : Error)
    (log : Log) :
  run (generateKidArticle h topic) = (Throw e, log) ->
  (e = new_Error API_KEY_not_set
   \/ (exists m, e = new_Error (COULD_NOT_GENERATE ++ m))
   \/ e = new_Error NO_ARTICLE_TEXT
   \/ (exists s, e = new_Error (NOT_ENOUGH_PARAGRAPHS ++ s))
   \/ e = CANNOT_READ_NULL \/ e = CANNOT_CONVERT)
  /\ message e <> NOT_FIVE_PARAGRAPHS.
Proof.
  intros H.
  assert (Hkinds : e = new_Error API_KEY_not_set
                   \/ (exists m, e = new_Error (COULD_NOT_GENERATE ++ m))
                   \/ e = new_Error NO_ARTICLE_TEXT
                   \/ (exists s, e = new_Error (NOT_ENOUGH_PARAGRAPHS ++ s))
                   \/ e = CANNOT_READ_NULL \/ e = CANNOT_CONVERT).
  { apply generateKidArticle_Throw in H as [(_ & -> & _) | [(_ & Ht) | (_ & H)]];
      [now left| |].
    - destruct (articleText_outcome h topic []) as (r & log' & E & _ & Hr).
      unfold run in Ht. rewrite E in Ht. injection Ht as -> _.
      destruct Hr as [?|[?|?]]; auto.
    - destruct H as (ps & log1 & pre & rs & bad & post & _ & _ & _ & Hbad & _).
      destruct (shown_paragraph_Throw_kinds bad e Hbad) as [[_ ?]|?]; auto 10. }
  split; [exact Hkinds|].
  destruct Hkinds as [-> | [(m & ->) | [-> | [(s & ->) | [-> | ->]]]]]; discriminate.
Qed.

Lemma article_errors_are_of_five_kinds_witness :
  run (generateKidArticle Samples.empty_host Samples.cookie_topic)
  = (Throw (new_Error NO_ARTICLE_TEXT), [Request (articleRequest Samples.cookie_topic) None])
  /\ (new_Error NO_ARTICLE_TEXT = new_Error API_KEY_not_set
      \/ (exists m, new_Error NO_ARTICLE_TEXT = new_Error (COULD_NOT_GENERATE ++ m))
      \/ new_Error NO_ARTICLE_TEXT = new_Error NO_ARTICLE_TEXT
      \/ (exists s, new_Error NO_ARTICLE_TEXT = new_Error (NOT_ENOUGH_PARAGRAPHS ++ s))
      \/ new_Error NO_ARTICLE_TEXT = CANNOT_READ_NULL
      \/ new_Error NO_ARTICLE_TEXT = CANNOT_CONVERT)
  /\ message (new_Error NO_ARTICLE_TEXT) <> NOT_FIVE_PARAGRAPHS.
Proof.
  assert (H : run (generateKidArticle Samples.empty_host Samples.cookie_topic)
              = (Throw (new_Error NO_ARTICLE_TEXT),
                 [Request (articleRequest Samples.cookie_topic) None]))
    by (vm_compute; reflexivity).
  split; [exact H|].
  exact (article_errors_are_of_five_kinds Samples.empty_host Samples.cookie_topic _ _ H).
Defined.

(** X7.  For a response that parses to an array of fewer than five
    paragraphs, the parsed paragraphs play no part in the outcome: the raw
    text decides.  With five or more non-blank lines the function returns one
    entry per line of the raw text (and requests an image for each); with
    fewer it throws the error that carries the raw response. *)
Theorem short_array_is_decided_by_the_raw_lines (h : Host) (topic : jsstring)
    (resp : GenerateContentResponse) (s : jsstring) (elems : list JSON) :
  truthy_opt (API_KEY h) = true ->
  service h 0 (articleRequest topic) = Normal resp ->
  response_text resp = Some s -> s <> [] ->
  JSON_parse h s = Normal (JArray elems) -> (length elems < 5)%nat ->
  exists log,
    run (generateKidArticle h topic)
    = (if (length (List.filter nonblank (split LF s)) <? 5)%nat
       then Throw (new_Error (NOT_ENOUGH_PARAGRAPHS ++ s))
       else Normal (illustrated h 1
                      (List.map line_reading (List.filter nonblank (split LF s)))),
       log)
    /\ length (requests log)
       = (if (length (List.filter nonblank (split LF s)) <? 5)%nat then 1%nat
          else S (length (List.filter nonblank (split LF s)))).
Proof.
  intros Hk Hs Hr Hne Hp Hlt.
  assert (Hfb := articleText_fallback h topic [] resp s Hs Hr Hne).
  rewrite fallbackParagraphs_lines, length_map in Hfb.
  assert (Hshort : forall l, JSON_parse h s = Normal (JArray l) -> (length l < 5)%nat).
  { intros l E. rewrite Hp in E. now injection E as <-. }
  specialize (Hfb Hshort).
  destruct (length (List.filter nonblank (split LF s)) <? 5)%nat eqn:Hn.
  - eexists. split; [apply generateKidArticle_text_failure; [exact Hk|exact Hfb]|].
    reflexivity.
  - destruct (generateKidArticle_after_text h topic _ _ Hk Hfb) as (log & E & R).
    rewrite readings_paragraph_objects in E, R. simpl in E, R.
    exists log. split; [exact E|]. rewrite R. simpl.
    now rewrite length_imageRequests, !length_map.
Qed.

Lemma short_array_is_decided_by_the_raw_lines_witness :
  truthy_opt (API_KEY Samples.short_host) = true
  /\ service Samples.short_host 0 (articleRequest Samples.cookie_topic)
     = Normal {| candidates := None; response_text := Some Samples.short_json |}
  /\ Samples.short_json <> []
  /\ JSON_parse Samples.short_host Samples.short_json
     = Normal (JArray [ paragraph_object (lit "A giant cookie was baked.");
                        paragraph_object (lit "It was as wide as a bus.");
                        paragraph_object (lit "Everyone got a piece.") ])
  /\ exists log,
       run (generateKidArticle Samples.short_host Samples.cookie_topic)
       = (if (length (List.filter nonblank (split LF Samples.short_json)) <? 5)%nat
          then Throw (new_Error (NOT_ENOUGH_PARAGRAPHS ++ Samples.short_json))
          else Normal (illustrated Samples.short_host 1
                         (List.map line_reading
                            (List.filter nonblank (split LF Samples.short_json)))),
          log)
       /\ length (requests log)
          = (if (length (List.filter nonblank (split LF Samples.short_json)) <? 5)%nat
             then 1%nat
             else S (length (List.filter nonblank (split LF Samples.short_json)))).
Proof.
  assert (Hk : truthy_opt (API_KEY Samples.short_host) = true) by reflexivity.
  assert (Hs : service Samples.short_host 0 (articleRequest Samples.cookie_topic)
               = Normal {| candidates := None; response_text := Some Samples.short_json |})
    by reflexivity.
  assert (Hne : Samples.short_json <> []) by discriminate.
  assert (Hp : JSON_parse Samples.short_host Samples.short_json
               = Normal (JArray [ paragraph_object (lit "A giant cookie was baked.");
                                  paragraph_object (lit "It was as wide as a bus.");
                                  paragraph_object (lit "Everyone got a piece.") ]))
    by (vm_compute; reflexivity).
  repeat (split; [assumption|]).
  refine (short_array_is_decided_by_the_raw_lines Samples.short_host Samples.cookie_topic
            _ Samples.short_json _ Hk Hs eq_refl Hne Hp _).
  simpl. lia.
Defined.

(** X8.  Every fallback paragraph is the object [{ paragraph: line }] of a
    whole line of the raw response, kept as it is (it is not trimmed): the
    line contains no line feed, and at least one of its code units is not
    white space.  There are at most as many fallback paragraphs as lines. *)
Theorem fallback_paragraphs_are_whole_nonblank_lines (s : jsstring) :
  Forall (fun p => exists line,
            p = paragraph_object line
            /\ read_paragraph p = Normal (Some (JString line))
            /\ In line (split LF s)
            /\ ~ In LF line
            /\ exists c, In c line /\ isWhiteSpace c = false)
    (fallbackParagraphs s)
  /\ (length (fallbackParagraphs s) <= length (split LF s))%nat.
Proof.
  rewrite fallbackParagraphs_lines. split.
  - apply List.Forall_forall. intros p Hp.
    apply List.in_map_iff in Hp as (line & <- & Hin).
    apply List.filter_In in Hin as [Hin Hnb]. exists line.
    split; [reflexivity|].
    split; [unfold paragraph_object, read_paragraph; now rewrite get_singleton|].
    split; [exact Hin|]. split.
    + pose proof (split_no_sep LF s) as Hall.
      rewrite List.Forall_forall in Hall. exact (Hall line Hin).
    + now apply nonblank_exists.
  - rewrite length_map. apply List.filter_length_le.
Qed.

Lemma readings_readable (ps : list JSON) :
  Forall (fun p => exists r, shown_paragraph p = Normal r) ps <-> snd (readings ps) = None.
Proof.
  induction ps as [|p ps IH]; simpl.
  - split; [reflexivity|constructor].
  - destruct (shown_paragraph p) as [r|e] eqn:Hp.
    + destruct (readings ps) as [rs stop]; simpl in *. split.
      * intros H. inversion H; subst. now apply IH.
      * intros H. constructor; [eauto|now apply IH].
    + simpl. split; [|discriminate].
      intros H. inversion H as [|? ? [r Hr] _]; subst. congruence.
Qed.

(** X22.  After a successful text phase, [generateKidArticle] returns exactly
    when the image prompt of every element can be built (the element is not
    [null] and its [paragraph] converts to a string).  What the service
    answers to the image requests plays no part in whether the function
    returns or throws. *)
Theorem article_returns_iff_elements_readable (h : Host) (topic : jsstring)
    (ps : list JSON) (log1 : Log) :
  truthy_opt (API_KEY h) = true ->
  run (articleText h topic) = (Normal ps, log1) ->
  (exists arts log, run (generateKidArticle h topic) = (Normal arts, log))
  <-> Forall (fun p => exists v shown,
                read_paragraph p = Normal v /\ ToString v = Normal shown) ps.
Proof.
  intros Hk Ht.
  assert (Hsame : Forall (fun p => exists v shown,
                            read_paragraph p = Normal v /\ ToString v = Normal shown) ps
                  <-> Forall (fun p => exists r, shown_paragraph p = Normal r) ps).
  { rewrite !List.Forall_forall. split; intros H p Hin.
    - destruct (H p Hin) as (v & shown & Hp). exists (v, shown).
      now apply shown_paragraph_Normal.
    - destruct (H p Hin) as ([v shown] & Hp). exists v, shown.
      now apply shown_paragraph_Normal. }
  rewrite Hsame, readings_readable.
  destruct (generateKidArticle_after_text h topic ps log1 Hk Ht) as (log & E & _).
  split.
  - intros (arts & log' & H). rewrite E in H.
    destruct (snd (readings ps)); [discriminate|reflexivity].
  - intros Hnone. rewrite Hnone in E. eauto.
Qed.

Lemma article_returns_iff_elements_readable_witness :
  truthy_opt (API_KEY Samples.mixed_host) = true
  /\ run (articleText Samples.mixed_host Samples.cookie_topic)
     = (Normal Samples.mixed_paragraphs, [Request (articleRequest Samples.cookie_topic) None])
  /\ ((exists arts log,
         run (generateKidArticle Samples.mixed_host Samples.cookie_topic) = (Normal arts, log))
      <-> Forall (fun p => exists v shown,
                    read_paragraph p = Normal v /\ ToString v = Normal shown)
            Samples.mixed_paragraphs).
Proof.
  assert (Hk : truthy_opt (API_KEY Samples.mixed_host) = true) by reflexivity.
  assert (Ht : run (articleText Samples.mixed_host Samples.cookie_topic)
               = (Normal Samples.mixed_paragraphs,
                  [Request (articleRequest Samples.cookie_topic) None]))
    by (vm_compute; reflexivity).
  repeat (split; [assumption|]).
  exact (article_returns_iff_elements_readable Samples.mixed_host Samples.cookie_topic
           Samples.mixed_paragraphs _ Hk Ht).
Defined.

(** ** The single-request functions *)

Section SingleRequest.

Variable h : Host.

(** The shape that [generateImage] and [editImage] share: one request; the
    image of the answer, or an error with the function's prefix.  An answer
    without an image throws inside the [try] block, so that error too is
    logged and rethrown with the prefix. *)
Lemma image_call_outcome (p : GenerateContentParameters) (o : option RequestOptions)
    (missing label prefix : jsstring) (log : Log) :
  try_catch
    (let* response := generateContent h p o in extract_image missing response)
    (rethrow label prefix) log
  = match service h (length (requests log)) p with
    | Normal resp =>
        match find_imagePart resp with
        | Some {| inlineData := Some blob |} =>
            (Normal (data_url blob), log ++ [Request p o])
        | _ =>
            (Throw (new_Error (prefix ++ (if truthy missing then missing
                                          else lit "An unknown error occurred."))),
             (log ++ [Request p o]) ++ [Console LevelError label])
        end
    | Throw e =>
        (Throw (new_Error (prefix ++ (if truthy (message e) then message e
                                      else lit "An unknown error occurred."))),
         (log ++ [Request p o]) ++ [Console LevelError label])
    end.
Proof.
  unfold try_catch, bind, generateContent, extract_image, rethrow, console_error, emit,
    throw, ret.
  destruct (service h (length (requests log)) p) as [resp|e]; [|reflexivity].
  destruct (find_imagePart resp) as [[t [b|]]|]; reflexivity.
Qed.

End SingleRequest.

(** X9.  With a credential configured, [generateImage] issues exactly one
    request, for the given prompt and size and with the caller's request
    options.  It returns the data URL of the image part when the answer has
    one.  When the answer has none, or when the call fails, it logs and throws
    an error whose message starts with "Failed to generate image: "; it never
    returns a placeholder. *)
Theorem generateImage_outcomes (h : Host) (prompt : jsstring) (size : ImageSize)
    (requestOptions : option RequestOptions) :
  truthy_opt (API_KEY h) = true ->
  (forall resp part blob,
     service h 0 (imageRequest prompt size) = Normal resp ->
     find_imagePart resp = Some part -> inlineData part = Some blob ->
     run (generateImage h prompt size requestOptions)
     = (Normal (data_url blob), [Request (imageRequest prompt size) requestOptions]))
  /\ (forall resp,
        service h 0 (imageRequest prompt size) = Normal resp ->
        find_imagePart resp = None ->
        run (generateImage h prompt size requestOptions)
        = (Throw (new_Error (lit "Failed to generate image: "
                             ++ lit "No image data found in the response.")),
           [Request (imageRequest prompt size) requestOptions;
            Console LevelError (lit "Error generating image:")]))
  /\ (forall e,
        service h 0 (imageRequest prompt size) = Throw e ->
        run (generateImage h prompt size requestOptions)
        = (Throw (new_Error (lit "Failed to generate image: "
                             ++ (if truthy (message e) then message e
                                 else lit "An unknown error occurred."))),
           [Request (imageRequest prompt size) requestOptions;
            Console LevelError (lit "Error generating image:")])).
Proof.
  intros Hk. unfold run, generateImage. rewrite Hk. cbn [negb].
  rewrite image_call_outcome. cbn [requests List.filter length].
  repeat split.
  - intros resp [t i] blob -> -> Hb. cbn [inlineData] in Hb. now rewrite Hb.
  - intros resp -> ->. reflexivity.
  - intros e ->. reflexivity.
Qed.

Lemma generateImage_outcomes_witness :
  truthy_opt (API_KEY MoreSamples.studio_host) = true
  /\ run (generateImage MoreSamples.studio_host MoreSamples.cats Size2K
            (Some (opaqueRequestOptions 7)))
     = (Normal (lit "data:image/png;base64,iVBORw0KGgo="),
        [Request (imageRequest MoreSamples.cats Size2K) (Some (opaqueRequestOptions 7))]).
Proof.
  assert (Hk : truthy_opt (API_KEY MoreSamples.studio_host) = true) by reflexivity.
  split; [exact Hk|].
  exact (proj1 (generateImage_outcomes MoreSamples.studio_host MoreSamples.cats Size2K
                  (Some (opaqueRequestOptions 7)) Hk)
           Samples.inline_image _ _ eq_refl eq_refl eq_refl).
Defined.

(** X10.  With a credential configured, [editImage] issues exactly one
    request whose parts are the original image (data and MIME type as given)
    followed by the edit instruction, with no configuration.  It returns the
    data URL of the image part of the answer; an answer without an image and a
    failed call are both logged and thrown with the prefix
    "Failed to edit image: ". *)
Theorem editImage_outcomes (h : Host) (base64 mime editPrompt : jsstring) :
  truthy_opt (API_KEY h) = true ->
  contents (editRequest base64 mime editPrompt)
  = ContentsParts
      [ {| part_text := None;
           inlineData := Some {| data := Some base64; mimeType := Some mime |} |};
        {| part_text := Some (lit "Edit this image for kids in a funny, cartoon style: "
                              ++ editPrompt);
           inlineData := None |} ]
  /\ (forall resp part blob,
        service h 0 (editRequest base64 mime editPrompt) = Normal resp ->
        find_imagePart resp = Some part -> inlineData part = Some blob ->
        run (editImage h base64 mime editPrompt)
        = (Normal (data_url blob), [Request (editRequest base64 mime editPrompt) None]))
  /\ (forall resp,
        service h 0 (editRequest base64 mime editPrompt) = Normal resp ->
        find_imagePart resp = None ->
        run (editImage h base64 mime editPrompt)
        = (Throw (new_Error (lit "Failed to edit image: "
                             ++ lit "No edited image data found in the response.")),
           [Request (editRequest base64 mime editPrompt) None;
            Console LevelError (lit "Error editing image:")]))
  /\ (forall e,
        service h 0 (editRequest base64 mime editPrompt) = Throw e ->
        run (editImage h base64 mime editPrompt)
        = (Throw (new_Error (lit "Failed to edit image: "
                             ++ (if truthy (message e) then message e
                                 else lit "An unknown error occurred."))),
           [Request (editRequest base64 mime editPrompt) None;
            Console LevelError (lit "Error editing image:")])).
Proof.
  intros Hk. split; [reflexivity|]. unfold run, editImage. rewrite Hk. cbn [negb].
  rewrite image_call_outcome. cbn [requests List.filter length].
  repeat split.
  - intros resp [t i] blob -> -> Hb. cbn [inlineData] in Hb. now rewrite Hb.
  - intros resp -> ->. reflexivity.
  - intros e ->. reflexivity.
Qed.

Lemma editImage_outcomes_witness :
  truthy_opt (API_KEY MoreSamples.failing_host) = true
  /\ run (editImage MoreSamples.failing_host (lit "iVBORw0KGgo=") (lit "image/png")
            MoreSamples.hat)
     = (Throw (new_Error (lit "Failed to edit image: "
                          ++ lit "Requested entity was not found.")),
        [Request (editRequest (lit "iVBORw0KGgo=") (lit "image/png") MoreSamples.hat) None;
         Console LevelError (lit "Error editing image:")]).
Proof.
  assert (Hk : truthy_opt (API_KEY MoreSamples.failing_host) = true) by reflexivity.
  split; [exact Hk|].
  exact (proj2 (proj2 (proj2 (editImage_outcomes MoreSamples.failing_host
                                (lit "iVBORw0KGgo=") (lit "image/png") MoreSamples.hat Hk)))
           (new_Error (lit "Requested entity was not found.")) eq_refl).
Defined.

(** X11.  [getQuickResponse] never returns an empty answer: whenever it
    returns, the text is not empty (it is the text of the response or the
    fixed fallback), a credential is configured and exactly one request was
    issued. *)
Theorem getQuickResponse_is_never_empty (h : Host) (prompt t : jsstring) (log : Log) :
  run (getQuickResponse h prompt) = (Normal t, log) ->
  t <> []
  /\ truthy_opt (API_KEY h) = true
  /\ log = [Request (quickRequest prompt) None].
Proof.
  unfold run, getQuickResponse, try_catch, bind, generateContent, rethrow,
    console_error, emit, throw, ret.
  destruct (truthy_opt (API_KEY h)); cbn [negb requests List.filter length app];
    [|discriminate].
  destruct (service h 0 (quickRequest prompt)) as [resp|e]; [|discriminate].
  intros [= <- <-]. repeat split.
  unfold or_else. destruct (response_text resp) as [[|c s]|]; discriminate.
Qed.

Lemma getQuickResponse_is_never_empty_witness :
  run (getQuickResponse Samples.empty_host MoreSamples.cats)
  = (Normal QUICK_FALLBACK, [Request (quickRequest MoreSamples.cats) None])
  /\ QUICK_FALLBACK <> []
  /\ truthy_opt (API_KEY Samples.empty_host) = true
  /\ [Request (quickRequest MoreSamples.cats) None]
     = [Request (quickRequest MoreSamples.cats) None].
Proof.
  assert (H : run (getQuickResponse Samples.empty_host MoreSamples.cats)
              = (Normal QUICK_FALLBACK, [Request (quickRequest MoreSamples.cats) None]))
    by (vm_compute; reflexivity).
  split; [exact H|].
  exact (getQuickResponse_is_never_empty Samples.empty_host MoreSamples.cats _ _ H).
Defined.

(** ** [handleGenerateArticle] *)

Lemma truthy_trim (s : jsstring) : trim s <> [] -> negb (truthy (trim s)) = false.
Proof. destruct (trim s); [congruence|reflexivity]. Qed.

(** What [handleGenerateArticle] makes of the result of [generateKidArticle]. *)
Lemma handleGenerateArticle_run (h : Host) (st : AppState) :
  trim (topic st) <> [] ->
  run (handleGenerateArticle h st)
  = match run (generateKidArticle h (topic st)) with
    | (Normal arts, log) =>
        (Normal {| topic := topic st; article := Some arts; loading := false;
                   error := None; currentView := currentView st;
                   apiKeySelected := apiKeySelected st |},
         log)
    | (Throw e, log) =>
        (Normal {| topic := topic st; article := None; loading := false;
                   error := Some (lit "Failed to generate article: "
                                  ++ (if truthy (message e) then message e
                                      else lit "An unknown error occurred."));
                   currentView := currentView st;
                   apiKeySelected :=
                     if truthy (message e)
                        && includes (message e) (lit "Requested entity was not found.")
                     then false else apiKeySelected st |},
         log ++ [Console LevelError (lit "Error generating article:")])
    end.
Proof.
  intros Hnb. apply truthy_trim in Hnb.
  unfold run, handleGenerateArticle. rewrite Hnb.
  unfold bind, try_catch, console_error, emit, ret.
  cbn [topic setArticle setError setLoading].
  destruct (generateKidArticle h (topic st) []) as [[arts|e] log]; [reflexivity|].
  now destruct (truthy (message e)
                && includes (message e) (lit "Requested entity was not found.")).
Qed.

(** X12.  For a topic that is not blank, [handleGenerateArticle] calls
    [generateKidArticle] once with that topic and stores what it gets.  On
    success the article is stored and the error cleared.  On failure the
    article is cleared, the error is "Failed to generate article: " followed
    by the error's message, the failure is logged, and the key-selected flag
    is reset exactly when the message contains
    "Requested entity was not found.".  In both cases [loading] ends false. *)
Theorem handleGenerateArticle_outcomes (h : Host) (st : AppState) :
  trim (topic st) <> [] ->
  (forall arts log,
     run (generateKidArticle h (topic st)) = (Normal arts, log) ->
     run (handleGenerateArticle h st)
     = (Normal {| topic := topic st; article := Some arts; loading := false;
                  error := None; currentView := currentView st;
                  apiKeySelected := apiKeySelected st |},
        log))
  /\ (forall e log,
        run (generateKidArticle h (topic st)) = (Throw e, log) ->
        run (handleGenerateArticle h st)
        = (Normal {| topic := topic st; article := None; loading := false;
                     error := Some (lit "Failed to generate article: "
                                    ++ (if truthy (message e) then message e
                                        else lit "An unknown error occurred."));
                     currentView := currentView st;
                     apiKeySelected :=
                       if truthy (message e)
                          && includes (message e) (lit "Requested entity was not found.")
                       then false else apiKeySelected st |},
           log ++ [Console LevelError (lit "Error generating article:")])).
Proof.
  intros Hnb. rewrite (handleGenerateArticle_run h st Hnb).
  split; intros ? log ->; reflexivity.
Qed.

Lemma handleGenerateArticle_outcomes_witness :
  trim (topic (Samples.idle Samples.cookie_topic)) <> []
  /\ run (handleGenerateArticle MoreSamples.failing_host (Samples.idle Samples.cookie_topic))
     = (Normal {| topic := Samples.cookie_topic; article := None; loading := false;
                  error := Some (lit "Failed to generate article: "
                                 ++ COULD_NOT_GENERATE
                                 ++ lit "Requested entity was not found.");
                  currentView := ARTICLES;
                  apiKeySelected := false |},
        [Request (articleRequest Samples.cookie_topic) None;
         Console LevelError (lit "Error generating article text:");
         Console LevelError (lit "Error generating article:")]).
Proof.
  assert (Hnb : trim (topic (Samples.idle Samples.cookie_topic)) <> []) by discriminate.
  split; [exact Hnb|].
  exact (proj2 (handleGenerateArticle_outcomes MoreSamples.failing_host
                  (Samples.idle Samples.cookie_topic) Hnb)
           (new_Error (COULD_NOT_GENERATE ++ lit "Requested entity was not found."))
           [Request (articleRequest Samples.cookie_topic) None;
            Console LevelError (lit "Error generating article text:")]
           eq_refl).
Defined.

(** X13.  [handleGenerateArticle] never throws: every error of
    [generateKidArticle] ends in the state.  It leaves the topic and the
    current view alone and never turns the key-selected flag on.  For a topic
    that is not blank it ends with [loading] false and with exactly one of
    [article] and [error] set, and it issues the requests of one
    [generateKidArticle] call and no other. *)
Theorem handleGenerateArticle_settles (h : Host) (st : AppState) :
  exists st' log,
    run (handleGenerateArticle h st) = (Normal st', log)
    /\ topic st' = topic st
    /\ currentView st' = currentView st
    /\ (apiKeySelected st' = true -> apiKeySelected st = true)
    /\ (trim (topic st) <> [] ->
        loading st' = false
        /\ (article st' = None <-> error st' <> None)
        /\ requests log = requests (snd (run (generateKidArticle h (topic st))))).
Proof.
  destruct (trim (topic st)) as [|c s] eqn:Hblank.
  - eexists _, _. split.
    + unfold run, handleGenerateArticle. rewrite Hblank. reflexivity.
    + cbn. repeat split; auto; congruence.
  - assert (Hnb : trim (topic st) <> []) by (rewrite Hblank; discriminate).
    rewrite (handleGenerateArticle_run h st Hnb).
    destruct (run (generateKidArticle h (topic st))) as [[arts|e] log] eqn:Hrun.
    + eexists _, _. split; [reflexivity|].
      cbn. repeat split; auto; try discriminate. congruence.
    + eexists _, _. split; [reflexivity|].
      cbn [topic currentView apiKeySelected loading article error snd].
      repeat split; auto; try discriminate.
      * now destruct (truthy (message e) && _).
      * now rewrite requests_console.
Qed.

(** ** [blobToBase64] *)

Lemma split_single (sep : N) (d : jsstring) : ~ In sep d -> split sep d = [d].
Proof.
  induction d as [|c d IH]; intros H; simpl; [reflexivity|].
  destruct (N.eqb_spec c sep) as [->|_]; [destruct H; now left|].
  rewrite IH; [reflexivity|]. intros Hin. apply H. now right.
Qed.

Lemma split_app_sep (sep : N) (a b : jsstring) :
  ~ In sep a -> split sep (a ++ sep :: b) = a :: split sep b.
Proof.
  induction a as [|c a IH]; intros H; simpl.
  - now rewrite N.eqb_refl.
  - destruct (N.eqb_spec c sep) as [->|_]; [destruct H; now left|].
    rewrite IH; [reflexivity|]. intros Hin. apply H. now right.
Qed.

(** [;base64] does not overlap itself: an occurrence of it in [x ++ ";base64"]
    that starts inside [x] lies inside [x]. *)
Lemma semicolon_base64_no_overlap (x : jsstring) :
  x <> [] ->
  startsWith (lit ";base64") x = false ->
  startsWith (lit ";base64") (x ++ lit ";base64") = false.
Proof.
  change (lit ";base64") with [59; 98; 97; 115; 101; 54; 52].
  intros Hne. destruct x as [|c x]; [congruence|]. clear Hne.
  cbn [startsWith app]. destruct (_ =? _); cbn [andb]; [|reflexivity].
  do 6 (destruct x as [|? x]; [reflexivity|];
        cbn [startsWith app]; destruct (_ =? _); cbn [andb]; [|reflexivity]).
  cbn [startsWith]. discriminate.
Qed.

Lemma lazy_dots_until_canonical (m : jsstring) :
  forall acc,
  existsb isLineTerminator m = false ->
  includes m (lit ";base64") = false ->
  lazy_dots_until (lit ";base64") (m ++ lit ";base64") acc = Some (rev acc ++ m).
Proof.
  induction m as [|c m IH]; intros acc Hlt Hinc.
  - rewrite app_nil_r. reflexivity.
  - cbn [existsb] in Hlt. apply orb_false_elim in Hlt as [Hc Hlt].
    cbn [includes] in Hinc. apply orb_false_elim in Hinc as [Hstart Hinc].
    assert (Hov := semicolon_base64_no_overlap (c :: m) ltac:(discriminate) Hstart).
    rewrite <- app_comm_cons in *. cbn [lazy_dots_until]. rewrite Hov, Hc.
    rewrite (IH (c :: acc) Hlt Hinc). cbn [rev]. now rewrite <- app_assoc.
Qed.

Lemma match_data_base64_here (header group : jsstring) :
  startsWith (lit "data:") header = true ->
  lazy_dots_until (lit ";base64") (drop 5 header) [] = Some group ->
  match_data_base64 header = Some group.
Proof.
  intros Hs Hl. destruct header as [|c rest]; [discriminate|].
  cbn [match_data_base64]. now rewrite Hs, Hl.
Qed.

Lemma match_data_base64_canonical (m : jsstring) :
  existsb isLineTerminator m = false ->
  includes m (lit ";base64") = false ->
  match_data_base64 (lit "data:" ++ m ++ lit ";base64") = Some m.
Proof.
  intros Hlt Hinc. apply match_data_base64_here; [apply startsWith_refl|].
  change (drop 5 (lit "data:" ++ m ++ lit ";base64")) with (m ++ lit ";base64").
  exact (lazy_dots_until_canonical m [] Hlt Hinc).
Qed.

Lemma data_url_header (m d : jsstring) :
  data_url {| data := Some d; mimeType := Some m |}
  = (lit "data:" ++ m ++ lit ";base64") ++ COMMA :: d.
Proof.
  unfold data_url. cbn [show_opt data mimeType].
  change (lit ";base64,") with (lit ";base64" ++ [COMMA]).
  now rewrite <- !app_assoc.
Qed.

Lemma blobToBase64_of_data_url (m d : jsstring) :
  m <> [] -> d <> [] ->
  ~ In COMMA m -> ~ In COMMA d ->
  existsb isLineTerminator m = false ->
  includes m (lit ";base64") = false ->
  blobToBase64 (mkFile (Loaded (data_url {| data := Some d; mimeType := Some m |})))
  = Normal {| encoded_data := d; encoded_mimeType := m |}.
Proof.
  intros Hm Hd Hcm Hcd Hlt Hinc.
  unfold blobToBase64. cbn [readAsDataURL]. rewrite data_url_header.
  rewrite split_app_sep, (split_single COMMA d Hcd).
  - cbn [head default]. rewrite (match_data_base64_canonical m Hlt Hinc).
    destruct m; [congruence|]. destruct d; [congruence|]. reflexivity.
  - rewrite !in_app_iff. intros [H|[H|H]]; [|exact (Hcm H)|];
      vm_compute in H; intuition discriminate.
Qed.


(** X14.  Round trip between [blobToBase64] and the data URLs that the
    service functions build.  If a file reads as the data URL of a MIME type
    [m] and base64 data [d] (both non-empty and free of commas, [m] free of
    line terminators and of the text ";base64"), [blobToBase64] resolves to
    exactly [d] and [m]. *)
Theorem blobToBase64_round_trip (m d : jsstring) :
  m <> [] -> d <> [] ->
  ~ In COMMA m -> ~ In COMMA d ->
  existsb isLineTerminator m = false ->
  includes m (lit ";base64") = false ->
  blobToBase64 (mkFile (Loaded (data_url {| data := Some d; mimeType := Some m |})))
  = Normal {| encoded_data := d; encoded_mimeType := m |}.
Proof. apply blobToBase64_of_data_url. Qed.

Lemma blobToBase64_round_trip_witness :
  lit "image/png" <> [] /\ lit "iVBORw0KGgo=" <> []
  /\ ~ In COMMA (lit "image/png") /\ ~ In COMMA (lit "iVBORw0KGgo=")
  /\ existsb isLineTerminator (lit "image/png") = false
  /\ includes (lit "image/png") (lit ";base64") = false
  /\ blobToBase64
       (mkFile (Loaded (data_url {| data := Some (lit "iVBORw0KGgo=");
                                    mimeType := Some (lit "image/png") |})))
     = Normal {| encoded_data := lit "iVBORw0KGgo="; encoded_mimeType := lit "image/png" |}.
Proof.
  assert (Hm : lit "image/png" <> []) by discriminate.
  assert (Hd : lit "iVBORw0KGgo=" <> []) by discriminate.
  assert (Hcm : ~ In COMMA (lit "image/png"))
    by (intros H; vm_compute in H; intuition discriminate).
  assert (Hcd : ~ In COMMA (lit "iVBORw0KGgo="))
    by (intros H; vm_compute in H; intuition discriminate).
  assert (Hlt : existsb isLineTerminator (lit "image/png") = false) by reflexivity.
  assert (Hinc : includes (lit "image/png") (lit ";base64") = false) by reflexivity.
  repeat (split; [assumption|]).
  exact (blobToBase64_round_trip (lit "image/png") (lit "iVBORw0KGgo=")
           Hm Hd Hcm Hcd Hlt Hinc).
Defined.

Lemma lazy_dots_until_chars (stop s : jsstring) :
  forall acc group,
  lazy_dots_until stop s acc = Some group ->
  exists dots, group = rev acc ++ dots
               /\ forall c, In c dots -> In c s /\ isLineTerminator c = false.
Proof.
  induction s as [|c s IH]; intros acc group; cbn [lazy_dots_until].
  - destruct (startsWith stop []); [|discriminate].
    intros [= <-]. exists []. rewrite app_nil_r. split; [reflexivity|intros ? []].
  - destruct (startsWith stop (c :: s)).
    + intros [= <-]. exists []. rewrite app_nil_r. split; [reflexivity|intros ? []].
    + destruct (isLineTerminator c) eqn:Hc; [discriminate|].
      intros H. apply IH in H as (dots & -> & Hd).
      exists (c :: dots). cbn [rev]. rewrite <- app_assoc. split; [reflexivity|].
      intros x [<-|Hx]; [split; [now left|exact Hc]|].
      destruct (Hd x Hx). split; [now right|assumption].
Qed.

(** The MIME type that the regular expression captures is made of code units
    of the header, none of them a line terminator. *)
Lemma match_data_base64_chars (header group : jsstring) :
  match_data_base64 header = Some group ->
  forall c, In c group -> In c header /\ isLineTerminator c = false.
Proof.
  induction header as [|a header IH].
  - cbn. discriminate.
  - cbn [match_data_base64].
    destruct (if startsWith (lit "data:") (a :: header)
              then lazy_dots_until (lit ";base64") (drop 5 (a :: header)) []
              else None) as [g|] eqn:Hhere.
    + intros [= <-] c Hc.
      destruct (startsWith (lit "data:") (a :: header)); [|discriminate].
      apply lazy_dots_until_chars in Hhere as (dots & -> & Hd).
      cbn [rev app] in Hc. destruct (Hd c Hc) as [Hin Hlt]. split; [|exact Hlt].
      rewrite <- (take_drop 5 (a :: header)). apply in_or_app. now right.
    + intros H c Hc. destruct (IH H c Hc). split; [now right|assumption].
Qed.

(** X15.  How the promise of [blobToBase64] settles.  When it resolves, the
    file was read, the data is the second comma-separated piece of the result,
    data and MIME type are both non-empty, neither contains a comma and the
    MIME type contains no line terminator.  When it rejects, either the read
    failed (the rejection is the reader's event, which has no message) or the
    result was read and the error is "Failed to extract base64 data or mime
    type from Blob.". *)
Theorem blobToBase64_settles (blob : File) :
  match blobToBase64 blob with
  | Normal enc =>
      exists result header rest,
        readAsDataURL blob = Loaded result
        /\ split COMMA result = header :: encoded_data enc :: rest
        /\ encoded_data enc <> [] /\ encoded_mimeType enc <> []
        /\ ~ In COMMA (encoded_data enc)
        /\ forall c, In c (encoded_mimeType enc) ->
                     c <> COMMA /\ isLineTerminator c = false
  | Throw e =>
      (readAsDataURL blob = ReadError /\ e = ProgressEvent /\ message e = [])
      \/ (exists result, readAsDataURL blob = Loaded result
                         /\ e = new_Error EXTRACT_FAILED)
  end.
Proof.
  unfold blobToBase64. destruct (readAsDataURL blob) as [result|]; [|now left].
  pose proof (split_no_sep COMMA result) as Hno.
  destruct (split COMMA result) as [|header rest] eqn:Hsplit;
    [now destruct (split_not_nil COMMA result)|].
  destruct rest as [|d rest]; cbn [head truthy_opt andb]; [right; eauto|].
  destruct d as [|c d]; cbn [truthy andb]; [right; eauto|].
  destruct (match_data_base64 header) as [[|a g]|] eqn:Hm;
    cbn [or_else truthy]; try (right; eauto).
  cbn [default encoded_data encoded_mimeType].
  exists result, header, rest.
  inversion Hno as [|? ? Hheader Hrest]; subst.
  inversion Hrest as [|? ? Hd _]; subst.
  repeat split; try discriminate; try assumption.
  - intros ->. destruct (match_data_base64_chars header (a :: g) Hm COMMA H). contradiction.
  - now destruct (match_data_base64_chars header (a :: g) Hm c0 H).
Qed.

(** ** [ImageStudio]: editing an uploaded image *)

Ltac studio_state :=
  unfold ImageStudio.setEditLoading, ImageStudio.setEditError, ImageStudio.setEditedImage,
    ImageStudio.setOriginalImageFile, ImageStudio.setOriginalImagePreview;
  cbn [ImageStudio.editPrompt ImageStudio.originalImageFile
       ImageStudio.originalImagePreview ImageStudio.editedImage
       ImageStudio.editLoading ImageStudio.editError].

(** X16.  [handleEditImage] issues no request unless there is a file, a
    prompt that is not blank, and a file that [blobToBase64] can decode.
    Without a file the error asks for an upload (whatever the prompt is); with
    a file and a blank prompt it asks for a prompt; in both cases nothing else
    changes and nothing is logged.  When the file cannot be decoded, the
    failure is logged and shown after "Failed to edit image: ", the result is
    cleared and [editLoading] ends false. *)
Theorem handleEditImage_needs_file_prompt_and_data (h : Host) (st : ImageStudio.State) :
  (ImageStudio.originalImageFile st = None ->
   run (ImageStudio.handleEditImage h st)
   = (Normal (ImageStudio.setEditError (Some ImageStudio.PLEASE_UPLOAD) st), []))
  /\ (forall f,
        ImageStudio.originalImageFile st = Some f ->
        trim (ImageStudio.editPrompt st) = [] ->
        run (ImageStudio.handleEditImage h st)
        = (Normal (ImageStudio.setEditError (Some ImageStudio.PLEASE_ENTER_EDIT_PROMPT) st),
           []))
  /\ (forall f e,
        ImageStudio.originalImageFile st = Some f ->
        trim (ImageStudio.editPrompt st) <> [] ->
        blobToBase64 f = Throw e ->
        run (ImageStudio.handleEditImage h st)
        = (Normal {| ImageStudio.originalImageFile := Some f;
                     ImageStudio.originalImagePreview := ImageStudio.originalImagePreview st;
                     ImageStudio.editPrompt := ImageStudio.editPrompt st;
                     ImageStudio.editedImage := None;
                     ImageStudio.editLoading := false;
                     ImageStudio.editError :=
                       Some (ImageStudio.FAILED_TO_EDIT
                             ++ (if truthy (message e) then message e
                                 else lit "An unknown error occurred.")) |},
           [Console LevelError (lit "Error editing image:")])).
Proof.
  unfold run, ImageStudio.handleEditImage. repeat split.
  - intros ->. reflexivity.
  - intros f -> ->. reflexivity.
  - intros f e Hf Hnb Hb. rewrite Hf. apply truthy_trim in Hnb. rewrite Hnb.
    unfold bind, try_catch, lift, console_error, emit, ret. rewrite Hb.
    studio_state. now rewrite Hf.
Qed.

Lemma handleEditImage_needs_file_prompt_and_data_witness :
  ImageStudio.originalImageFile
    (MoreSamples.editing (Some MoreSamples.broken_file) MoreSamples.hat)
  = Some MoreSamples.broken_file
  /\ trim (ImageStudio.editPrompt
             (MoreSamples.editing (Some MoreSamples.broken_file) MoreSamples.hat)) <> []
  /\ blobToBase64 MoreSamples.broken_file = Throw ProgressEvent
  /\ run (ImageStudio.handleEditImage MoreSamples.studio_host
            (MoreSamples.editing (Some MoreSamples.broken_file) MoreSamples.hat))
     = (Normal {| ImageStudio.originalImageFile := Some MoreSamples.broken_file;
                  ImageStudio.originalImagePreview := None;
                  ImageStudio.editPrompt := MoreSamples.hat;
                  ImageStudio.editedImage := None;
                  ImageStudio.editLoading := false;
                  ImageStudio.editError :=
                    Some (ImageStudio.FAILED_TO_EDIT ++ lit "An unknown error occurred.") |},
        [Console LevelError (lit "Error editing image:")]).
Proof.
  assert (Hf : ImageStudio.originalImageFile
                 (MoreSamples.editing (Some MoreSamples.broken_file) MoreSamples.hat)
               = Some MoreSamples.broken_file) by reflexivity.
  assert (Hnb : trim (ImageStudio.editPrompt
                        (MoreSamples.editing (Some MoreSamples.broken_file) MoreSamples.hat))
                <> []) by discriminate.
  assert (Hb : blobToBase64 MoreSamples.broken_file = Throw ProgressEvent) by reflexivity.
  repeat (split; [assumption|]).
  exact (proj2 (proj2 (handleEditImage_needs_file_prompt_and_data MoreSamples.studio_host
                         (MoreSamples.editing (Some MoreSamples.broken_file) MoreSamples.hat)))
           MoreSamples.broken_file ProgressEvent Hf Hnb Hb).
Defined.

(** What [handleEditImage] makes of the result of [editImage]. *)
Lemma handleEditImage_run (h : Host) (st : ImageStudio.State) (f : File)
    (enc : EncodedBlob) :
  ImageStudio.originalImageFile st = Some f ->
  trim (ImageStudio.editPrompt st) <> [] ->
  blobToBase64 f = Normal enc ->
  run (ImageStudio.handleEditImage h st)
  = match run (editImage h (encoded_data enc) (encoded_mimeType enc)
                 (ImageStudio.editPrompt st)) with
    | (Normal imageUrl, log) =>
        (Normal {| ImageStudio.originalImageFile := Some f;
                   ImageStudio.originalImagePreview := ImageStudio.originalImagePreview st;
                   ImageStudio.editPrompt := ImageStudio.editPrompt st;
                   ImageStudio.editedImage :=
                     Some {| ImageStudio.url := imageUrl;
                             ImageStudio.prompt := ImageStudio.editPrompt st;
                             ImageStudio.size := None |};
                   ImageStudio.editLoading := false;
                   ImageStudio.editError := None |},
         log)
    | (Throw e, log) =>
        (Normal {| ImageStudio.originalImageFile := Some f;
                   ImageStudio.originalImagePreview := ImageStudio.originalImagePreview st;
                   ImageStudio.editPrompt := ImageStudio.editPrompt st;
                   ImageStudio.editedImage := None;
                   ImageStudio.editLoading := false;
                   ImageStudio.editError :=
                     Some (ImageStudio.FAILED_TO_EDIT
                           ++ (if truthy (message e) then message e
                               else lit "An unknown error occurred.")) |},
         log ++ [Console LevelError (lit "Error editing image:")])
    end.
Proof.
  intros Hf Hnb Hb. apply truthy_trim in Hnb.
  unfold run, ImageStudio.handleEditImage. rewrite Hf, Hnb.
  unfold bind at 1 2 3. unfold try_catch at 1. unfold lift, console_error, emit, ret.
  rewrite Hb. studio_state.
  destruct (editImage h (encoded_data enc) (encoded_mimeType enc)
              (ImageStudio.editPrompt st) []) as [[imageUrl|e] log];
    studio_state; now rewrite Hf.
Qed.

(** X17.  With a file that decodes and a prompt that is not blank,
    [handleEditImage] calls [editImage] once, with the decoded data and MIME
    type and the prompt, and stores what it gets: on success the edited image
    (with the prompt and no size) and no error; on failure no image and the
    error "Failed to edit image: " followed by the error's message, after
    logging it.  [editLoading] ends false and file, preview and prompt are
    left alone. *)
Theorem handleEditImage_outcomes (h : Host) (st : ImageStudio.State) (f : File)
    (enc : EncodedBlob) :
  ImageStudio.originalImageFile st = Some f ->
  trim (ImageStudio.editPrompt st) <> [] ->
  blobToBase64 f = Normal enc ->
  (forall imageUrl log,
     run (editImage h (encoded_data enc) (encoded_mimeType enc) (ImageStudio.editPrompt st))
     = (Normal imageUrl, log) ->
     run (ImageStudio.handleEditImage h st)
     = (Normal {| ImageStudio.originalImageFile := Some f;
                  ImageStudio.originalImagePreview := ImageStudio.originalImagePreview st;
                  ImageStudio.editPrompt := ImageStudio.editPrompt st;
                  ImageStudio.editedImage :=
                    Some {| ImageStudio.url := imageUrl;
                            ImageStudio.prompt := ImageStudio.editPrompt st;
                            ImageStudio.size := None |};
                  ImageStudio.editLoading := false;
                  ImageStudio.editError := None |},
        log))
  /\ (forall e log,
        run (editImage h (encoded_data enc) (encoded_mimeType enc)
               (ImageStudio.editPrompt st))
        = (Throw e, log) ->
        run (ImageStudio.handleEditImage h st)
        = (Normal {| ImageStudio.originalImageFile := Some f;
                     ImageStudio.originalImagePreview := ImageStudio.originalImagePreview st;
                     ImageStudio.editPrompt := ImageStudio.editPrompt st;
                     ImageStudio.editedImage := None;
                     ImageStudio.editLoading := false;
                     ImageStudio.editError :=
                       Some (ImageStudio.FAILED_TO_EDIT
                             ++ (if truthy (message e) then message e
                                 else lit "An unknown error occurred.")) |},
           log ++ [Console LevelError (lit "Error editing image:")])).
Proof.
  intros Hf Hnb Hb. rewrite (handleEditImage_run h st f enc Hf Hnb Hb).
  split; intros ? log ->; reflexivity.
Qed.

Lemma handleEditImage_outcomes_witness :
  ImageStudio.originalImageFile
    (MoreSamples.editing (Some MoreSamples.png_file) MoreSamples.hat)
  = Some MoreSamples.png_file
  /\ trim (ImageStudio.editPrompt
             (MoreSamples.editing (Some MoreSamples.png_file) MoreSamples.hat)) <> []
  /\ blobToBase64 MoreSamples.png_file
     = Normal {| encoded_data := lit "iVBORw0KGgo="; encoded_mimeType := lit "image/png" |}
  /\ run (ImageStudio.handleEditImage MoreSamples.studio_host
            (MoreSamples.editing (Some MoreSamples.png_file) MoreSamples.hat))
     = (Normal {| ImageStudio.originalImageFile := Some MoreSamples.png_file;
                  ImageStudio.originalImagePreview := None;
                  ImageStudio.editPrompt := MoreSamples.hat;
                  ImageStudio.editedImage :=
                    Some {| ImageStudio.url := lit "data:image/png;base64,iVBORw0KGgo=";
                            ImageStudio.prompt := MoreSamples.hat;
                            ImageStudio.size := None |};
                  ImageStudio.editLoading := false;
                  ImageStudio.editError := None |},
        [Request (editRequest (lit "iVBORw0KGgo=") (lit "image/png") MoreSamples.hat) None]).
Proof.
  assert (Hf : ImageStudio.originalImageFile
                 (MoreSamples.editing (Some MoreSamples.png_file) MoreSamples.hat)
               = Some MoreSamples.png_file) by reflexivity.
  assert (Hnb : trim (ImageStudio.editPrompt
                        (MoreSamples.editing (Some MoreSamples.png_file) MoreSamples.hat))
                <> []) by discriminate.
  assert (Hb : blobToBase64 MoreSamples.png_file
               = Normal {| encoded_data := lit "iVBORw0KGgo=";
                           encoded_mimeType := lit "image/png" |})
    by (vm_compute; reflexivity).
  repeat (split; [assumption|]).
  refine (proj1 (handleEditImage_outcomes MoreSamples.studio_host
                   (MoreSamples.editing (Some MoreSamples.png_file) MoreSamples.hat)
                   MoreSamples.png_file _ Hf Hnb Hb)
            (lit "data:image/png;base64,iVBORw0KGgo=")
            [Request (editRequest (lit "iVBORw0KGgo=") (lit "image/png") MoreSamples.hat) None]
            _).
  vm_compute. reflexivity.
Defined.

(** X18.  From upload to edit.  After [handleImageFileChange] has taken a
    file that reads as the data URL of MIME type [m] and data [d], the preview
    is that data URL and earlier results and errors are cleared; a following
    [handleEditImage] (prompt not blank, credential configured) issues exactly
    one request, and its image part carries exactly [d] and [m].  If the
    answer has an image, it is stored as a data URL with the prompt.  If the
    call fails, the error shown carries the prefix twice, once from
    [editImage] and once from the handler. *)
Theorem uploaded_image_is_what_gets_edited (h : Host) (st0 : ImageStudio.State)
    (m d : jsstring) (others : list File) (f : File) :
  f = mkFile (Loaded (data_url {| data := Some d; mimeType := Some m |})) ->
  m <> [] -> d <> [] -> ~ In COMMA m -> ~ In COMMA d ->
  existsb isLineTerminator m = false ->
  includes m (lit ";base64") = false ->
  truthy_opt (API_KEY h) = true ->
  trim (ImageStudio.editPrompt st0) <> [] ->
  ImageStudio.handleImageFileChange (Some (f :: others)) st0
  = {| ImageStudio.originalImageFile := Some f;
       ImageStudio.originalImagePreview :=
         Some (data_url {| data := Some d; mimeType := Some m |});
       ImageStudio.editPrompt := ImageStudio.editPrompt st0;
       ImageStudio.editedImage := None;
       ImageStudio.editLoading := ImageStudio.editLoading st0;
       ImageStudio.editError := None |}
  /\ exists st' log,
       run (ImageStudio.handleEditImage h
              (ImageStudio.handleImageFileChange (Some (f :: others)) st0))
       = (Normal st', Request (editRequest d m (ImageStudio.editPrompt st0)) None :: log)
       /\ requests log = []
       /\ ImageStudio.editLoading st' = false
       /\ (forall resp part blob,
             service h 0 (editRequest d m (ImageStudio.editPrompt st0)) = Normal resp ->
             find_imagePart resp = Some part -> inlineData part = Some blob ->
             ImageStudio.editedImage st'
             = Some {| ImageStudio.url := data_url blob;
                       ImageStudio.prompt := ImageStudio.editPrompt st0;
                       ImageStudio.size := None |}
             /\ ImageStudio.editError st' = None)
       /\ (forall e,
             service h 0 (editRequest d m (ImageStudio.editPrompt st0)) = Throw e ->
             ImageStudio.editedImage st' = None
             /\ ImageStudio.editError st'
                = Some (ImageStudio.FAILED_TO_EDIT ++ ImageStudio.FAILED_TO_EDIT
                        ++ (if truthy (message e) then message e
                            else lit "An unknown error occurred."))).
Proof.
  intros Hfile Hm Hd Hcm Hcd Hlt Hinc Hk Hnb.
  assert (Hb : blobToBase64 f = Normal {| encoded_data := d; encoded_mimeType := m |})
    by (rewrite Hfile; now apply blobToBase64_of_data_url).
  assert (Hst : ImageStudio.handleImageFileChange (Some (f :: others)) st0
                = {| ImageStudio.originalImageFile := Some f;
                     ImageStudio.originalImagePreview :=
                       Some (data_url {| data := Some d; mimeType := Some m |});
                     ImageStudio.editPrompt := ImageStudio.editPrompt st0;
                     ImageStudio.editedImage := None;
                     ImageStudio.editLoading := ImageStudio.editLoading st0;
                     ImageStudio.editError := None |}).
  { unfold ImageStudio.handleImageFileChange. studio_state. now rewrite Hfile. }
  split; [exact Hst|]. rewrite Hst.
  match goal with
  | |- context [ImageStudio.handleEditImage h ?s] =>
      rewrite (handleEditImage_run h s f _ eq_refl Hnb Hb)
  end.
  cbn [encoded_data encoded_mimeType ImageStudio.editPrompt
       ImageStudio.originalImagePreview].
  unfold run, editImage. rewrite Hk. cbn [negb]. rewrite image_call_outcome.
  cbn [requests List.filter length app].
  destruct (service h 0 (editRequest d m (ImageStudio.editPrompt st0))) as [resp|e].
  - destruct (find_imagePart resp) as [[t [b|]]|] eqn:Hfind.
    + eexists _, _. split; [reflexivity|].
      cbn [ImageStudio.editLoading ImageStudio.editedImage ImageStudio.editError].
      split; [reflexivity|]. split; [reflexivity|]. split; [|intros e' [=]].
      intros resp' part' blob' [= <-] Hfind' Hblob. rewrite Hfind in Hfind'.
      injection Hfind' as <-. cbn [inlineData] in Hblob. injection Hblob as <-.
      split; reflexivity.
    + destruct (find_imagePart_inline resp _ Hfind) as [? ?]. discriminate.
    + eexists _, _. split; [reflexivity|].
      cbn [ImageStudio.editLoading ImageStudio.editedImage ImageStudio.editError].
      split; [reflexivity|]. split; [reflexivity|]. split; [|intros e' [=]].
      intros resp' part' blob' [= <-] Hfind'. rewrite Hfind in Hfind'. discriminate.
  - eexists _, _. split; [reflexivity|].
    cbn [ImageStudio.editLoading ImageStudio.editedImage ImageStudio.editError].
    split; [reflexivity|]. split; [reflexivity|]. split; [intros ? ? ? [=]|].
    intros e' [= <-]. split; reflexivity.
Qed.

Lemma uploaded_image_is_what_gets_edited_witness :
  MoreSamples.png_file
  = mkFile (Loaded (data_url {| data := Some (lit "iVBORw0KGgo=");
                                mimeType := Some (lit "image/png") |}))
  /\ lit "image/png" <> [] /\ lit "iVBORw0KGgo=" <> []
  /\ ~ In COMMA (lit "image/png") /\ ~ In COMMA (lit "iVBORw0KGgo=")
  /\ existsb isLineTerminator (lit "image/png") = false
  /\ includes (lit "image/png") (lit ";base64") = false
  /\ truthy_opt (API_KEY MoreSamples.studio_host) = true
  /\ trim (ImageStudio.editPrompt (MoreSamples.editing None MoreSamples.hat)) <> []
  /\ exists st' log,
       run (ImageStudio.handleEditImage MoreSamples.studio_host
              (ImageStudio.handleImageFileChange (Some [MoreSamples.png_file])
                 (MoreSamples.editing None MoreSamples.hat)))
       = (Normal st',
          Request (editRequest (lit "iVBORw0KGgo=") (lit "image/png") MoreSamples.hat) None
          :: log)
       /\ requests log = []
       /\ ImageStudio.editLoading st' = false.
Proof.
  assert (Hfile : MoreSamples.png_file
                  = mkFile (Loaded (data_url {| data := Some (lit "iVBORw0KGgo=");
                                                mimeType := Some (lit "image/png") |})))
    by (vm_compute; reflexivity).
  assert (Hm : lit "image/png" <> []) by discriminate.
  assert (Hd : lit "iVBORw0KGgo=" <> []) by discriminate.
  assert (Hcm : ~ In COMMA (lit "image/png"))
    by (intros H; vm_compute in H; intuition discriminate).
  assert (Hcd : ~ In COMMA (lit "iVBORw0KGgo="))
    by (intros H; vm_compute in H; intuition discriminate).
  assert (Hlt : existsb isLineTerminator (lit "image/png") = false) by reflexivity.
  assert (Hinc : includes (lit "image/png") (lit ";base64") = false) by reflexivity.
  assert (Hk : truthy_opt (API_KEY MoreSamples.studio_host) = true) by reflexivity.
  assert (Hnb : trim (ImageStudio.editPrompt (MoreSamples.editing None MoreSamples.hat))
                <> []) by discriminate.
  repeat (split; [assumption|]).
  destruct (proj2 (uploaded_image_is_what_gets_edited MoreSamples.studio_host
                     (MoreSamples.editing None MoreSamples.hat)
                     (lit "image/png") (lit "iVBORw0KGgo=") [] MoreSamples.png_file
                     Hfile Hm Hd Hcm Hcd Hlt Hinc Hk Hnb))
    as (st' & log & Hrun & Hreq & Hload & _).
  exists st', log. split; [exact Hrun|]. split; [exact Hreq|exact Hload].
Defined.

(** ** [QuickChat] *)

Ltac chat_state :=
  unfold QuickChat.setLoading, QuickChat.setError, QuickChat.setResponse;
  cbn [QuickChat.question QuickChat.response QuickChat.loading QuickChat.error].

(** What [handleSubmit] makes of the result of [getQuickResponse]. *)
Lemma handleSubmit_run (h : Host) (e : QuickChat.FormEvent) (st : QuickChat.State) :
  trim (QuickChat.question st) <> [] ->
  run (QuickChat.handleSubmit h e st)
  = match run (getQuickResponse h (QuickChat.question st)) with
    | (Normal aiResponse, log) =>
        (Normal (QuickChat.preventDefault e,
                 {| QuickChat.question := QuickChat.question st;
                    QuickChat.response := Some aiResponse;
                    QuickChat.loading := false;
                    QuickChat.error := None |}),
         log)
    | (Throw err, log) =>
        (Normal (QuickChat.preventDefault e,
                 {| QuickChat.question := QuickChat.question st;
                    QuickChat.response := None;
                    QuickChat.loading := false;
                    QuickChat.error :=
                      Some (QuickChat.COULD_NOT_GET
                            ++ (if truthy (message err) then message err
                                else lit "An unknown error occurred.")) |}),
         log ++ [Console LevelError (lit "Error getting quick response:")])
    end.
Proof.
  intros Hnb. apply truthy_trim in Hnb.
  unfold run, QuickChat.handleSubmit. rewrite Hnb.
  unfold bind at 1 2. unfold try_catch at 1. unfold console_error, emit, ret.
  chat_state.
  destruct (getQuickResponse h (QuickChat.question st) []) as [[t|err] log];
    chat_state; reflexivity.
Qed.

(** X19.  [handleSubmit] of the chat form.  The default action of the event
    is prevented in every case.  A blank question is answered with a request
    for a question, without any call.  Otherwise [getQuickResponse] is called
    once with the question: its answer is stored and the error cleared, or,
    if it throws, the answer is cleared and the error is "Oops! Couldn't get a
    fun fact right now: " followed by the error's message, after logging it.
    [loading] ends false. *)
Theorem handleSubmit_outcomes (h : Host) (e : QuickChat.FormEvent) (st : QuickChat.State) :
  (trim (QuickChat.question st) = [] ->
   run (QuickChat.handleSubmit h e st)
   = (Normal (QuickChat.preventDefault e,
              QuickChat.setError (Some QuickChat.PLEASE_ASK) st), []))
  /\ (forall aiResponse log,
        trim (QuickChat.question st) <> [] ->
        run (getQuickResponse h (QuickChat.question st)) = (Normal aiResponse, log) ->
        run (QuickChat.handleSubmit h e st)
        = (Normal (QuickChat.preventDefault e,
                   {| QuickChat.question := QuickChat.question st;
                      QuickChat.response := Some aiResponse;
                      QuickChat.loading := false;
                      QuickChat.error := None |}),
           log))
  /\ (forall err log,
        trim (QuickChat.question st) <> [] ->
        run (getQuickResponse h (QuickChat.question st)) = (Throw err, log) ->
        run (QuickChat.handleSubmit h e st)
        = (Normal (QuickChat.preventDefault e,
                   {| QuickChat.question := QuickChat.question st;
                      QuickChat.response := None;
                      QuickChat.loading := false;
                      QuickChat.error :=
                        Some (QuickChat.COULD_NOT_GET
                              ++ (if truthy (message err) then message err
                                  else lit "An unknown error occurred.")) |}),
           log ++ [Console LevelError (lit "Error getting quick response:")])).
Proof.
  split; [|split].
  - intros Hblank. unfold run, QuickChat.handleSubmit. rewrite Hblank. reflexivity.
  - intros t log Hnb Hrun. rewrite (handleSubmit_run h e st Hnb), Hrun. reflexivity.
  - intros err log Hnb Hrun. rewrite (handleSubmit_run h e st Hnb), Hrun. reflexivity.
Qed.

(** X20.  [handleSubmit] never throws, leaves the question alone and issues
    at most one request.  For a question that is not blank it ends with
    [loading] false and exactly one of [response] and [error] set, and a
    stored response is never the empty string.  Without a credential the
    error shown is the configuration message after the chat prefix, and no
    request is issued. *)
Theorem handleSubmit_settles (h : Host) (e : QuickChat.FormEvent) (st : QuickChat.State) :
  exists st' log,
    run (QuickChat.handleSubmit h e st) = (Normal (QuickChat.preventDefault e, st'), log)
    /\ QuickChat.question st' = QuickChat.question st
    /\ (length (requests log) <= 1)%nat
    /\ (trim (QuickChat.question st) <> [] ->
        QuickChat.loading st' = false
        /\ (QuickChat.response st' = None <-> QuickChat.error st' <> None)
        /\ QuickChat.response st' <> Some []
        /\ (truthy_opt (API_KEY h) = false ->
            QuickChat.error st' = Some (QuickChat.COULD_NOT_GET ++ API_KEY_not_set)
            /\ requests log = [])).
Proof.
  destruct (trim (QuickChat.question st)) as [|c s] eqn:Hblank.
  - eexists _, _. split.
    + unfold run, QuickChat.handleSubmit. rewrite Hblank. reflexivity.
    + split; [reflexivity|]. split; [cbn; lia|]. congruence.
  - assert (Hnb : trim (QuickChat.question st) <> []) by (rewrite Hblank; discriminate).
    rewrite (handleSubmit_run h e st Hnb).
    unfold run, getQuickResponse, try_catch, bind, generateContent, rethrow,
      console_error, emit, throw, ret.
    destruct (truthy_opt (API_KEY h)); cbn [negb requests List.filter length app].
    + destruct (service h 0 (quickRequest (QuickChat.question st))) as [resp|err].
      * eexists _, _. split; [reflexivity|]. chat_state.
        split; [reflexivity|]. split; [cbn; lia|]. intros _.
        split; [reflexivity|]. split; [split; [discriminate|congruence]|].
        split; [|discriminate].
        unfold or_else. destruct (response_text resp) as [[|? ?]|]; discriminate.
      * eexists _, _. split; [reflexivity|]. chat_state.
        split; [reflexivity|]. split; [cbn; lia|]. intros _.
        split; [reflexivity|]. split; [split; [discriminate|reflexivity]|].
        split; discriminate.
    + eexists _, _. split; [reflexivity|]. chat_state.
      split; [reflexivity|]. split; [cbn; lia|]. intros _.
      split; [reflexivity|]. split; [split; [discriminate|reflexivity]|].
      split; [discriminate|]. intros _. split; reflexivity.
Qed.

(** ** [checkApiKeyStatus] *)

(** X21.  The key check that [App] runs after mounting never throws, issues
    no request and changes nothing but the key-selected flag.  When
    [window.aistudio.hasSelectedApiKey] is a function, the flag is what the
    call resolves to, and false when the call rejects.  When the tool is not
    available, the flag tells whether a credential is configured: it is false
    exactly when [generateKidArticle] fails with the configuration error
    before calling the service. *)
Theorem checkApiKeyStatus_settles (aistudio : option AIStudio) (h : Host) (st : AppState) :
  exists flag log,
    run (checkApiKeyStatus aistudio h st) = (Normal (setApiKeySelected flag st), log)
    /\ requests log = []
    /\ (forall call,
          aistudio = Some {| hasSelectedApiKey := Some call |} ->
          flag = match call with Normal hasKey => hasKey | Throw _ => false end)
    /\ (aistudio = None \/ aistudio = Some {| hasSelectedApiKey := None |} ->
        flag = truthy_opt (API_KEY h)
        /\ (flag = false
            <-> forall topic,
                  run (generateKidArticle h topic)
                  = (Throw (new_Error API_KEY_not_set), []))).
Proof.
  assert (Hfallback :
            truthy_opt (API_KEY h) = false
            <-> forall topic,
                  run (generateKidArticle h topic)
                  = (Throw (new_Error API_KEY_not_set), [])).
  { split.
    - intros Hk topic. unfold run, generateKidArticle. now rewrite Hk.
    - intros Hall. specialize (Hall []).
      apply generateKidArticle_Throw in Hall as [(Hk & _) | [(_ & Ht) | (_ & H)]];
        [exact Hk| |].
      + destruct (articleText_outcome h [] []) as (r & log' & E & R & _).
        unfold run in Ht. rewrite E in Ht. injection Ht as _ ->. discriminate.
      + destruct H as (? & ? & ? & ? & ? & ? & _ & _ & _ & _ & R). discriminate. }
  unfold run, checkApiKeyStatus, try_catch, bind, lift, console_error, console_warn,
    emit, ret.
  destruct aistudio as [[[[hasKey|err]|]]|].
  - exists hasKey. eexists. split; [reflexivity|]. split; [reflexivity|].
    split; [intros call [= <-]; reflexivity|]. intros [?|?]; discriminate.
  - exists false. eexists. split; [reflexivity|]. split; [reflexivity|].
    split; [intros call [= <-]; reflexivity|]. intros [?|?]; discriminate.
  - exists (truthy_opt (API_KEY h)). eexists. split; [reflexivity|].
    split; [reflexivity|]. split; [intros call [=]|]. intros _. split; [reflexivity|].
    exact Hfallback.
  - exists (truthy_opt (API_KEY h)). eexists. split; [reflexivity|].
    split; [reflexivity|]. split; [intros call [=]|]. intros _. split; [reflexivity|].
    exact Hfallback.
Qed.
